(* ===== verification/_CoqProject ===== *)
-Q . S2P
Prelude.v
StringUtil.v
ReplaceAll.v
X11Extensions.v
Trace.v
Lifecycle.v
EventModule.v
Environ.v
Config.v
Label.v
Builder.v
DateModule.v
TimerModule.v
MemoryUtil.v
MemoryTyped.v
DateSteps.v
DateSerial.v
RunnerSteps.v
