(* ===== verification/Prelude.v ===== *)
(** * Verification of the polybar module core

    This library models, as executable Rocq definitions, the part of
    polybar that drives one bar module: the date module
    (src/src/modules/date.cpp), the event-driven worker loop
    (src/include/modules/meta/event_module.hpp), the timer-driven
    worker the date module runs under, and the collaborators those
    call.  Every definition that models code keeps the name the
    code gives it.

    ** The program

    A module owns some displayed content, a content lock, an enabled
    flag and one worker thread.  The worker runs a driving strategy
    ([event_module::runner] here): it takes the content lock, asks the
    implementation to [update()], broadcasts a redraw request when the
    content changed, and waits.  Any exception that escapes the loop is
    turned into [halt(what)].  The date module is one implementation: its
    [update()] formats the current time twice (date and time, in one or
    two time zones, selected by the toggle), compares with what is shown,
    and rewrites the label; [input()] flips the toggle and wakes the
    worker; [build()] emits the label, wrapped in a click command when an
    alternative format exists.

    ** Files

    - [Prelude] (this file): the result type that stands for a C++
      exception, the state-and-exception monad [prog] in which worker
      code is written, its notation scope, the tactics and hint
      databases the other files use.
    - [StringUtil]: [string_util::trim], [ltrim], [rtrim] and
      [replace_all]; part of polybar but outside the inspected sources.
    - [ReplaceAll]: a reference for [replace_all] by recursion on the
      text, and what the rewriting of one tag into another leaves.
    - [X11Extensions]: the conditional include list of
      src/include/x11/extensions/all.hpp, as definitions only: a list of
      includes has no behaviour that a theorem could pin.
    - [Trace]: the actions a worker performs, monitors over traces (lock
      discipline, event guard, halt) and counts.
    - [Lifecycle]: the module base: enabled flag, halt reason, content
      lock, changed flag, the abstract lifecycle (Idle, Running, Halted)
      and the interfaces [ModuleImpl] and [EventImpl] that an
      implementation provides to a driving strategy.
    - [EventModule]: [event_module::start] and [event_module::runner],
      statement by statement, over any [EventImpl].
    - [RunnerSteps]: [runner] once more, one statement of
      event_module.hpp per step, interleaved with the renderer, which
      takes the content lock to read, and the owner, which asks for a
      stop.
    - [Environ]: the process environment ([getenv], [setenv]) as a finite
      map, and the time formatter interface [TimeFormat] standing for
      [std::put_time (localtime ...)].
    - [Config]: typed lookup of settings with a fallback, and the format
      table of a module ([module_formatter]).
    - [Label]: the label drawtype ([reset_tokens], [replace_token]).
    - [Builder]: the builder output stream ([cmd], [node], [cmd_close])
      and the well-nestedness of what it holds.
    - [DateModule]: the date module: constructor, [update], [build],
      [input], and its [ModuleImpl] instance.
    - [TimerModule]: the timer-driven worker (warm-up, then wait and
      evaluation while the module runs), from its contract, with the
      date module as its instance [date_timer]; a pure reference of the
      passes of the loop, and the strings of the clock at the ticks.
    - [DateSteps]: [update] once more, as a program counter over the
      statements of src/src/modules/date.cpp and a frame of local
      variables, and a process of several date modules whose workers
      and click dispatcher interleave statement by statement.
    - [DateSerial]: schedules of such a process compared: what each
      worker meets of a schedule, and the schedules that agree on it.
    - [MemoryUtil]: [memory_util::make_malloc_ptr] and [countof] of
      src/include/utils/memory.hpp, over a heap with [malloc] and [free]
      and shared pointers with their control blocks.
    - [MemoryTyped]: the same two templates with the type parameter,
      the default arguments and the width of [size_t].

    ** How state and effects are modelled

    - A C++ exception is a value [Err what]; a function that may throw
      returns a [result].  Code that also mutates the object is a
      [prog St A := St -> result A * St]: the state reached when the
      exception was thrown is kept, as in C++.
    - A [std::unique_lock] is its [owns] flag together with the mutex of
      the module record; leaving the scope by an exception runs the
      destructor, which unlocks when the guard owns the mutex.
    - Static polymorphism (the base class calls the implementation it
      is instantiated with) is a type class: [ModuleImpl] and
      [EventImpl] in [Lifecycle].  The theorems of [EventModule] hold
      for every instance; the date module is one.
    - Every operation that the safety properties speak about appends an
      action to the trace of the module, a history variable.  A safety
      property is a monitor that accepts the trace.
    - The wall clock and the time zone database are outside the program:
      [update] takes the current time as an argument and formats through
      the [TimeFormat] interface; [Environ.demo_format] is an instance that
      evaluates, used by the concrete witnesses.
    - Undefined behaviour (a second [start] on a joinable thread, [free]
      of a block that is not live) is a result of its own, never a
      state.

    ** Bounds and fuel

    - The worker loop does not terminate by itself: it runs until
      [running()] is false.  The environment is a schedule, a list with
      one boolean per evaluation of the loop condition, saying whether
      the owner has asked the module to stop since the previous
      evaluation.  The schedule is the fuel of the loop: a run that
      exhausts it returns [None], which no theorem reads as a result.
      The termination theorems show that a schedule that holds a stop
      request gives [Some], and that a warm-up that throws ends the run
      on every schedule.
    - The loop of [string_util::replace_all] runs on fuel, the length
      of the haystack, which is enough whenever the needle is not empty
      ([StringUtil.string_util.replace_all_terminates]); with that fuel
      the loop computes the reference
      ([ReplaceAll.replace_all_ref.replace_all_ref]).
    - Times are seconds in [Z], sizes are [N], use counts are [nat]:
      none is bounded.  [MemoryTyped] puts the sizes at the width of
      [size_t] (64 bits): an argument is converted by [to_size_t], and
      a type exists when its size fits ([complete]); on such types the
      division of [countof] at that width is the one on [N].  The
      overflow of [time_t] is not modelled.
    - The timer waits a whole interval, in seconds the quotient of the
      milliseconds of the setting by 1000, or not at all when a wakeup
      is pending; its loop runs on a schedule of stop requests as the
      event-driven one does.
    - The heap of [MemoryUtil] has a capacity, which is how [malloc]
      fails; addresses are fresh positives.
    - A call of [update] has at most 17 statements
      ([DateSteps.date_steps.update_length]); a returned call absorbs
      further steps, so 17 steps finish every call.

    ** What the theorems show

    - [EventModule]: every finished run of the worker is a trace of the
      protocol (warm-up, loop passes, at most one final halt); the
      implementation is called with the content lock held only, and the
      lock is free when the worker waits, halts and returns, on normal
      and exceptional paths; an exception never leaves the worker, it
      disables the module and records the message; the warm-up is the
      first evaluation and does not ask for an event, every later
      [update] follows a positive [has_event]; after the warm-up there
      is one broadcast per changed evaluation; the worker returns on
      every schedule that asks for a stop and runs exactly as many
      passes as the schedule allows when nothing throws; each operation
      is a step of the lifecycle or leaves it alone, a halted module
      never runs again, and a second [start] ends the process.
    - [RunnerSteps]: every finished run of [runner] is a schedule of
      statements; under every schedule the lock is held by one thread
      at most, the renderer never reads while [update] writes, and the
      worker's lock discipline holds at every moment.
    - [DateModule]: the constructor fails exactly when neither format is
      given, and what it builds is well formed; it rewrites the
      deprecated tag of the format, leaves none, and loads the label
      exactly when the configured format names one of the two tags;
      [update] shows the
      current time in the selected format and zone, returns false
      exactly when that is what is shown already (and then writes the
      scratch stream only), rebuilds the label from its template
      otherwise; the time zone variable is restored only on the changed
      path and only when it was set, and is left in the second zone
      otherwise; [input] flips the toggle, wakes the worker and ignores
      unknown commands; [build] emits a well-nested command stream whose
      click command [input] accepts.
    - [DateSteps]: the statements executed in a row compute what the
      function [update] computes; a click between two reads of the
      toggle makes one call mix the two formats; two modules with
      different zones can show each other's time and leave the process
      in a foreign zone; when no module names a zone, no schedule lets
      one module influence another.
    - [DateSerial]: when no module names a zone, two schedules in
      which every worker meets the same events end in the same state:
      all interleavings of different modules are equivalent.
    - [TimerModule]: the worker is the reference function iterated;
      for a date module that names no zone it calls [update] once per
      tick and once to warm up, broadcasts once per evaluation whose
      strings differ from those shown before, and ends showing the
      strings of the last tick; after a click the next wait ends at
      once and the evaluation shows the other formats.
    - [MemoryUtil]: [make_malloc_ptr] returns a shared pointer of use
      count one that holds a fresh block of the size asked, or the null
      pointer when the heap is exhausted; programs that create, copy and
      destroy such pointers never free twice and give every byte back;
      [countof] is the number of elements on arrays.
    - [MemoryTyped]: a pointer made with the default size holds an
      object of its type; one made with an explicit size does exactly
      when the size, converted to [size_t], is large enough; [countof]
      does not overflow on types that exist.
    - [StringUtil], [Label], [Builder], [Environ], [Config],
      [X11Extensions]: the functional behaviour the above rely on.

    ** Assumptions of the models

    - The calls of the implementation ([update], [has_event], [idle])
      are total functions of the state of the implementation: they
      cannot block and cannot touch the flags of the base.
    - [Err] stands for a [std::exception]; the catch clause of
      [runner] (line 38 of event_module.hpp) catches nothing else, and
      nothing else is thrown in the model.
    - In [EventModule] taking the content lock sets the flag without
      waiting, since the worker is alone there; waiting for the lock
      exists in [RunnerSteps].  A stop request reaches the worker at
      the test of the loop only, one element of the schedule per test.
    - In [DateSteps] and [DateSerial] a statement of the source is one
      atomic step, the C library reads TZ atomically, and the static
      buffer that [localtime] returns to all threads is not modelled:
      the independence of modules that name no zone is a theorem about
      this model, with the environment as the only shared state.
    - [getenv] returns a value, not a pointer into the environment: the
      validity of the pointer of line 47 after the [setenv] of lines 52
      and 70 is assumed.
    - The constructor of the date module leaves out the locale (lines
      12 to 14, where [std::locale] can throw), and the lookups of the
      configuration and the registration of the format are total;
      the interval is a number of milliseconds.
    - The timer and its [impl_sleep] (the clock advances during a wait
      and never during [update]) come from the contract of the spec;
      line 11 of date.cpp only names the base class.

    ** Not modelled

    Thread creation itself, the statements inside the implementation's
    [update] for an arbitrary implementation ([RunnerSteps] gives a call
    a beginning and an end; [DateSteps] has the statements of the date
    module), waits of the timer that a wakeup cuts short part of the
    way, the static strategy, the logger, the
    signal emitter behind [broadcast], the configuration file parser,
    locale handling ([std::locale], [imbue]), the pointer returned by
    [getenv] (it is modelled by value), and the allocation of the
    control block of a shared pointer, which is assumed to succeed. *)

From Stdlib Require Export Ascii String.
From stdpp Require Export base tactics option list strings gmap.

Declare Scope polybar_scope.
Delimit Scope polybar_scope with pb.

(** ** Exceptions as values *)

Inductive result (A : Type) : Type :=
| Ok (a : A)
| Err (what : string).
Arguments Ok {A} a.
Arguments Err {A} what.

Definition is_ok {A} (r : result A) : bool :=
  match r with Ok _ => true | Err _ => false end.

Definition result_map {A B} (f : A -> B) (r : result A) : result B :=
  match r with Ok a => Ok (f a) | Err e => Err e end.

#[export] Instance result_eq_dec {A} `{EqDecision A} : EqDecision (result A).
Proof. solve_decision. Defined.

(** ** The state-and-exception monad

    [prog St A] is a method body: it reads and writes an object of type
    [St] and either returns an [A] or throws.  The state is returned in
    both cases. *)

Definition prog (St A : Type) : Type := St -> result A * St.

Definition ret {St A} (a : A) : prog St A := fun s => (Ok a, s).

Definition throw {St A} (what : string) : prog St A := fun s => (Err what, s).

Definition bind {St A B} (m : prog St A) (k : A -> prog St B) : prog St B :=
  fun s => match m s with
           | (Ok a, s') => k a s'
           | (Err e, s') => (Err e, s')
           end.

Definition try_catch {St A} (m : prog St A) (h : string -> prog St A) : prog St A :=
  fun s => match m s with
           | (Ok a, s') => (Ok a, s')
           | (Err e, s') => h e s'
           end.

Definition get {St} : prog St St := fun s => (Ok s, s).
Definition gets {St A} (f : St -> A) : prog St A := fun s => (Ok (f s), s).
Definition modify {St} (f : St -> St) : prog St unit := fun s => (Ok tt, f s).

(** Run [m]; whatever its outcome, run the clean-up [c] on the state it
    leaves: a destructor that runs on scope exit. *)
Definition finally {St A} (m : prog St A) (c : St -> St) : prog St A :=
  fun s => let '(r, s') := m s in (r, c s').

Notation "x <- c1 ;; c2" := (bind c1 (fun x => c2))
  (at level 100, c1 at next level, right associativity) : polybar_scope.
Notation "c1 ;; c2" := (bind c1 (fun _ => c2))
  (at level 100, right associativity) : polybar_scope.

Definition never_throws {St A} (m : prog St A) : Prop :=
  forall s, is_ok (m s).1 = true.

(** ** Automation *)

Create HintDb polybar discriminated.
Create Rewrite HintDb prog.

Ltac prog_unfold :=
  unfold bind, ret, throw, try_catch, get, gets, modify, finally in *.

(** Case analysis on every [result]-valued scrutinee and pair in sight. *)
Ltac case_results :=
  repeat match goal with
         | |- context [match ?m ?s with (_, _) => _ end] =>
             let r := fresh "r" in let s' := fresh "s" in
             let E := fresh "E" in destruct (m s) as [r s'] eqn:E; simpl
         | |- context [match ?r with Ok _ => _ | Err _ => _ end] =>
             destruct r; simpl
         end.

Ltac prog_simpl := prog_unfold; simpl in *; case_results; simplify_eq/=.

(** ** Laws of the monad, pointwise *)

Section prog_laws.
Context {St A B C : Type}.
Implicit Types (s : St) (m : prog St A).

Lemma bind_ret_l (a : A) (k : A -> prog St B) s : bind (ret a) k s = k a s.
Proof. done. Qed.

Lemma bind_ret_r m s : bind m ret s = m s.
Proof. unfold bind, ret. by destruct (m s) as [[]]. Qed.

Lemma bind_assoc m (k : A -> prog St B) (h : B -> prog St C) s :
  bind (bind m k) h s = bind m (fun a => bind (k a) h) s.
Proof. unfold bind. by destruct (m s) as [[]]. Qed.

Lemma bind_throw (e : string) (k : A -> prog St B) s :
  bind (throw e) k s = (Err e, s).
Proof. done. Qed.

Lemma try_catch_ret (a : A) h s : try_catch (ret a) h s = (Ok a, s).
Proof. done. Qed.

Lemma try_catch_throw (e : string) (h : string -> prog St A) s :
  try_catch (throw e) h s = h e s.
Proof. done. Qed.

Lemma try_catch_never_throws m (h : string -> prog St A) :
  (forall e, never_throws (h e)) -> never_throws (try_catch m h).
Proof.
  intros Hh s. unfold try_catch. destruct (m s) as [[a|e] s']; [done|apply Hh].
Qed.

Lemma finally_state m (c : St -> St) s : (finally m c s).2 = c (m s).2.
Proof. unfold finally. by destruct (m s). Qed.

Lemma finally_result m (c : St -> St) s : (finally m c s).1 = (m s).1.
Proof. unfold finally. by destruct (m s). Qed.
End prog_laws.

#[export] Hint Rewrite @bind_ret_l @bind_ret_r @bind_throw @try_catch_ret
  @try_catch_throw @finally_state @finally_result : prog.
#[export] Hint Resolve try_catch_never_throws : polybar.

(** ** Small facts on options and booleans shared by the components *)

Lemma bool_decide_string_eq (a b : string) :
  bool_decide (a = b) = String.eqb a b.
Proof.
  destruct (String.eqb_spec a b); [by apply bool_decide_eq_true|by apply bool_decide_eq_false].
Qed.

Lemma negb_involutive_iter (b : bool) (n : nat) :
  Nat.iter (2 * n) negb b = b.
Proof.
  induction n as [|n IH]; [done|].
  replace (2 * S n) with (S (S (2 * n))) by lia.
  simpl. by rewrite negb_involutive.
Qed.
