(* ===== verification/StringUtil.v ===== *)
(** * string_util: trimming and replacing

    The string helpers of polybar that the date module and the label
    call: [ltrim], [rtrim], [trim] on one needle character, [find]
    ([std::string::find], with [None] for [npos]) and [replace_all], the
    index loop that rewrites every occurrence of a needle.  The loop of
    [replace_all] runs on fuel; [replace_all_terminates] shows the fuel
    chosen, the length of the haystack, is enough whenever the needle is
    not empty. *)

From S2P Require Import Prelude.

Module string_util.

(** While the first character is the needle, erase it. *)
Fixpoint ltrim (value : string) (needle : ascii) : string :=
  match value with
  | EmptyString => EmptyString
  | String c rest => if Ascii.eqb c needle then ltrim rest needle else value
  end.

(** While the last character is the needle, erase it. *)
Fixpoint rtrim (value : string) (needle : ascii) : string :=
  match value with
  | EmptyString => EmptyString
  | String c rest =>
      match rtrim rest needle with
      | EmptyString => if Ascii.eqb c needle then EmptyString else String c EmptyString
      | r => String c r
      end
  end.

Definition trim (value : string) (needle : ascii) : string :=
  rtrim (ltrim value needle) needle.

(** [haystack.find(needle, start)]; [None] is [npos]. *)
Definition find (haystack needle : string) (start : nat) : option nat :=
  String.index start needle haystack.

Definition contains (haystack needle : string) : bool :=
  bool_decide (is_Some (find haystack needle 0)).

(** [result.replace(pos, len, replacement)] *)
Definition replace_at (result : string) (pos len : nat) (replacement : string) : string :=
  String.substring 0 pos result +:+ replacement
    +:+ String.substring (pos + len) (String.length result - (pos + len)) result.

(** [start < end], where [None] stands for [end = npos]. *)
Definition below_end (pos : nat) (bound : option nat) : bool :=
  match bound with Some e => pos <? e | None => true end.

(** The loop of [replace_all]: [bound] is the [end] argument. *)
Fixpoint replace_all_loop (fuel : nat) (result needle replacement : string)
    (start : nat) (bound : option nat) : option string :=
  match find result needle start with
  | None => Some result
  | Some pos =>
      if below_end pos bound then
        match fuel with
        | 0 => None
        | S fuel' =>
            replace_all_loop fuel'
              (replace_at result pos (String.length needle) replacement)
              needle replacement (pos + String.length replacement) bound
        end
      else Some result
  end.

Definition replace_all_from (haystack needle replacement : string)
    (start : nat) (bound : option nat) : option string :=
  replace_all_loop (String.length haystack) haystack needle replacement start bound.

(** [replace_all(haystack, needle, replacement)] with the default
    [start = 0], [end = npos].  A run that would not terminate (an empty
    needle) leaves the haystack as it is. *)
Definition replace_all (haystack needle replacement : string) : string :=
  default haystack (replace_all_from haystack needle replacement 0 None).

(** ** Trimming *)

Definition all_needle (s : string) (needle : ascii) : Prop :=
  Forall (fun c => c = needle) (list_ascii_of_string s).

Lemma ltrim_nil needle : ltrim "" needle = "".
Proof. done. Qed.

Lemma ltrim_head value needle c rest :
  ltrim value needle = String c rest -> c <> needle.
Proof.
  induction value as [|c' value IH]; simpl; [done|].
  destruct (Ascii.eqb_spec c' needle); [done|congruence].
Qed.

Lemma ltrim_idem value needle :
  ltrim (ltrim value needle) needle = ltrim value needle.
Proof.
  induction value as [|c value IH]; simpl; [done|].
  destruct (Ascii.eqb_spec c needle) as [->|Hne]; [done|].
  simpl. by destruct (Ascii.eqb_spec c needle).
Qed.

Lemma ltrim_length value needle :
  String.length (ltrim value needle) <= String.length value.
Proof.
  induction value as [|c value IH]; simpl; [done|].
  destruct (Ascii.eqb c needle); simpl; lia.
Qed.

Lemma ltrim_empty_iff value needle :
  ltrim value needle = "" <-> all_needle value needle.
Proof.
  unfold all_needle. induction value as [|c value IH]; simpl.
  - split; [constructor|done].
  - destruct (Ascii.eqb_spec c needle) as [->|Hne].
    + rewrite IH. split; [by constructor|by inversion 1].
    + split; [done|by inversion 1].
Qed.

Lemma rtrim_empty_iff value needle :
  rtrim value needle = "" <-> all_needle value needle.
Proof.
  unfold all_needle. induction value as [|c value IH]; simpl.
  - split; [constructor|done].
  - destruct (rtrim value needle) eqn:E.
    + destruct (Ascii.eqb_spec c needle) as [->|Hne].
      * split; [constructor; [done|by apply IH]|done].
      * split; [done|by inversion 1].
    + split; [done|]. inversion 1; subst. by apply IH in H3.
Qed.

Lemma rtrim_length value needle :
  String.length (rtrim value needle) <= String.length value.
Proof.
  induction value as [|c value IH]; simpl; [done|].
  destruct (rtrim value needle); [destruct (Ascii.eqb c needle)|]; simpl in *; lia.
Qed.

Lemma all_needle_ltrim value needle :
  all_needle (ltrim value needle) needle -> all_needle value needle.
Proof. intros H. apply ltrim_empty_iff. apply ltrim_empty_iff in H. by rewrite ltrim_idem in H. Qed.

(** [trim] gives the empty string exactly on strings made of the needle. *)
Lemma trim_empty_iff value needle :
  trim value needle = "" <-> all_needle value needle.
Proof.
  unfold trim. rewrite rtrim_empty_iff. split; [apply all_needle_ltrim|].
  intros H. apply ltrim_empty_iff in H. rewrite H. constructor.
Qed.

Lemma trim_length value needle :
  String.length (trim value needle) <= String.length value.
Proof.
  unfold trim. etrans; [apply rtrim_length|apply ltrim_length].
Qed.

Lemma trim_nil needle : trim "" needle = "".
Proof. done. Qed.

Lemma rtrim_cons_ne c value needle :
  c <> needle -> exists r, rtrim (String c value) needle = String c r.
Proof.
  intros Hne. simpl. destruct (rtrim value needle); [|by eauto].
  destruct (Ascii.eqb_spec c needle); [done|by eauto].
Qed.

Lemma rtrim_idem value needle :
  rtrim (rtrim value needle) needle = rtrim value needle.
Proof.
  induction value as [|c value IH]; simpl; [done|].
  destruct (rtrim value needle) as [|c' r] eqn:E.
  - destruct (Ascii.eqb_spec c needle) as [->|Hne]; simpl; [done|].
    by destruct (Ascii.eqb_spec c needle).
  - simpl in *. by rewrite IH.
Qed.

Lemma ltrim_rtrim_ltrim value needle :
  ltrim (rtrim (ltrim value needle) needle) needle = rtrim (ltrim value needle) needle.
Proof.
  destruct (ltrim value needle) as [|c rest] eqn:E; [done|].
  apply ltrim_head in E. destruct (rtrim_cons_ne c rest needle E) as [r ->].
  simpl. by destruct (Ascii.eqb_spec c needle).
Qed.

(** A trimmed string is left as it is by a second trim. *)
Lemma trim_idem value needle : trim (trim value needle) needle = trim value needle.
Proof. unfold trim. by rewrite ltrim_rtrim_ltrim, rtrim_idem. Qed.

(** ** Replacing *)

Lemma contains_false haystack needle :
  contains haystack needle = false <-> find haystack needle 0 = None.
Proof.
  unfold contains. rewrite bool_decide_eq_false, <- eq_None_not_Some. done.
Qed.

Lemma replace_all_loop_absent fuel result needle replacement start bound :
  find result needle start = None ->
  replace_all_loop fuel result needle replacement start bound = Some result.
Proof. intros H. destruct fuel; simpl; by rewrite H. Qed.

(** A haystack that does not hold the needle is returned as it is. *)
Lemma replace_all_absent haystack needle replacement :
  contains haystack needle = false ->
  replace_all haystack needle replacement = haystack.
Proof.
  intros H%contains_false. unfold replace_all, replace_all_from.
  by rewrite replace_all_loop_absent.
Qed.

(** ** Termination of replace_all *)

Lemma length_append (s1 s2 : string) :
  String.length (s1 +:+ s2) = String.length s1 + String.length s2.
Proof. induction s1 as [|c s1 IH]; simpl; [done|by rewrite IH]. Qed.

Lemma length_substring n m (s : string) :
  String.length (String.substring n m s) = Nat.min m (String.length s - n).
Proof.
  revert n m. induction s as [|c s IH]; intros [|n] [|m];
    cbn [String.substring String.length Nat.sub]; rewrite ?IH; lia.
Qed.

Lemma prefix_length (s1 s2 : string) :
  String.prefix s1 s2 = true -> String.length s1 <= String.length s2.
Proof.
  revert s2. induction s1 as [|c s1 IH]; intros [|d s2]; simpl; try (done || lia).
  destruct (Ascii.ascii_dec c d); [|done]. intros H%IH. lia.
Qed.

Lemma index_bounds n (s1 s2 : string) m :
  String.index n s1 s2 = Some m -> n <= m /\ m + String.length s1 <= String.length s2.
Proof.
  revert n m. induction s2 as [|b s2 IH]; intros [|n] m; cbn [String.index String.length].
  - destruct s1; intros ?; simplify_eq/=. lia.
  - done.
  - destruct (String.prefix s1 (String b s2)) eqn:Hp.
    + intros ?; simplify_eq. apply prefix_length in Hp. simpl in Hp. lia.
    + destruct (String.index 0 s1 s2) as [k|] eqn:Hk; intros ?; simplify_eq.
      apply IH in Hk. lia.
  - destruct (String.index n s1 s2) as [k|] eqn:Hk; intros ?; simplify_eq.
    apply IH in Hk. lia.
Qed.

Lemma replace_at_length (result : string) pos len (replacement : string) :
  pos + len <= String.length result ->
  String.length (replace_at result pos len replacement)
  = String.length result - len + String.length replacement.
Proof.
  intros Hle. unfold replace_at. rewrite !length_append, !length_substring. lia.
Qed.

(** The loop ends within [fuel] passes when the text after [start] is
    no longer than [fuel]: every pass consumes one needle of it. *)
Lemma replace_all_loop_terminates fuel (result needle replacement : string) start bound :
  needle <> "" -> String.length result - start <= fuel ->
  is_Some (replace_all_loop fuel result needle replacement start bound).
Proof.
  intros Hne. assert (0 < String.length needle) by (destruct needle; [done|simpl; lia]).
  revert result start. induction fuel as [|fuel IH]; intros result start Hfuel.
  - simpl. destruct (find result needle start) as [pos|] eqn:Hpos; [|done].
    apply index_bounds in Hpos. destruct (below_end pos bound); [lia|done].
  - simpl. destruct (find result needle start) as [pos|] eqn:Hpos; [|done].
    apply index_bounds in Hpos. destruct (below_end pos bound); [|done].
    apply IH. rewrite replace_at_length by lia. lia.
Qed.

(** The fuel of [replace_all_from], the length of the haystack, is enough
    whenever the needle is not empty, whatever the replacement. *)
Lemma replace_all_terminates (haystack needle replacement : string) start bound :
  needle <> "" ->
  is_Some (replace_all_from haystack needle replacement start bound).
Proof. intros Hne. apply replace_all_loop_terminates; [done|lia]. Qed.

End string_util.
