(* ===== verification/ReplaceAll.v ===== *)
(** * replace_all against a reference

    [StringUtil.string_util.replace_all] is the loop of the code: find
    the needle from an index, splice the replacement in, move the index
    past it.  [replace_ref] is what the loop is meant to compute, by
    recursion on the text: where the needle starts, the replacement is
    emitted and the needle skipped; elsewhere the character is copied.
    The two agree for every needle that is not empty.

    The second half is about a needle and a replacement that begin
    with the same character, have it nowhere else, and part ways after
    it, as the tags of the date module do: the result holds no needle,
    and it holds the replacement exactly when the text held one of the
    two. *)

From S2P Require Import Prelude StringUtil.
Import string_util.

Module replace_all_ref.

(** The reference.  [skip] is the number of characters of a needle
    still to be passed over. *)
Fixpoint replace_ref (skip : nat) (needle replacement s : string) : string :=
  match s with
  | EmptyString => EmptyString
  | String c rest =>
      match skip with
      | S k => replace_ref k needle replacement rest
      | O =>
          if String.prefix needle (String c rest)
          then replacement +:+ replace_ref (String.length needle - 1) needle replacement rest
          else String c (replace_ref 0 needle replacement rest)
      end
  end.

(** The character [c] does not occur in [s]. *)
Fixpoint lacks (c : ascii) (s : string) : bool :=
  match s with
  | EmptyString => true
  | String a s => negb (Ascii.eqb a c) && lacks c s
  end.

(** The two strings differ at a position both have. *)
Fixpoint diverge (s1 s2 : string) : bool :=
  match s1, s2 with
  | String a s1, String b s2 => if Ascii.eqb a b then diverge s1 s2 else true
  | _, _ => false
  end.

(** The needle and the replacement begin with the same character, have
    it nowhere else, and differ after it. *)
Definition tags_apart (needle replacement : string) : bool :=
  match needle, replacement with
  | String c n, String c' r => Ascii.eqb c c' && lacks c n && lacks c r && diverge n r
  | _, _ => false
  end.

(** ** Strings *)

Lemma app_nil_string (s : string) : "" +:+ s = s.
Proof. done. Qed.

Lemma app_cons_string c (s1 s2 : string) : String c s1 +:+ s2 = String c (s1 +:+ s2).
Proof. done. Qed.

Lemma app_assoc_string (s1 s2 s3 : string) : (s1 +:+ s2) +:+ s3 = s1 +:+ (s2 +:+ s3).
Proof. induction s1 as [|c s1 IH]; [done|]. by rewrite !app_cons_string, IH. Qed.

Lemma substring_app_l (x y : string) : String.substring 0 (String.length x) (x +:+ y) = x.
Proof.
  induction x as [|c x IH]; [by destruct y|].
  rewrite app_cons_string. cbn [String.length String.substring]. by rewrite IH.
Qed.

Lemma substring_all (y : string) : String.substring 0 (String.length y) y = y.
Proof. induction y as [|c y IH]; [done|]. cbn [String.length String.substring]. by rewrite IH. Qed.

Lemma substring_app_r (x y : string) :
  String.substring (String.length x) (String.length y) (x +:+ y) = y.
Proof.
  induction x as [|c x IH]; [apply substring_all|].
  rewrite app_cons_string. cbn [String.length String.substring]. exact IH.
Qed.

Lemma prefix_cons a s1 b s2 :
  String.prefix (String a s1) (String b s2) = Ascii.eqb a b && String.prefix s1 s2.
Proof.
  simpl. destruct (Ascii.ascii_dec a b) as [->|Hne]; [by rewrite Ascii.eqb_refl|].
  by rewrite (proj2 (Ascii.eqb_neq _ _)).
Qed.

Lemma prefix_app (x y : string) : String.prefix x (x +:+ y) = true.
Proof.
  induction x as [|c x IH]; [by destruct y|].
  by rewrite app_cons_string, prefix_cons, Ascii.eqb_refl.
Qed.

(** A prefix splits the string. *)
Lemma prefix_split (x s : string) : String.prefix x s = true -> exists y, s = x +:+ y.
Proof.
  revert s. induction x as [|c x IH]; intros s; [by exists s|].
  destruct s as [|d s]; [done|]. rewrite prefix_cons.
  intros [->%Ascii.eqb_eq [y ->]%IH]%andb_true_iff. by exists y.
Qed.

Lemma index_cons needle c s :
  String.index 0 needle (String c s)
  = if String.prefix needle (String c s) then Some 0 else S <$> String.index 0 needle s.
Proof. cbn [String.index]. by destruct (String.prefix _ _), (String.index 0 needle s). Qed.

(** The search from the end of a prefix is the search in the rest. *)
Lemma index_app needle (pre rest : string) :
  String.index (String.length pre) needle (pre +:+ rest)
  = (fun k => String.length pre + k) <$> String.index 0 needle rest.
Proof.
  induction pre as [|c pre IH];
    [rewrite app_nil_string; cbn [String.length]; by destruct (String.index 0 needle rest)|].
  rewrite app_cons_string. cbn [String.length String.index]. rewrite IH.
  by destruct (String.index 0 needle rest).
Qed.

Lemma contains_cons needle c s :
  contains (String c s) needle = String.prefix needle (String c s) || contains s needle.
Proof.
  unfold contains, find. rewrite index_cons. destruct (String.prefix _ _); [done|].
  destruct (String.index 0 needle s); cbn [fmap option_fmap option_map orb];
    apply bool_decide_ext; split; intros [? ?]; by eauto.
Qed.

Lemma contains_nil needle : needle <> "" -> contains "" needle = false.
Proof. by destruct needle. Qed.

(** The splice of [replace_all] on a text cut at the needle. *)
Lemma replace_at_app (x needle y replacement : string) :
  replace_at (x +:+ needle +:+ y) (String.length x) (String.length needle) replacement
  = x +:+ replacement +:+ y.
Proof.
  unfold replace_at. rewrite substring_app_l. f_equal. f_equal.
  rewrite <- (length_append x needle), <- app_assoc_string.
  replace (String.length ((x +:+ needle) +:+ y) - String.length (x +:+ needle))
    with (String.length y) by (rewrite (length_append (x +:+ needle)); lia).
  apply substring_app_r.
Qed.

(** ** The loop computes the reference *)

(** Passing over a text that is skipped. *)
Lemma replace_ref_skip needle replacement (x y : string) :
  replace_ref (String.length x) needle replacement (x +:+ y)
  = replace_ref 0 needle replacement y.
Proof.
  induction x as [|c x IH]; [by destruct y|].
  rewrite app_cons_string. cbn [String.length replace_ref]. exact IH.
Qed.

(** The reference on a text that begins with the needle. *)
Lemma replace_ref_needle needle replacement (y : string) :
  needle <> "" ->
  replace_ref 0 needle replacement (needle +:+ y)
  = replacement +:+ replace_ref 0 needle replacement y.
Proof.
  intros Hne. pose proof (prefix_app needle y) as Hp. destruct needle as [|c n]; [done|].
  rewrite app_cons_string in *. cbn [replace_ref]. rewrite Hp.
  cbn [String.length Nat.sub]. by rewrite Nat.sub_0_r, replace_ref_skip.
Qed.

Section reference.
Variables needle replacement : string.
Hypothesis needle_not_empty : needle <> "".

Abbreviation ref := (replace_ref 0 needle replacement).


(** The reference up to the first needle: nothing changes when there
    is none; otherwise the text before it is copied and the reference
    goes on after it. *)
Lemma replace_ref_find (s : string) :
  match String.index 0 needle s with
  | None => ref s = s
  | Some k => exists a b, s = a +:+ needle +:+ b /\ String.length a = k
                          /\ ref s = a +:+ replacement +:+ ref b
  end.
Proof.
  induction s as [|c s IH]; [by destruct needle|].
  rewrite index_cons. destruct (String.prefix needle (String c s)) eqn:Hp.
  - apply prefix_split in Hp as [b Hb]. exists "", b. rewrite Hb.
    split; [done|]. split; [done|]. by apply replace_ref_needle.
  - cbn [replace_ref]. rewrite Hp. destruct (String.index 0 needle s) as [k|]; cbn.
    + destruct IH as (a & b & -> & <- & ->). by exists (String c a), b.
    + by rewrite IH.
Qed.

(** The invariant of the loop: what lies before the index is final,
    what lies after it is still to be rewritten. *)
Lemma replace_all_loop_ref fuel (pre rest : string) :
  String.length rest <= fuel ->
  replace_all_loop fuel (pre +:+ rest) needle replacement (String.length pre) None
  = Some (pre +:+ ref rest).
Proof.
  revert pre rest. induction fuel as [|fuel IH]; intros pre rest Hfuel;
    cbn [replace_all_loop]; unfold find; rewrite index_app;
    pose proof (replace_ref_find rest) as Href;
    (destruct (String.index 0 needle rest) as [k|]; cbn [fmap option_fmap option_map below_end];
      [|by rewrite Href]);
    destruct Href as (a & b & -> & <- & ->);
    rewrite !length_append in Hfuel;
    assert (0 < String.length needle) by (destruct needle; [done|cbn; lia]); [lia|].
  rewrite <- (app_assoc_string pre a (needle +:+ b)), <- (length_append pre a), replace_at_app.
  rewrite <- (length_append (pre +:+ a) replacement).
  rewrite <- (app_assoc_string (pre +:+ a) replacement b), IH by lia.
  by rewrite !app_assoc_string.
Qed.

(** [replace_all] is the reference. *)
Lemma replace_all_ref (s : string) : replace_all s needle replacement = ref s.
Proof.
  unfold replace_all, replace_all_from.
  pose proof (replace_all_loop_ref (String.length s) "" s (le_n _)) as H.
  rewrite app_nil_string in H. cbn [String.length] in H. by rewrite H.
Qed.

End reference.

(** ** Tags that begin alike and part ways *)

Lemma prefix_diverge (n r x : string) : diverge n r = true -> String.prefix n (r +:+ x) = false.
Proof.
  revert r. induction n as [|a n IH]; intros [|b r]; try done. cbn [diverge].
  rewrite app_cons_string, prefix_cons. destruct (Ascii.eqb a b); [apply IH|done].
Qed.

Section tags.
Variables (c : ascii) (n r : string).
Hypotheses (lacks_n : lacks c n = true) (lacks_r : lacks c r = true).
Hypothesis apart : diverge n r = true.

Abbreviation needle := (String c n).
Abbreviation replacement := (String c r).
Abbreviation ref_tags := (replace_ref 0 needle replacement).

(** A text without the first character of the tags is a prefix of the
    result when it is one of the text. *)
Lemma prefix_ref p (s : string) :
  lacks c p = true -> String.prefix p (ref_tags s) = String.prefix p s.
Proof.
  revert s. induction p as [|a p IH]; intros s Hp; [by destruct (ref_tags s), s|].
  cbn [lacks] in Hp. apply andb_true_iff in Hp as [Ha Hp].
  destruct s as [|c0 s]; [done|]. cbn [replace_ref].
  destruct (String.prefix needle (String c0 s)) eqn:Hn.
  - rewrite prefix_cons in Hn. apply andb_true_iff in Hn as [<-%Ascii.eqb_eq _].
    rewrite app_cons_string, !prefix_cons. by destruct (Ascii.eqb a c).
  - rewrite !prefix_cons. by rewrite IH.
Qed.

(** The replacement in front of a text adds no needle to it. *)
Lemma contains_replacement_app (x : string) :
  contains (replacement +:+ x) needle = contains x needle.
Proof.
  rewrite app_cons_string, contains_cons, prefix_cons, Ascii.eqb_refl.
  rewrite (prefix_diverge n r x apart). cbn [andb orb].
  clear apart. induction r as [|b r' IH]; [done|]. cbn [lacks] in lacks_r.
  apply andb_true_iff in lacks_r as [Hb Hr].
  rewrite app_cons_string, contains_cons, prefix_cons, Ascii.eqb_sym.
  destruct (Ascii.eqb b c); [done|]. by apply IH.
Qed.

(** The result holds no needle. *)
Lemma ref_tags_no_needle skip (s : string) :
  contains (replace_ref skip needle replacement s) needle = false.
Proof.
  revert skip. induction s as [|c0 s IH]; intros skip; [by destruct skip|].
  destruct skip as [|k]; cbn [replace_ref]; [|apply IH].
  destruct (String.prefix needle (String c0 s)) eqn:Hn.
  - by rewrite contains_replacement_app.
  - rewrite contains_cons, IH, orb_false_r. rewrite prefix_cons in *.
    by rewrite prefix_ref.
Qed.

(** The result holds the replacement exactly when the text held the
    replacement or the needle. *)
Lemma ref_tags_contains (s : string) :
  contains (ref_tags s) replacement = contains s replacement || contains s needle.
Proof.
  induction s as [|c0 s IH]; [done|]. cbn [replace_ref].
  rewrite (contains_cons needle). destruct (String.prefix needle (String c0 s)) eqn:Hn.
  - rewrite orb_true_r, app_cons_string, contains_cons.
    pose proof (prefix_app replacement (replace_ref (String.length needle - 1) needle replacement s)) as Hp.
    rewrite app_cons_string in Hp. by rewrite Hp.
  - rewrite !contains_cons, IH, !prefix_cons, prefix_ref by done.
    by destruct (_ && _), (contains s replacement).
Qed.

End tags.

Lemma tags_apart_inv needle replacement :
  tags_apart needle replacement = true ->
  exists c n r, needle = String c n /\ replacement = String c r
    /\ lacks c n = true /\ lacks c r = true /\ diverge n r = true.
Proof.
  destruct needle as [|c n], replacement as [|c' r]; try done. cbn [tags_apart].
  intros [[[->%Ascii.eqb_eq Hn]%andb_true_iff Hr]%andb_true_iff Hd]%andb_true_iff.
  by exists c', n, r.
Qed.

(** [replace_all] on tags that are apart: no needle is left, and the
    replacement is there exactly when one of the two was. *)
Lemma replace_all_tags needle replacement (s : string) :
  tags_apart needle replacement = true ->
  contains (replace_all s needle replacement) needle = false
  /\ contains (replace_all s needle replacement) replacement
     = contains s replacement || contains s needle.
Proof.
  intros (c & n & r & -> & -> & Hn & Hr & Hd)%tags_apart_inv.
  rewrite replace_all_ref by done. split; [by apply ref_tags_no_needle|by apply ref_tags_contains].
Qed.

End replace_all_ref.
