(* ===== verification/X11Extensions.v ===== *)
(** * x11/extensions/all.hpp: the extension headers of a build

    The header includes settings.hpp, which defines the WITH_ flags, and
    then one header per enabled X11 extension; the composite extension
    is not optional.  [all] is the list of headers a build with the
    given flags includes, in the order the preprocessor meets them. *)

From S2P Require Import Prelude.

Module x11_extensions.

(** The flags settings.hpp defines, as the preprocessor tests them. *)
Record settings := Settings {
  WITH_XDAMAGE : bool;
  WITH_XRANDR : bool;
  WITH_XKB : bool;
}.

Inductive header :=
| settings_hpp
| damage_hpp
| randr_hpp
| composite_hpp
| xkb_hpp.

#[export] Instance header_eq_dec : EqDecision header.
Proof. solve_decision. Defined.

(** One [#if FLAG / #include / #endif] group. *)
Definition include_if (flag : bool) (h : header) : list header :=
  if flag then [h] else [].

Definition all (s : settings) : list header :=
  [settings_hpp]
    ++ include_if (WITH_XDAMAGE s) damage_hpp
    ++ include_if (WITH_XRANDR s) randr_hpp
    ++ [composite_hpp]
    ++ include_if (WITH_XKB s) xkb_hpp.

Lemma include_if_elem flag h h' :
  h' ∈ include_if flag h <-> flag = true /\ h' = h.
Proof.
  destruct flag; simpl; [rewrite list_elem_of_singleton|rewrite elem_of_nil]; intuition congruence.
Qed.

(** No header is included twice, and settings.hpp comes first, before
    any flag it defines is tested. *)
Lemma all_NoDup_settings_first (s : settings) :
  NoDup (all s) /\ head (all s) = Some settings_hpp.
Proof.
  split; [|done]. destruct s as [[] [] []]; by apply (bool_decide_unpack _).
Qed.

End x11_extensions.
