(* ===== verification/Trace.v ===== *)
(** * Traces of worker actions and the monitors that read them

    A module records what its worker does as a list of actions, oldest
    first.  A safety property of the worker is a monitor: a partial
    transition function on a small state, run over the trace; the trace
    is accepted when the run is defined.  Monitors compose over [++],
    which is what lets a property of the whole run follow from a property
    of one loop pass. *)

From S2P Require Import Prelude.

Inductive action : Type :=
| ALock                          (* the content lock is taken *)
| AUnlock                        (* the content lock is released *)
| AUpdate (r : result bool)      (* Impl::update() returned or threw *)
| AHasEvent (r : result bool)    (* Impl::has_event() returned or threw *)
| AIdle (r : result unit)        (* Impl::idle() returned or threw *)
| ABroadcast                     (* a redraw request was emitted *)
| AWakeup                        (* the sleep handler was notified *)
| AStop                          (* the owner disabled the module *)
| AHalt (what : string).         (* the worker halted the module *)

#[export] Instance action_eq_dec : EqDecision action.
Proof. solve_decision. Defined.

Definition trace : Type := list action.

(** ** Monitors *)

Section monitor.
Context {A Q : Type} (step : Q -> A -> option Q).

Fixpoint run (q : Q) (tr : list A) : option Q :=
  match tr with
  | [] => Some q
  | a :: tr' => match step q a with Some q' => run q' tr' | None => None end
  end.

Lemma run_app q t1 t2 :
  run q (t1 ++ t2) = match run q t1 with Some q' => run q' t2 | None => None end.
Proof.
  revert q. induction t1 as [|a t1 IH]; intros q; simpl; [done|].
  destruct (step q a); [apply IH|done].
Qed.

Lemma run_app_Some q q' q'' t1 t2 :
  run q t1 = Some q' -> run q' t2 = Some q'' -> run q (t1 ++ t2) = Some q''.
Proof. intros H1 H2. by rewrite run_app, H1. Qed.

Lemma run_snoc q q' t a :
  run q t = Some q' -> run q (t ++ [a]) = step q' a.
Proof. intros H. rewrite run_app, H. simpl. by destruct (step q' a). Qed.

End monitor.

(** The content lock monitor.  Its state is whether the lock is held.
    It rejects a second [lock] (the mutex is not recursive), an [unlock]
    of a free mutex, an evaluation of the implementation without the
    lock, and a wait or a halt with the lock held. *)
Definition lock_step (held : bool) (a : action) : option bool :=
  match a with
  | ALock => if held then None else Some true
  | AUnlock => if held then Some false else None
  | AUpdate _ | AHasEvent _ => if held then Some true else None
  | AIdle _ | AHalt _ => if held then None else Some false
  | ABroadcast | AWakeup | AStop => Some held
  end.

Abbreviation lock_run := (run lock_step).

(** The event guard monitor.  Its state is whether the previous action
    was [has_event()] returning true; an [update()] is accepted in that
    state only. *)
Definition guard_step (armed : bool) (a : action) : option bool :=
  match a with
  | AHasEvent (Ok true) => Some true
  | AUpdate _ => if armed then Some false else None
  | _ => Some false
  end.

Abbreviation guard_run := (run guard_step).

(** The halt monitor.  Its state is whether the module has been halted;
    after a halt nothing more is accepted. *)
Definition halt_step (halted : bool) (a : action) : option bool :=
  if halted then None
  else match a with AHalt _ => Some true | _ => Some false end.

Abbreviation halt_run := (run halt_step).

(** ** Counting *)

Definition is_broadcast (a : action) : bool :=
  match a with ABroadcast => true | _ => false end.

Definition is_update (a : action) : bool :=
  match a with AUpdate _ => true | _ => false end.

Definition is_changed (a : action) : bool :=
  match a with AUpdate (Ok true) => true | _ => false end.

Definition is_event (a : action) : bool :=
  match a with AHasEvent (Ok true) => true | _ => false end.

Definition is_idle (a : action) : bool :=
  match a with AIdle _ => true | _ => false end.

Definition is_halt (a : action) : bool :=
  match a with AHalt _ => true | _ => false end.

Fixpoint count (p : action -> bool) (tr : trace) : nat :=
  match tr with
  | [] => 0
  | a :: tr' => (if p a then 1 else 0) + count p tr'
  end.

Lemma count_nil p : count p [] = 0.
Proof. done. Qed.

Lemma count_cons p a tr :
  count p (a :: tr) = (if p a then 1 else 0) + count p tr.
Proof. done. Qed.

Lemma count_app p t1 t2 : count p (t1 ++ t2) = count p t1 + count p t2.
Proof. induction t1 as [|a t1 IH]; simpl; [done|]. rewrite IH. lia. Qed.

#[export] Hint Rewrite count_nil count_cons count_app : prog.

(** Evaluate the counts of a trace given by its actions. *)
Ltac count_simpl := autorewrite with prog; simpl.
