(* ===== verification/Lifecycle.v ===== *)
(** * The module base: state, lifecycle and the implementation interface

    The fields every module carries beside those of its implementation
    (the enabled flag read by [running()], the worker thread handle, the
    content lock, the changed flag set by [broadcast()], the halt
    reason), the operations of the base class on them, the two guard
    objects of the C++ standard library used to take the content lock,
    and the interfaces an implementation provides to a driving strategy.
    The base class is part of polybar but outside the inspected sources;
    it is modelled from its contract.  The trace field is a history
    variable: every operation that the monitors of [Trace] read appends
    its action to it.

    The enabled flag is set when the module is built: the worker loop of
    [event_module] tests [running()] without any code having set the
    flag after [start()], so [running()] must already hold then. *)

From S2P Require Import Prelude Trace.

Record module (S : Type) : Type := MkModule {
  impl : S;                      (* the fields of the implementation *)
  m_enabled : bool;              (* read by running() *)
  m_mainthread : bool;           (* the thread handle is joinable *)
  m_contentlock : bool;          (* the content mutex is locked *)
  m_changed : bool;              (* set by broadcast() *)
  m_wakeups : nat;               (* notifications of the sleep handler *)
  m_halted : option string;      (* the message halt() recorded *)
  m_trace : trace;               (* history of the worker's actions *)
}.
Arguments MkModule {S}.
Arguments impl {S}.
Arguments m_enabled {S}.
Arguments m_mainthread {S}.
Arguments m_contentlock {S}.
Arguments m_changed {S}.
Arguments m_wakeups {S}.
Arguments m_halted {S}.
Arguments m_trace {S}.

(** What an implementation provides to every driving strategy. *)
Class ModuleImpl (S : Type) : Type := {
  impl_update : prog S bool;
}.

(** What an implementation provides to the event-driven strategy. *)
Class EventImpl (S : Type) : Type := {
  event_module_impl :: ModuleImpl S;
  impl_has_event : prog S bool;
  impl_idle : prog S unit;
}.

(** The guard object [std::unique_lock]: whether it owns the mutex. *)
Record unique_lock : Type := { owns : bool }.

Inductive lifecycle : Type := Idle | Running | Halted.

#[export] Instance lifecycle_eq_dec : EqDecision lifecycle.
Proof. solve_decision. Defined.

(** The transitions of the lifecycle.  A stop request may reach a module
    that was never started. *)
Inductive lifecycle_step : lifecycle -> lifecycle -> Prop :=
| ls_start : lifecycle_step Idle Running
| ls_halt : lifecycle_step Running Halted
| ls_cancel : lifecycle_step Idle Halted.

Section base.
Context {S : Type}.
Implicit Types (m : module S) (s : S).

Definition new_module s : module S :=
  MkModule s true false false false 0 None [].

Definition set_impl s m : module S :=
  MkModule s (m_enabled m) (m_mainthread m) (m_contentlock m) (m_changed m)
    (m_wakeups m) (m_halted m) (m_trace m).

Definition set_enabled (b : bool) m : module S :=
  MkModule (impl m) b (m_mainthread m) (m_contentlock m) (m_changed m)
    (m_wakeups m) (m_halted m) (m_trace m).

Definition set_mainthread (b : bool) m : module S :=
  MkModule (impl m) (m_enabled m) b (m_contentlock m) (m_changed m)
    (m_wakeups m) (m_halted m) (m_trace m).

Definition set_contentlock (b : bool) m : module S :=
  MkModule (impl m) (m_enabled m) (m_mainthread m) b (m_changed m)
    (m_wakeups m) (m_halted m) (m_trace m).

Definition set_changed (b : bool) m : module S :=
  MkModule (impl m) (m_enabled m) (m_mainthread m) (m_contentlock m) b
    (m_wakeups m) (m_halted m) (m_trace m).

Definition set_wakeups (n : nat) m : module S :=
  MkModule (impl m) (m_enabled m) (m_mainthread m) (m_contentlock m) (m_changed m)
    n (m_halted m) (m_trace m).

Definition set_halted (w : option string) m : module S :=
  MkModule (impl m) (m_enabled m) (m_mainthread m) (m_contentlock m) (m_changed m)
    (m_wakeups m) w (m_trace m).

Definition log (a : action) m : module S :=
  MkModule (impl m) (m_enabled m) (m_mainthread m) (m_contentlock m) (m_changed m)
    (m_wakeups m) (m_halted m) (m_trace m ++ [a]).

(** ** Operations of the base class *)

Definition running : prog (module S) bool := gets m_enabled.

(** A stop request of the owner: it disables a running module and does
    nothing to a disabled one. *)
Definition stop m : module S :=
  if m_enabled m then log AStop (set_enabled false m) else m.

Definition halt (what : string) : prog (module S) unit :=
  modify (fun m => log (AHalt what) (set_halted (Some what) (set_enabled false m))).

Definition broadcast : prog (module S) unit :=
  modify (fun m => log ABroadcast (set_changed true m)).

Definition wakeup : prog (module S) unit :=
  modify (fun m => log AWakeup (set_wakeups (Datatypes.S (m_wakeups m)) m)).

(** ** The content mutex and its guards *)

Definition mutex_lock m : module S := log ALock (set_contentlock true m).
Definition mutex_unlock m : module S := log AUnlock (set_contentlock false m).

(** [std::unique_lock<std::mutex> guard(m_contentlock)] *)
Definition unique_lock_acquire m : unique_lock * module S :=
  ({| owns := true |}, mutex_lock m).

(** [guard.unlock()]: throws when the guard does not own the mutex. *)
Definition unique_lock_unlock (g : unique_lock) : prog (module S) unique_lock :=
  fun m => if owns g then (Ok {| owns := false |}, mutex_unlock m)
           else (Err "Operation not permitted", m).

(** The destructor of the guard, run when its scope is left. *)
Definition unique_lock_release (g : unique_lock) m : module S :=
  if owns g then mutex_unlock m else m.

(** A scope that opens with [std::lock_guard<std::mutex> guard(...)]:
    the mutex is released when [body] returns and when it throws. *)
Definition lock_guard {A} (body : prog (module S) A) : prog (module S) A :=
  fun m => finally body mutex_unlock (mutex_lock m).

(** ** Calls into the implementation *)

Definition call {A} (f : prog S A) (act : result A -> action) : prog (module S) A :=
  fun m => let '(r, s) := f (impl m) in (r, log (act r) (set_impl s m)).

Definition call_update `{!ModuleImpl S} : prog (module S) bool :=
  call impl_update AUpdate.

Definition call_has_event `{!EventImpl S} : prog (module S) bool :=
  call impl_has_event AHasEvent.

Definition call_idle `{!EventImpl S} : prog (module S) unit :=
  call impl_idle AIdle.

(** ** The lifecycle a module state stands for *)

Definition lifecycle_of m : lifecycle :=
  if m_enabled m then (if m_mainthread m then Running else Idle) else Halted.

(** The trace and the lock flag agree: the lock monitor accepts the
    history and ends in the state the flag shows. *)
Definition lock_consistent m : Prop :=
  lock_run false (m_trace m) = Some (m_contentlock m).

(** [m'] is [m] after some actions [tr]. *)
Definition extends m (tr : trace) m' : Prop :=
  m_trace m' = m_trace m ++ tr.

(** The fields of the base that the worker's own steps leave alone. *)
Definition same_flags m m' : Prop :=
  m_enabled m' = m_enabled m /\ m_mainthread m' = m_mainthread m
  /\ m_halted m' = m_halted m /\ m_wakeups m' = m_wakeups m.

(** ** Facts on the base operations *)

Lemma lifecycle_of_halted m : m_enabled m = false -> lifecycle_of m = Halted.
Proof. unfold lifecycle_of. by intros ->. Qed.

Lemma lifecycle_of_not_halted m : m_enabled m = true <-> lifecycle_of m <> Halted.
Proof. unfold lifecycle_of. destruct (m_enabled m), (m_mainthread m); naive_solver. Qed.

Lemma stop_disabled m : m_enabled (stop m) = false.
Proof. unfold stop. by destruct (m_enabled m) eqn:E. Qed.

Lemma stop_lifecycle m : lifecycle_of (stop m) = Halted.
Proof. apply lifecycle_of_halted, stop_disabled. Qed.

Lemma stop_idem m : stop (stop m) = stop m.
Proof. unfold stop at 1. by rewrite stop_disabled. Qed.

Lemma halt_disabled what m : m_enabled (halt what m).2 = false.
Proof. done. Qed.

Lemma halt_reason what m : m_halted (halt what m).2 = Some what.
Proof. done. Qed.

Lemma extends_refl m : extends m [] m.
Proof. unfold extends. by rewrite app_nil_r. Qed.

Lemma extends_trans m1 m2 m3 t1 t2 :
  extends m1 t1 m2 -> extends m2 t2 m3 -> extends m1 (t1 ++ t2) m3.
Proof. unfold extends. intros H1 H2. by rewrite H2, H1, app_assoc. Qed.

Lemma extends_log a m : extends m [a] (log a m).
Proof. done. Qed.

Lemma same_flags_refl m : same_flags m m.
Proof. done. Qed.

Lemma same_flags_trans m1 m2 m3 :
  same_flags m1 m2 -> same_flags m2 m3 -> same_flags m1 m3.
Proof. unfold same_flags. intros (-> & -> & -> & ->) (-> & -> & -> & ->). done. Qed.

(** A call into the implementation appends its action and touches no
    field of the base. *)
Lemma call_spec {A} (f : prog S A) act m r m' :
  call f act m = (r, m') ->
  extends m [act r] m' /\ same_flags m m' /\ m_contentlock m' = m_contentlock m
  /\ f (impl m) = (r, impl m').
Proof.
  unfold call. destruct (f (impl m)) as [r0 s] eqn:E. intros [= <- <-]. done.
Qed.

Lemma call_lock {A} (f : prog S A) act m :
  m_contentlock (call f act m).2 = m_contentlock m.
Proof. unfold call. by destruct (f (impl m)). Qed.

Lemma call_trace {A} (f : prog S A) act m :
  m_trace (call f act m).2 = m_trace m ++ [act (call f act m).1].
Proof. unfold call. by destruct (f (impl m)). Qed.

Lemma broadcast_spec m :
  extends m [ABroadcast] (broadcast m).2 /\ same_flags m (broadcast m).2
  /\ m_contentlock (broadcast m).2 = m_contentlock m /\ impl (broadcast m).2 = impl m.
Proof. done. Qed.

Lemma lock_consistent_extends m m' tr :
  lock_consistent m -> extends m tr m' ->
  lock_run (m_contentlock m) tr = Some (m_contentlock m') ->
  lock_consistent m'.
Proof.
  unfold lock_consistent, extends. intros Hm -> Htr.
  by rewrite run_app, Hm.
Qed.

End base.

#[export] Hint Resolve extends_refl extends_log same_flags_refl : polybar.

(** Close a goal [extends m tr m'] from the [extends] facts at hand. *)
Ltac trace_solve :=
  unfold extends, unique_lock_release in *; simpl in *;
  repeat match goal with
         | H : m_trace _ = _ |- _ => rewrite H; clear H
         end;
  rewrite <- ?app_assoc, ?app_nil_r; reflexivity.

(** Close a goal on the flags of the base from the frame facts at hand. *)
Ltac flags_solve :=
  unfold same_flags, unique_lock_release in *; simpl in *; intuition congruence.
