(* ===== verification/EventModule.v ===== *)
(** * event_module: the event-driven worker

    [start] and [runner] of src/include/modules/meta/event_module.hpp,
    over any implementation of [EventImpl].  The body of the [try] block
    is [runner_try]; [runner] adds the [catch] clause.  The loop runs on
    a schedule of stop requests (see the header of [Prelude]): [None]
    means the schedule ran out while the module was still running.

    The protocol of the worker is stated as a grammar of traces
    ([check_trace], [iteration_trace], [loop_trace], [runner_trace]);
    [runner_protocol] shows the code produces only traces of the grammar,
    and the safety properties are read off the grammar by the monitors
    of [Trace]. *)

From S2P Require Import Prelude Trace Lifecycle.

Module event_module.

(** The outcome of [start()]: the module with its worker spawned, or
    [std::terminate], which assigning to a joinable [std::thread]
    calls. *)
Inductive started (S : Type) : Type :=
| Started (m : module S)
| Terminated.
Arguments Started {S} m.
Arguments Terminated {S}.

Section worker.
Context {S : Type} `{!EventImpl S}.
Implicit Types (m : module S) (sched : list bool).

Definition start m : started S :=
  if m_mainthread m then Terminated else Started (set_mainthread true m).

(** The warm-up: lock, [update()], [broadcast()], unlock.  The guard
    is returned because its scope is the whole [try] block. *)
Definition warm_up : prog (module S) unique_lock :=
  fun m =>
    let '(guard, m) := unique_lock_acquire m in
    match (call_update ;; broadcast)%pb m with
    | (Ok _, m) => unique_lock_unlock guard m
    | (Err e, m) => (Err e, unique_lock_release guard m)
    end.

(** The lambda [check]: under a [lock_guard], [has_event() && update()]. *)
Definition check : prog (module S) bool :=
  lock_guard (e <- call_has_event ;; if e then call_update else ret false)%pb.

(** One pass of the loop body. *)
Definition iteration : prog (module S) unit :=
  (c <- check ;; (if c then broadcast else ret tt) ;; call_idle)%pb.

(** [while (running()) { ... }].  Each element of the schedule says
    whether a stop request arrived before this evaluation of the loop
    condition. *)
Fixpoint loop sched m : option (result unit * module S) :=
  match sched with
  | [] => None
  | stop_requested :: sched =>
      let m := if stop_requested then stop m else m in
      match running m with
      | (Ok true, m) =>
          match iteration m with
          | (Ok _, m) => loop sched m
          | (Err e, m) => Some (Err e, m)
          end
      | (Ok false, m) => Some (Ok tt, m)
      | (Err e, m) => Some (Err e, m)
      end
  end.

(** The [try] block. *)
Definition runner_try sched m : option (result unit * module S) :=
  match warm_up m with
  | (Ok guard, m) =>
      match loop sched m with
      | Some (r, m) => Some (r, unique_lock_release guard m)
      | None => None
      end
  | (Err e, m) => Some (Err e, m)
  end.

(** [try { ... } catch (const exception& err) { halt(err.what()); }] *)
Definition runner sched m : option (module S) :=
  match runner_try sched m with
  | Some (Ok _, m) => Some m
  | Some (Err e, m) => Some (halt e m).2
  | None => None
  end.

(** [start()] followed by the run of the thread it spawns. *)
Definition start_and_run sched m : option (started S) :=
  match start m with
  | Started m => Started <$> runner sched m
  | Terminated => Some Terminated
  end.

(** The operations the owner and the worker perform on a module.
    [None] is the end of the process ([std::terminate]) or a run of the
    worker that the schedule does not finish. *)
Inductive op : Type :=
| OpStart
| OpRun (sched : list bool)
| OpStop
| OpHalt (what : string)
| OpBroadcast
| OpWakeup.

Definition apply_op (o : op) m : option (module S) :=
  match o with
  | OpStart => match start m with Started m' => Some m' | Terminated => None end
  | OpRun sched => runner sched m
  | OpStop => Some (stop m)
  | OpHalt what => Some (halt what m).2
  | OpBroadcast => Some (broadcast m).2
  | OpWakeup => Some (wakeup m).2
  end.

Fixpoint apply_ops (os : list op) m : option (module S) :=
  match os with
  | [] => Some m
  | o :: os => match apply_op o m with Some m' => apply_ops os m' | None => None end
  end.

(** The operations after which a module that was running still is. *)
Definition keeps_running (o : op) : bool :=
  match o with OpStart | OpBroadcast | OpWakeup => true | _ => false end.

(** ** The protocol as a grammar of traces *)

Inductive check_trace : result bool -> trace -> Prop :=
| ct_no_event :
    check_trace (Ok false) [ALock; AHasEvent (Ok false); AUnlock]
| ct_event r :
    check_trace r [ALock; AHasEvent (Ok true); AUpdate r; AUnlock]
| ct_throw e :
    check_trace (Err e) [ALock; AHasEvent (Err e); AUnlock].

Inductive iteration_trace : result unit -> trace -> Prop :=
| it_quiet r tc :
    check_trace (Ok false) tc -> iteration_trace r (tc ++ [AIdle r])
| it_changed r tc :
    check_trace (Ok true) tc -> iteration_trace r (tc ++ [ABroadcast; AIdle r])
| it_throw e tc :
    check_trace (Err e) tc -> iteration_trace (Err e) tc.

Inductive loop_trace : result unit -> trace -> Prop :=
| lt_exit : loop_trace (Ok tt) []
| lt_stop : loop_trace (Ok tt) [AStop]
| lt_pass r ti tl :
    iteration_trace (Ok tt) ti -> loop_trace r tl -> loop_trace r (ti ++ tl)
| lt_throw e ti :
    iteration_trace (Err e) ti -> loop_trace (Err e) ti.

Definition warm_up_ok (b : bool) : trace :=
  [ALock; AUpdate (Ok b); ABroadcast; AUnlock].

Inductive runner_trace : trace -> Prop :=
| rt_warm_up_throw e :
    runner_trace [ALock; AUpdate (Err e); AUnlock; AHalt e]
| rt_return b tl :
    loop_trace (Ok tt) tl -> runner_trace (warm_up_ok b ++ tl)
| rt_loop_throw b e tl :
    loop_trace (Err e) tl -> runner_trace (warm_up_ok b ++ tl ++ [AHalt e]).

End worker.

(** ** A scripted implementation

    An implementation whose answers are read from a script; the
    concrete runs below are evaluated on it. *)

Record script : Type := Script {
  events : list (result bool);   (* the answers of has_event(), in order *)
  updates : list (result bool);  (* the outcomes of update(), in order *)
  idles : nat;                   (* the calls of idle() so far *)
}.

Definition script_update : prog script bool :=
  fun s => match updates s with
           | [] => (Ok false, s)
           | r :: us => (r, Script (events s) us (idles s))
           end.

Definition script_has_event : prog script bool :=
  fun s => match events s with
           | [] => (Ok false, s)
           | r :: es => (r, Script es (updates s) (idles s))
           end.

Definition script_idle : prog script unit :=
  fun s => (Ok tt, Script (events s) (updates s) (Datatypes.S (idles s))).

#[export] Instance script_module : ModuleImpl script :=
  {| impl_update := script_update |}.

#[export] Instance script_event : EventImpl script :=
  {| impl_has_event := script_has_event; impl_idle := script_idle |}.

(** An implementation that never throws: an event is always pending
    and every update changes the content. *)
Record ticker : Type := Ticker { ticks : nat }.

#[export] Instance ticker_module : ModuleImpl ticker :=
  {| impl_update := fun s => (Ok true, Ticker (Datatypes.S (ticks s))) |}.

#[export] Instance ticker_event : EventImpl ticker :=
  {| impl_has_event := fun s => (Ok true, s); impl_idle := fun s => (Ok tt, s) |}.

(** ** Reading the grammar with the monitors *)

Lemma check_trace_lock r tc : check_trace r tc -> lock_run false tc = Some false.
Proof. by destruct 1. Qed.

Lemma iteration_trace_lock r ti : iteration_trace r ti -> lock_run false ti = Some false.
Proof.
  destruct 1 as [r tc Hc|r tc Hc|e tc Hc];
    rewrite ?run_app, (check_trace_lock _ _ Hc); done.
Qed.

Lemma loop_trace_lock r tl : loop_trace r tl -> lock_run false tl = Some false.
Proof.
  induction 1 as [| |r ti tl Hi _ IH|e ti Hi]; try done.
  - by rewrite run_app, (iteration_trace_lock _ _ Hi).
  - by eapply iteration_trace_lock.
Qed.

Lemma runner_trace_lock tr : runner_trace tr -> lock_run false tr = Some false.
Proof.
  destruct 1 as [e|b tl Hl|b e tl Hl]; [done|..];
    rewrite ?run_app; simpl; rewrite ?run_app, (loop_trace_lock _ _ Hl); done.
Qed.

Lemma check_trace_guard r tc : check_trace r tc -> guard_run false tc = Some false.
Proof. by destruct 1. Qed.

Lemma iteration_trace_guard r ti : iteration_trace r ti -> guard_run false ti = Some false.
Proof.
  destruct 1 as [r tc Hc|r tc Hc|e tc Hc];
    rewrite ?run_app, (check_trace_guard _ _ Hc); done.
Qed.

Lemma loop_trace_guard r tl : loop_trace r tl -> guard_run false tl = Some false.
Proof.
  induction 1 as [| |r ti tl Hi _ IH|e ti Hi]; try done.
  - by rewrite run_app, (iteration_trace_guard _ _ Hi).
  - by eapply iteration_trace_guard.
Qed.

(** In the loop every broadcast answers a changed update, and every
    update answers a pending event. *)
Definition balanced (tr : trace) : Prop :=
  count is_broadcast tr = count is_changed tr /\ count is_update tr = count is_event tr.

Lemma balanced_app t1 t2 : balanced t1 -> balanced t2 -> balanced (t1 ++ t2).
Proof. unfold balanced. intros [? ?] [? ?]. rewrite !count_app. lia. Qed.

Lemma check_trace_counts r tc :
  check_trace r tc ->
  count is_broadcast tc = 0 /\ count is_update tc = count is_event tc
  /\ count is_changed tc = (if decide (r = Ok true) then 1 else 0).
Proof. destruct 1 as [|[[]|]|]; done. Qed.

Lemma iteration_trace_balanced r ti : iteration_trace r ti -> balanced ti.
Proof.
  destruct 1 as [r tc Hc|r tc Hc|e tc Hc];
    destruct (check_trace_counts _ _ Hc) as (Hb & Hu & Hch);
    unfold balanced; rewrite ?count_app, Hb, Hu, Hch; simpl; lia.
Qed.

Lemma loop_trace_balanced r tl : loop_trace r tl -> balanced tl.
Proof.
  induction 1 as [| |r ti tl Hi _ IH|e ti Hi]; try done.
  - eauto using balanced_app, iteration_trace_balanced.
  - by eapply iteration_trace_balanced.
Qed.

Lemma loop_trace_halt_free r tl : loop_trace r tl -> count is_halt tl = 0.
Proof.
  assert (Hc : forall r tc, check_trace r tc -> count is_halt tc = 0)
    by (by destruct 1).
  assert (Hi : forall r ti, iteration_trace r ti -> count is_halt ti = 0).
  { destruct 1 as [? tc H|? tc H|? tc H]; rewrite ?count_app, (Hc _ _ H); done. }
  induction 1 as [| |r ti tl H _ IH|e ti H]; try done; [|by eapply Hi].
  by rewrite count_app, (Hi _ _ H).
Qed.

Lemma halt_free_run tr : count is_halt tr = 0 -> halt_run false tr = Some false.
Proof. induction tr as [|[] tr IH]; simpl; auto; done. Qed.

Lemma halt_free_last tr e : count is_halt tr = 0 -> last tr <> Some (AHalt e).
Proof.
  induction tr as [|a tr IH]; [done|]. simpl. destruct tr as [|a' tr].
  - destruct a; simpl; congruence.
  - intros H. apply IH. destruct (is_halt a); [done|]. exact H.
Qed.

(** The reason [halt()] leaves behind: the message of the halt that
    ends the trace, the old reason when the trace does not end in one. *)
Definition halt_reason (old : option string) (tr : trace) : option string :=
  match last tr with Some (AHalt e) => Some e | _ => old end.

Lemma halt_reason_free old tr : count is_halt tr = 0 -> halt_reason old tr = old.
Proof.
  intros H. unfold halt_reason. destruct (last tr) as [[]|] eqn:E; try done.
  by apply halt_free_last in E.
Qed.

Lemma halt_reason_snoc old tr e : halt_reason old (tr ++ [AHalt e]) = Some e.
Proof. unfold halt_reason. by rewrite last_snoc. Qed.

(** A trace of the worker holds at most one halt, at its end. *)
Lemma runner_trace_halt tr :
  runner_trace tr ->
  is_Some (halt_run false tr)
  /\ (count is_halt tr = 0 \/ exists e, last tr = Some (AHalt e)).
Proof.
  destruct 1 as [e|b tl Hl|b e tl Hl]; [split; [done|right; by exists e]|..];
    pose proof (loop_trace_halt_free _ _ Hl) as Hf.
  - simpl. rewrite (halt_free_run _ Hf), Hf. auto.
  - simpl. rewrite run_app, (halt_free_run _ Hf). simpl.
    split; [done|]. right. exists e.
    change (last ([ALock; AUpdate (Ok b); ABroadcast; AUnlock] ++ tl ++ [AHalt e])
            = Some (AHalt e)).
    by rewrite app_assoc, last_snoc.
Qed.

Section event_module_facts.
Context {S : Type} `{!EventImpl S}.
Implicit Types (m : module S) (sched : list bool).

(** ** The code produces the grammar *)

Lemma check_spec m r m' :
  check m = (r, m') ->
  exists tc, check_trace r tc /\ extends m tc m' /\ same_flags m m'
    /\ m_contentlock m' = false.
Proof.
  unfold check, lock_guard, finally, bind, ret.
  destruct (call_has_event (mutex_lock m)) as [[[]|e] m1] eqn:E1;
    apply call_spec in E1 as (X1 & F1 & L1 & _).
  - destruct (call_update m1) as [r2 m2] eqn:E2.
    apply call_spec in E2 as (X2 & F2 & L2 & _). intros [= <- <-].
    exists [ALock; AHasEvent (Ok true); AUpdate r2; AUnlock].
    split; [constructor|]. split; [trace_solve|]. split; [flags_solve|done].
  - intros [= <- <-]. eexists; split; [apply ct_no_event|].
    split; [trace_solve|]. split; [flags_solve|done].
  - intros [= <- <-]. eexists; split; [apply ct_throw|].
    split; [trace_solve|]. split; [flags_solve|done].
Qed.

Lemma iteration_spec m r m' :
  iteration m = (r, m') ->
  exists ti, iteration_trace r ti /\ extends m ti m' /\ same_flags m m'
    /\ m_contentlock m' = false.
Proof.
  unfold iteration, bind.
  destruct (check m) as [[c|e] m1] eqn:E1;
    apply check_spec in E1 as (tc & Hc & X1 & F1 & L1).
  - destruct c; simpl.
    + destruct (call_idle _) as [r3 m3] eqn:E3.
      apply call_spec in E3 as (X3 & F3 & L3 & _). intros [= <- <-].
      exists (tc ++ [ABroadcast; AIdle r3]). split; [by constructor|].
      split; [trace_solve|]. split; [flags_solve|]. by rewrite L3.
    + destruct (call_idle _) as [r3 m3] eqn:E3.
      apply call_spec in E3 as (X3 & F3 & L3 & _). intros [= <- <-].
      exists (tc ++ [AIdle r3]). split; [by constructor|].
      split; [trace_solve|]. split; [flags_solve|]. by rewrite L3.
  - intros [= <- <-]. exists tc. split; [by constructor|done].
Qed.

(** What a finished run of the loop leaves: a trace of the grammar, the
    lock free, the module disabled when the loop returned normally, and
    the other flags as they were. *)
Lemma loop_spec sched m r m' :
  loop sched m = Some (r, m') ->
  m_contentlock m = false ->
  exists tl, loop_trace r tl /\ extends m tl m' /\ m_contentlock m' = false
    /\ m_mainthread m' = m_mainthread m /\ m_halted m' = m_halted m
    /\ (r = Ok tt -> m_enabled m' = false)
    /\ (m_enabled m = false -> m_enabled m' = false).
Proof.
  revert m. induction sched as [|b sched IH]; intros m; [done|]. simpl.
  set (m0 := if b then stop m else m).
  assert (Hm0 : (m0 = m /\ (b = false \/ m_enabled m = false))
                \/ (m0 = log AStop (set_enabled false m) /\ b = true)).
  { subst m0. unfold stop. destruct b, (m_enabled m); auto. }
  unfold running, gets. destruct (m_enabled m0) eqn:Hen.
  - destruct Hm0 as [[-> Hb]|[-> _]]; [|done].
    destruct (iteration m) as [[[]|e] m1] eqn:Ei;
      apply iteration_spec in Ei as (ti & Hi & X1 & F1 & L1).
    + intros Hl Hlock. destruct (IH _ Hl L1) as (tl & Htl & X2 & L2 & T2 & H2 & E2 & D2).
      exists (ti ++ tl). split; [by constructor|]. split; [trace_solve|].
      repeat split; [done|flags_solve|flags_solve|done|congruence].
    + intros [= <- <-] Hlock. exists ti. split; [by constructor|].
      repeat split; [done|done|flags_solve|flags_solve|done|flags_solve].
  - intros [= <- <-] Hlock. destruct Hm0 as [[-> Hb]|[-> _]].
    + exists []. split; [constructor|]. split; [trace_solve|]. done.
    + exists [AStop]. split; [constructor|]. split; [trace_solve|]. done.
Qed.

Lemma warm_up_spec m r m' :
  warm_up m = (r, m') ->
  same_flags m m' /\ m_contentlock m' = false /\
  match (impl_update (impl m)).1 with
  | Ok b => r = Ok {| owns := false |} /\ extends m (warm_up_ok b) m'
  | Err e => r = Err e /\ extends m [ALock; AUpdate (Err e); AUnlock] m'
  end.
Proof.
  unfold warm_up, unique_lock_acquire, bind.
  destruct (call_update (mutex_lock m)) as [[b|e] m1] eqn:E1;
    apply call_spec in E1 as (X1 & F1 & L1 & Hu); simpl in Hu; rewrite Hu; simpl.
  - intros [= <- <-]. split; [flags_solve|]. split; [done|]. split; [done|trace_solve].
  - intros [= <- <-]. split; [flags_solve|]. split; [done|]. split; [done|trace_solve].
Qed.

(** What a finished run of the worker leaves. *)
Lemma runner_spec sched m m' :
  runner sched m = Some m' ->
  exists tr, runner_trace tr /\ extends m tr m' /\ m_contentlock m' = false
    /\ m_enabled m' = false /\ m_mainthread m' = m_mainthread m
    /\ m_halted m' = halt_reason (m_halted m) tr.
Proof.
  unfold runner, runner_try.
  destruct (warm_up m) as [[g|e] m1] eqn:Ew;
    apply warm_up_spec in Ew as (F1 & L1 & Hw);
    destruct ((impl_update (impl m)).1) as [b|e0]; destruct Hw as [[= Hr] X1]; subst.
  - destruct (loop sched m1) as [[[[]|e] m2]|] eqn:El; [| |done];
      apply loop_spec in El as (tl & Htl & X2 & L2 & T2 & H2 & E2 & D2); try done.
    + intros [= <-]. exists (warm_up_ok b ++ tl). split; [by constructor|].
      split; [trace_solve|]. repeat split; [done|by apply E2|flags_solve|].
      rewrite halt_reason_free; [flags_solve|].
      by rewrite count_app, (loop_trace_halt_free _ _ Htl).
    + intros [= <-]. exists (warm_up_ok b ++ tl ++ [AHalt e]). split; [by constructor|].
      split; [trace_solve|]. repeat split; [done|flags_solve|].
      by rewrite app_assoc, halt_reason_snoc.
  - intros [= <-]. eexists. split; [apply (rt_warm_up_throw e0)|].
    split; [trace_solve|]. repeat split; [done|flags_solve].
Qed.

Lemma extends_inj m m' t1 t2 : extends m t1 m' -> extends m t2 m' -> t1 = t2.
Proof. unfold extends. intros -> H. by apply app_inv_head in H. Qed.

(** The run used by the concrete witnesses: events pending at three of
    four checks, the third update unchanged, a stop request before the
    fifth evaluation of the loop condition. *)
Definition demo_idle : module script :=
  new_module (Script [Ok true; Ok false; Ok true; Ok true]
                     [Ok false; Ok true; Ok true; Ok false] 0).

Definition demo : module script := set_mainthread true demo_idle.

Definition demo_sched : list bool := [false; false; false; false; true].

Definition demo_final : module script :=
  Eval vm_compute in default demo (runner demo_sched demo).

(** A run in which the second evaluation throws. *)
Definition demo_throwing : module script :=
  new_module (Script [Ok true] [Ok true; Err "no clock"] 0).

Definition demo_throwing_final : module script :=
  Eval vm_compute in default demo_throwing (runner demo_sched demo_throwing).

Definition demo_throwing_actions : trace :=
  [ALock; AUpdate (Ok true); ABroadcast; AUnlock;
   ALock; AHasEvent (Ok true); AUpdate (Err "no clock"); AUnlock;
   AHalt "no clock"].

End event_module_facts.

(** ** Properties of the worker *)

Section event_module_properties.
Context {S : Type} `{!EventImpl S}.
Implicit Types (m : module S) (sched : list bool).

(** C3. The worker follows its protocol: the actions of a finished run
    of [runner] are a warm-up (lock, update, broadcast, unlock), then
    loop passes (check under the lock, a broadcast when the check
    reports a change, idle), then a halt when something threw. *)
Theorem runner_protocol sched m m' :
  runner sched m = Some m' ->
  exists tr, runner_trace tr /\ extends m tr m'.
Proof.
  intros Hrun. destruct (runner_spec _ _ _ Hrun) as (tr & Htr & Hext & _).
  by exists tr.
Qed.

(** C1. Lock discipline: started with the content lock free, the worker
    evaluates the implementation only with the lock held, waits and
    halts only with the lock free, never locks twice, and leaves the
    lock free when it returns, also when the implementation threw. *)
Theorem runner_lock_discipline sched m m' :
  lock_consistent m -> m_contentlock m = false ->
  runner sched m = Some m' ->
  lock_consistent m' /\ m_contentlock m' = false.
Proof.
  intros Hc Hfree Hrun.
  destruct (runner_spec _ _ _ Hrun) as (tr & Htr & Hext & Hl & _).
  split; [|done]. eapply lock_consistent_extends; [done..|].
  rewrite Hfree, Hl. by apply runner_trace_lock.
Qed.

(** C9. The warm-up evaluation comes first and once: the first two
    actions of the worker are the lock and an [update()] that does not
    look at [has_event()]; every later [update()] directly follows a
    [has_event()] that returned true. *)
Theorem runner_warm_up_first sched m m' :
  runner sched m = Some m' ->
  exists rest, extends m (ALock :: AUpdate (impl_update (impl m)).1 :: rest) m'
    /\ is_Some (guard_run false rest).
Proof.
  unfold runner, runner_try.
  destruct (warm_up m) as [[g|e] m1] eqn:Ew;
    apply warm_up_spec in Ew as (F1 & L1 & Hw);
    destruct ((impl_update (impl m)).1) as [b|e0]; destruct Hw as [[= Hr] X1]; subst.
  - destruct (loop sched m1) as [[r m2]|] eqn:El; [|done].
    apply loop_spec in El as (tl & Htl & X2 & _); [|done].
    exists ([ABroadcast; AUnlock] ++ tl ++ match r with Ok _ => [] | Err e => [AHalt e] end).
    split; [destruct r; simplify_eq; trace_solve|].
    simpl. rewrite run_app, (loop_trace_guard _ _ Htl). by destruct r.
  - intros [= <-]. exists [AUnlock; AHalt e0]. split; [trace_solve|done].
Qed.

(** C14. A module whose first [update()] throws is halted after that one
    evaluation, on every schedule: the worker releases the lock, records
    the message, disables the module, and has broadcast nothing. *)
Theorem runner_update_throws sched m e :
  (impl_update (impl m)).1 = Err e ->
  exists m', runner sched m = Some m'
    /\ extends m [ALock; AUpdate (Err e); AUnlock; AHalt e] m'
    /\ m_enabled m' = false /\ m_halted m' = Some e
    /\ m_changed m' = m_changed m.
Proof.
  intros He. unfold runner, runner_try, warm_up, unique_lock_acquire, bind,
    call_update, call.
  simpl. destruct (impl_update (impl m)) as [r s]. simpl in He. subst r.
  eexists. split; [done|]. split; [trace_solve|done].
Qed.

(** C11. In the loop every broadcast answers a changed update and every
    update answers a pending event: after the warm-up, the number of
    broadcasts is the number of updates that returned true, and the
    number of updates is the number of [has_event()] that returned
    true. *)
Theorem runner_broadcasts_changes sched m m' b :
  (impl_update (impl m)).1 = Ok b ->
  runner sched m = Some m' ->
  exists rest, extends m (warm_up_ok b ++ rest) m' /\ balanced rest.
Proof.
  intros Hb. unfold runner, runner_try.
  destruct (warm_up m) as [[g|e] m1] eqn:Ew;
    apply warm_up_spec in Ew as (F1 & L1 & Hw);
    rewrite Hb in Hw; destruct Hw as [[= Hr] X1]; subst.
  destruct (loop sched m1) as [[r m2]|] eqn:El; [|done].
  apply loop_spec in El as (tl & Htl & X2 & _); [|done].
  exists (tl ++ match r with Ok _ => [] | Err e => [AHalt e] end).
  split; [destruct r; simplify_eq; trace_solve|].
  apply balanced_app; [by eapply loop_trace_balanced|by destruct r].
Qed.

(** C13. The worker returns on every schedule that holds a stop request,
    whatever the implementation does. *)
Theorem runner_terminates sched m :
  true ∈ sched -> is_Some (runner sched m).
Proof.
  intros Hin. unfold runner, runner_try.
  destruct (warm_up m) as [[g|e] m1]; [|done].
  assert (is_Some (loop sched m1)) as [[r m2] ->]; [|by destruct r].
  clear m g. revert m1.
  induction sched as [|b sched IH]; intros m; [by apply elem_of_nil in Hin|].
  apply elem_of_cons in Hin as [<-|Hin]; simpl.
  - unfold running, gets. by rewrite stop_disabled.
  - unfold running, gets. destruct (m_enabled _); [|done].
    destruct (iteration _) as [[[]|e] m']; [by apply IH|done].
Qed.

(** C5. An exception never leaves the worker and a halt is final: a
    finished run leaves the module disabled, its trace holds at most one
    halt and nothing after it, and the halt reason is either untouched
    (no halt in the trace) or the message of the halt that ends the
    trace. *)
Theorem runner_contains_exceptions sched m m' tr :
  runner sched m = Some m' -> extends m tr m' ->
  m_enabled m' = false /\ is_Some (halt_run false tr)
  /\ ((m_halted m' = m_halted m /\ count is_halt tr = 0)
      \/ exists e, m_halted m' = Some e /\ last tr = Some (AHalt e)).
Proof.
  intros Hrun Hext.
  destruct (runner_spec _ _ _ Hrun) as (tr' & Htr & Hext' & _ & Hen & _ & Hh).
  rewrite (extends_inj _ _ _ _ Hext Hext') in *. clear Hext.
  destruct (runner_trace_halt _ Htr) as [Hrun' [Hfree|[e He]]].
  - repeat split; [done..|]. left. by rewrite Hh, halt_reason_free.
  - repeat split; [done..|]. right. exists e. split; [|done].
    rewrite Hh. unfold halt_reason. by rewrite He.
Qed.

Lemma start_spec m m' :
  start m = Started m' -> m_mainthread m = false /\ m' = set_mainthread true m.
Proof. unfold start. destruct (m_mainthread m) eqn:E; [done|]. by intros [= <-]. Qed.

(** C24. A second [start()] does not spawn a second worker: [start()]
    succeeds only on a module whose thread handle is empty, and a
    [start()] on the module it returns terminates the process, however
    the first worker has fared in between. *)
Theorem start_once m m' os m'' :
  start m = Started m' -> apply_ops os m' = Some m'' ->
  m_mainthread m = false /\ start m'' = Terminated.
Proof.
  intros (Hm & ->)%start_spec Hos. split; [done|].
  assert (Hj : m_mainthread (set_mainthread true m) = true) by done.
  revert Hos Hj. generalize (set_mainthread true m). clear.
  induction os as [|o os IH]; intros m1; simpl.
  - intros [= <-] Hj. unfold start. by rewrite Hj.
  - destruct (apply_op o m1) as [m2|] eqn:Eo; [|done]. intros Hos Hj.
    apply (IH m2 Hos). destruct o; simpl in Eo.
    + by destruct (start m1) as [m0|] eqn:Es; [apply start_spec in Es as (? & ->); simplify_eq|].
    + apply runner_spec in Eo as (tr & _ & _ & _ & _ & -> & _). done.
    + simplify_eq. unfold stop. by destruct (m_enabled m1).
    + by simplify_eq.
    + by simplify_eq.
    + by simplify_eq.
Qed.

(** C23. Every operation refines the lifecycle: it leaves the lifecycle
    state of the module where it is, or takes one step of the lifecycle
    (Idle to Running, Running to Halted, Idle to Halted). *)
Theorem op_refines_lifecycle o m m' :
  apply_op o m = Some m' ->
  lifecycle_of m' = lifecycle_of m \/ lifecycle_step (lifecycle_of m) (lifecycle_of m').
Proof.
  assert (Hhalt : forall m1 m2, m_enabled m2 = false -> m_mainthread m2 = m_mainthread m1 ->
    lifecycle_of m2 = lifecycle_of m1 \/ lifecycle_step (lifecycle_of m1) (lifecycle_of m2)).
  { intros m1 m2 H1 H2. unfold lifecycle_of. rewrite H1, <- H2.
    destruct (m_enabled m1), (m_mainthread m2); auto using lifecycle_step. }
  destruct o; simpl.
  - destruct (start m) as [m0|] eqn:Es; [|done]. intros [= <-].
    apply start_spec in Es as (Hm & ->). unfold lifecycle_of. simpl.
    rewrite Hm. destruct (m_enabled m); auto using lifecycle_step.
  - intros (tr & _ & _ & _ & Hen & Hmt & _)%runner_spec. by apply Hhalt.
  - intros [= <-]. apply Hhalt; [apply stop_disabled|].
    unfold stop. by destruct (m_enabled m).
  - intros [= <-]. by apply Hhalt.
  - intros [= <-]. by left.
  - intros [= <-]. by left.
Qed.

Lemma apply_op_enabled o m m' :
  apply_op o m = Some m' -> m_enabled m' = m_enabled m && keeps_running o.
Proof.
  destruct o; simpl.
  - destruct (start m) as [m0|] eqn:Es; [|done]. intros [= <-].
    apply start_spec in Es as (_ & ->). simpl. by rewrite andb_true_r.
  - intros (tr & _ & _ & _ & -> & _)%runner_spec. by rewrite andb_false_r.
  - intros [= <-]. by rewrite stop_disabled, andb_false_r.
  - intros [= <-]. simpl. by rewrite andb_false_r.
  - intros [= <-]. simpl. by rewrite andb_true_r.
  - intros [= <-]. simpl. by rewrite andb_true_r.
Qed.

(** C22. [running()] holds until the module is halted and never again:
    after any sequence of operations, the module is enabled exactly when
    it was enabled before and no operation of the sequence was a halt, a
    stop request or a run of the worker to its end. *)
Theorem running_until_halted os m m' :
  apply_ops os m = Some m' ->
  (running m').1 = Ok (m_enabled m && forallb keeps_running os).
Proof.
  revert m. induction os as [|o os IH]; intros m; cbn [apply_ops forallb].
  - intros [= <-]. by rewrite andb_true_r.
  - destruct (apply_op o m) as [m1|] eqn:Eo; [|done]. intros Hos.
    rewrite (IH _ Hos), (apply_op_enabled _ _ _ Eo). by rewrite andb_assoc.
Qed.

Lemma iteration_trace_idle ti : iteration_trace (Ok tt) ti -> count is_idle ti = 1.
Proof.
  assert (Hc : forall r tc, check_trace r tc -> count is_idle tc = 0)
    by (by destruct 1).
  inversion 1 as [r tc Hr|r tc Hr|e tc Hr]; subst; by rewrite count_app, (Hc _ _ Hr).
Qed.

(** An implementation none of whose methods throws. *)
Definition total_impl : Prop :=
  forall s : S, is_ok (impl_update s).1 = true /\ is_ok (impl_has_event s).1 = true
    /\ is_ok (impl_idle s).1 = true.

Lemma iteration_total m :
  total_impl -> exists m', iteration m = (Ok tt, m').
Proof.
  intros Ht. unfold iteration, check, lock_guard, finally, bind, ret, broadcast,
    modify, call_has_event, call_update, call_idle, call. simpl.
  repeat match goal with
         | |- context [?f ?s] =>
             match f with
             | impl_has_event => idtac | impl_update => idtac | impl_idle => idtac
             end;
             let H := fresh in
             destruct (Ht s) as (? & ? & ?); destruct (f s) as [[[]|] ?]; simpl in *;
             try done
         end; eauto.
Qed.

(** C25. A running module keeps evaluating until it is asked to stop:
    with an implementation that does not throw, a schedule of [n]
    evaluations of the loop condition without a stop request followed by
    one with, makes the worker run exactly [n] passes of the loop, the
    last action of the worker being the stop it observed. *)
Theorem runner_runs_until_stopped n m :
  total_impl -> m_enabled m = true ->
  exists m' tr, runner (replicate n false ++ [true]) m = Some m'
    /\ extends m tr m' /\ count is_idle tr = n /\ last tr = Some AStop.
Proof.
  intros Ht Hen.
  assert (Hloop : forall m1, m_enabled m1 = true -> exists m2 tl,
    loop (replicate n false ++ [true]) m1 = Some (Ok tt, m2)
    /\ extends m1 (tl ++ [AStop]) m2 /\ count is_idle tl = n).
  { clear m Hen. induction n as [|n IH]; intros m1 Hen; simpl.
    - unfold stop. rewrite Hen. simpl. exists (log AStop (set_enabled false m1)), [].
      by repeat split.
    - unfold running, gets. rewrite Hen.
      destruct (iteration_total m1 Ht) as [m2 Ei]. rewrite Ei.
      apply iteration_spec in Ei as (ti & Hi & X & F & _).
      destruct (IH m2) as (m3 & tl & -> & X3 & Hc); [flags_solve|].
      exists m3, (ti ++ tl). split; [done|]. split; [trace_solve|].
      by rewrite count_app, (iteration_trace_idle _ Hi), Hc. }
  unfold runner, runner_try.
  destruct (warm_up m) as [r m1] eqn:Ew. apply warm_up_spec in Ew as (F & _ & Hw).
  destruct (Ht (impl m)) as (Hu & _). destruct ((impl_update (impl m)).1) as [b|]; [|done].
  destruct Hw as [-> X]. destruct (Hloop m1) as (m2 & tl & -> & X2 & Hc); [flags_solve|].
  exists m2, (warm_up_ok b ++ tl ++ [AStop]). split; [done|]. split; [trace_solve|].
  split; [by rewrite !count_app, Hc|].
  change (warm_up_ok b ++ tl ++ [AStop]) with (warm_up_ok b ++ (tl ++ [AStop])).
  by rewrite app_assoc, last_snoc.
Qed.

End event_module_properties.

(** ** Concrete runs *)

Example demo_run_trace :
  m_trace demo_final =
    [ALock; AUpdate (Ok false); ABroadcast; AUnlock;
     ALock; AHasEvent (Ok true); AUpdate (Ok true); AUnlock; ABroadcast; AIdle (Ok tt);
     ALock; AHasEvent (Ok false); AUnlock; AIdle (Ok tt);
     ALock; AHasEvent (Ok true); AUpdate (Ok true); AUnlock; ABroadcast; AIdle (Ok tt);
     ALock; AHasEvent (Ok true); AUpdate (Ok false); AUnlock; AIdle (Ok tt);
     AStop].
Proof. reflexivity. Qed.

Example demo_throwing_trace :
  m_trace <$> runner demo_sched demo_throwing = Some demo_throwing_actions.
Proof. reflexivity. Qed.

Lemma demo_runs : runner demo_sched demo = Some demo_final.
Proof. reflexivity. Qed.

Lemma runner_protocol_witness :
  exists tr, runner_trace tr /\ extends demo tr demo_final.
Proof. apply (runner_protocol demo_sched). exact demo_runs. Defined.

Lemma runner_lock_discipline_witness :
  lock_consistent demo_final /\ m_contentlock demo_final = false.
Proof.
  apply (runner_lock_discipline demo_sched demo); [reflexivity|reflexivity|exact demo_runs].
Defined.

Lemma runner_warm_up_first_witness :
  exists rest,
    extends demo (ALock :: AUpdate (impl_update (impl demo)).1 :: rest) demo_final
    /\ is_Some (guard_run false rest).
Proof. exact (runner_warm_up_first demo_sched demo demo_final demo_runs). Defined.

Lemma runner_update_throws_witness :
  exists m', runner [] (new_module (Script [] [Err "no clock"] 0)) = Some m'
    /\ extends (new_module (Script [] [Err "no clock"] 0))
         [ALock; AUpdate (Err "no clock"); AUnlock; AHalt "no clock"] m'
    /\ m_enabled m' = false /\ m_halted m' = Some "no clock"
    /\ m_changed m' = false.
Proof. apply (runner_update_throws [] (new_module (Script [] [Err "no clock"] 0))). reflexivity. Defined.

Lemma runner_broadcasts_changes_witness :
  exists rest, extends demo (warm_up_ok false ++ rest) demo_final /\ balanced rest.
Proof.
  apply (runner_broadcasts_changes demo_sched demo demo_final false);
    [reflexivity|exact demo_runs].
Defined.

Lemma runner_terminates_witness : is_Some (runner demo_sched demo).
Proof. apply runner_terminates. unfold demo_sched. repeat constructor. Defined.

Lemma runner_contains_exceptions_witness :
  m_enabled demo_throwing_final = false
  /\ is_Some (halt_run false demo_throwing_actions)
  /\ ((m_halted demo_throwing_final = m_halted demo_throwing
       /\ count is_halt demo_throwing_actions = 0)
      \/ exists e, m_halted demo_throwing_final = Some e
                   /\ last demo_throwing_actions = Some (AHalt e)).
Proof.
  apply (runner_contains_exceptions demo_sched demo_throwing); reflexivity.
Defined.

Lemma start_once_witness :
  m_mainthread demo_idle = false /\ start demo_final = Terminated.
Proof.
  apply (start_once demo_idle demo [OpRun demo_sched]); reflexivity.
Defined.

Lemma op_refines_lifecycle_witness :
  lifecycle_of demo_final = lifecycle_of demo
  \/ lifecycle_step (lifecycle_of demo) (lifecycle_of demo_final).
Proof. apply (op_refines_lifecycle (OpRun demo_sched) demo). exact demo_runs. Defined.

Lemma running_until_halted_witness :
  (running (wakeup (broadcast demo).2).2).1
  = Ok (m_enabled demo_idle && forallb keeps_running [OpStart; OpBroadcast; OpWakeup]).
Proof.
  apply (running_until_halted [OpStart; OpBroadcast; OpWakeup] demo_idle). reflexivity.
Defined.

Lemma ticker_total : total_impl (S := ticker).
Proof. by intros [n]. Qed.

Lemma runner_runs_until_stopped_witness :
  exists m' tr, runner (replicate 3 false ++ [true]) (new_module (Ticker 0)) = Some m'
    /\ extends (new_module (Ticker 0)) tr m' /\ count is_idle tr = 3
    /\ last tr = Some AStop.
Proof.
  apply (runner_runs_until_stopped 3 (new_module (Ticker 0)));
    [exact ticker_total|reflexivity].
Defined.

End event_module.
