(* ===== verification/Environ.v ===== *)
(** * The process environment and the time formatter

    [getenv] and [setenv] on the environment of the process, a finite
    map from names to values shared by every thread, and [TimeFormat],
    the interface that stands for [std::put_time (localtime (&time),
    format)]: the broken-down time depends on the value of TZ when
    [localtime] is called, so the formatter takes that value as an
    argument.  [demo_format] is an instance that evaluates: it knows the
    conversions %H, %M, %S and %%, and a few zones by name. *)

From Stdlib Require Import ZArith.
From S2P Require Import Prelude.

Abbreviation environ := (gmap string string).

Definition getenv (name : string) (env : environ) : option string :=
  env !! name.

(** [setenv(name, value, overwrite)]: an existing variable is kept when
    [overwrite] is zero. *)
Definition setenv (name value : string) (overwrite : bool) (env : environ) : environ :=
  if overwrite || bool_decide (env !! name = None) then <[name := value]> env else env.

Class TimeFormat : Type := {
  put_time : option string -> Z -> string -> string;
  put_time_empty : forall tz t, put_time tz t "" = "";
}.

(** ** An instance that evaluates *)

(** Minutes east of Greenwich. *)
Definition zone_offset (tz : option string) : Z :=
  match tz with
  | Some "Asia/Tokyo" => 540
  | Some "Asia/Kolkata" => 330
  | Some "Europe/Berlin" => 60
  | Some "America/New_York" => -300
  | _ => 0
  end%Z.

Definition digit (n : Z) : ascii := ascii_of_nat (48 + Z.to_nat (n mod 10)).

Definition two_digits (n : Z) : string :=
  String (digit (n / 10)) (String (digit n) EmptyString).

Fixpoint strftime (h m s : Z) (format : string) : string :=
  match format with
  | EmptyString => EmptyString
  | String "%" (String c rest) =>
      (if Ascii.eqb c "H" then two_digits h
       else if Ascii.eqb c "M" then two_digits m
       else if Ascii.eqb c "S" then two_digits s
       else if Ascii.eqb c "%" then "%"
       else String "%" (String c EmptyString))
      +:+ strftime h m s rest
  | String c rest => String c (strftime h m s rest)
  end.

Definition demo_put_time (tz : option string) (t : Z) (format : string) : string :=
  let local := (t + 60 * zone_offset tz)%Z in
  strftime ((local / 3600) mod 24) ((local / 60) mod 60) (local mod 60) format.

#[export] Instance demo_format : TimeFormat :=
  {| put_time := demo_put_time; put_time_empty := fun _ _ => eq_refl |}.

(** ** Facts on the environment *)

Lemma getenv_setenv name value env :
  getenv name (setenv name value true env) = Some value.
Proof. unfold getenv, setenv. simpl. apply lookup_insert_eq. Qed.

Lemma getenv_setenv_ne name name' value ow env :
  name <> name' -> getenv name' (setenv name value ow env) = getenv name' env.
Proof.
  intros Hne. unfold getenv, setenv.
  destruct (ow || _); [by apply lookup_insert_ne|done].
Qed.

Lemma setenv_keep name value env :
  is_Some (getenv name env) -> setenv name value false env = env.
Proof.
  intros [v Hv]. unfold getenv in Hv. unfold setenv. simpl.
  by rewrite bool_decide_eq_false_2 by (rewrite Hv; done).
Qed.

Lemma setenv_setenv name v1 v2 env :
  setenv name v2 true (setenv name v1 true env) = setenv name v2 true env.
Proof. unfold setenv. simpl. apply insert_insert_eq. Qed.

(** Setting a variable back to the value it had restores the
    environment. *)
Lemma setenv_restore name v env :
  getenv name env = Some v -> setenv name v true env = env.
Proof. unfold getenv, setenv. simpl. apply insert_id. Qed.

Example demo_put_time_utc : put_time None 45296 "%H:%M:%S" = "12:34:56".
Proof. reflexivity. Qed.

Example demo_put_time_tokyo : put_time (Some "Asia/Tokyo") 45296 "%H:%M" = "21:34".
Proof. reflexivity. Qed.
