(* ===== verification/Config.v ===== *)
(** * The configuration and the formatter of a module

    The settings a module reads when it is built, keyed by section and
    key, and the format table of a module: a format name with its value,
    the text in which tags such as <label> stand for the parts the
    module builds.  Both are part of polybar but outside the inspected
    sources; the formatter's check of the tags of a value against the
    tags the module answers is not modelled. *)

From Stdlib Require Import NArith.
From S2P Require Import Prelude StringUtil.

Record config : Type := Config {
  conf_strings : gmap (string * string) string;
  conf_durations : gmap (string * string) N;     (* in milliseconds *)
}.

(** [m_conf.get(section, key, fallback)] *)
Definition conf_get (c : config) (section key fallback : string) : string :=
  default fallback (conf_strings c !! (section, key)).

(** [m_conf.get<interval_t>(section, key, fallback)] *)
Definition conf_get_duration (c : config) (section key : string) (fallback : N) : N :=
  default fallback (conf_durations c !! (section, key)).

(** A format of a module: its value, the text in which tags stand for
    the parts the module builds, and the tags the module answers. *)
Record module_format : Type := ModuleFormat {
  value : string;
  tags : list string;
}.

Abbreviation formatter := (gmap string module_format).

(** [m_formatter->add(name, fallback, tags)]: the value of the format is
    the setting of that name, or the fallback. *)
Definition formatter_add (c : config) (section name fallback : string)
    (tags : list string) (f : formatter) : formatter :=
  <[name := ModuleFormat (conf_get c section name fallback) tags]> f.

(** [m_formatter->has(tag)]: the value of some format mentions the
    tag. *)
Definition formatter_has (tag : string) (f : formatter) : bool :=
  bool_decide (map_Exists (fun _ format => string_util.contains (value format) tag = true) f).

(** [m_formatter->get(name)->value] *)
Definition formatter_get (name : string) (f : formatter) : string :=
  default "" (value <$> f !! name).

(** [m_formatter->get(name)->value = v] *)
Definition formatter_set (name v : string) (f : formatter) : formatter :=
  alter (fun format => ModuleFormat v (tags format)) name f.

Lemma conf_get_set c section key fallback value :
  conf_strings c !! (section, key) = Some value ->
  conf_get c section key fallback = value.
Proof. unfold conf_get. by intros ->. Qed.

Lemma conf_get_unset c section key fallback :
  conf_strings c !! (section, key) = None ->
  conf_get c section key fallback = fallback.
Proof. unfold conf_get. by intros ->. Qed.

Lemma formatter_has_singleton tag name format :
  formatter_has tag {[name := format]} = string_util.contains (value format) tag.
Proof.
  unfold formatter_has. destruct (string_util.contains (value format) tag) eqn:E.
  - apply bool_decide_eq_true. exists name, format. by rewrite lookup_singleton_eq.
  - apply bool_decide_eq_false. intros (k & v & Hk & Hv).
    apply lookup_singleton_Some in Hk as [_ <-]. congruence.
Qed.

Lemma formatter_get_add c section name fallback tags f :
  formatter_get name (formatter_add c section name fallback tags f)
  = conf_get c section name fallback.
Proof. unfold formatter_get, formatter_add. by rewrite lookup_insert_eq. Qed.

Lemma formatter_get_set name v f :
  is_Some (f !! name) -> formatter_get name (formatter_set name v f) = v.
Proof.
  intros [format Hf]. unfold formatter_get, formatter_set.
  by rewrite lookup_alter_eq, Hf.
Qed.
