(* ===== verification/Label.v ===== *)
(** * The label drawtype

    A label holds the text of its template and the text with the tokens
    replaced.  [reset_tokens] goes back to the template;
    [replace_token] rewrites every occurrence of one token in the
    current text.  Part of polybar, outside the inspected sources. *)

From S2P Require Import Prelude StringUtil Config.

Record label : Type := Label {
  m_text : string;        (* the template *)
  m_tokenized : string;   (* the template with tokens replaced *)
}.

#[export] Instance label_eq_dec : EqDecision label.
Proof. solve_decision. Defined.

Definition reset_tokens (l : label) : label :=
  Label (m_text l) (m_text l).

Definition replace_token (token replacement : string) (l : label) : label :=
  Label (m_text l) (string_util.replace_all (m_tokenized l) token replacement).

(** The text the label shows. *)
Definition label_get (l : label) : string := m_tokenized l.

(** [load_optional_label(conf, section, name, fallback)] *)
Definition load_optional_label (c : config) (section name fallback : string) : label :=
  let text := conf_get c section name fallback in Label text text.

Lemma reset_tokens_idem l : reset_tokens (reset_tokens l) = reset_tokens l.
Proof. done. Qed.

Lemma replace_token_text token replacement l :
  m_text (replace_token token replacement l) = m_text l.
Proof. done. Qed.

(** A token the text does not mention leaves the label as it is. *)
Lemma replace_token_absent token replacement l :
  string_util.contains (m_tokenized l) token = false ->
  replace_token token replacement l = l.
Proof.
  intros H. unfold replace_token. rewrite string_util.replace_all_absent by done.
  by destruct l.
Qed.
