(* ===== verification/Builder.v ===== *)
(** * The builder

    The output of a module is assembled by a builder: a sequence of
    items, among which a click command opens with [cmd] and closes with
    [cmd_close], and [node] emits the text of a label.  Part of
    polybar, outside the inspected sources.  [well_nested] is the
    monitor of [Trace.run] that accepts the sequences in which every
    [cmd_close] closes an open command. *)

From S2P Require Import Prelude Trace Label.

Inductive mousebtn : Type :=
| NONE | LEFT | MIDDLE | RIGHT | SCROLL_UP | SCROLL_DOWN | DOUBLE_LEFT | DOUBLE_MIDDLE
| DOUBLE_RIGHT.

#[export] Instance mousebtn_eq_dec : EqDecision mousebtn.
Proof. solve_decision. Defined.

Inductive item : Type :=
| Cmd (btn : mousebtn) (action : string)
| CmdClose
| Node (text : string).

#[export] Instance item_eq_dec : EqDecision item.
Proof. solve_decision. Defined.

Abbreviation builder := (list item).

Definition cmd (btn : mousebtn) (action : string) (b : builder) : builder :=
  b ++ [Cmd btn action].

Definition cmd_close (b : builder) : builder := b ++ [CmdClose].

(** [builder->node(label)]: nothing is emitted for a null label or an
    empty text. *)
Definition node (l : option label) (b : builder) : builder :=
  match l with
  | Some l => if bool_decide (label_get l = "") then b else b ++ [Node (label_get l)]
  | None => b
  end.

(** The number of open commands; a close without an open command is
    rejected. *)
Definition nest_step (depth : nat) (i : item) : option nat :=
  match i with
  | Cmd _ _ => Some (S depth)
  | CmdClose => match depth with 0 => None | S d => Some d end
  | Node _ => Some depth
  end.

Abbreviation nest_run := (run nest_step).

(** Every command is closed and nothing is closed that was not open. *)
Definition well_nested (b : builder) : Prop := nest_run 0 b = Some 0.

#[export] Instance well_nested_dec b : Decision (well_nested b).
Proof. unfold well_nested. apply _. Defined.

Lemma nest_run_node depth l b d :
  nest_run depth b = Some d -> nest_run depth (node l b) = Some d.
Proof.
  intros H. unfold node. destruct l as [l|]; [|done].
  case_bool_decide; [done|]. by rewrite run_app, H.
Qed.

Lemma nest_run_cmd depth btn action b d :
  nest_run depth b = Some d -> nest_run depth (cmd btn action b) = Some (S d).
Proof. intros H. unfold cmd. by rewrite run_app, H. Qed.

Lemma nest_run_cmd_close depth b d :
  nest_run depth b = Some (S d) -> nest_run depth (cmd_close b) = Some d.
Proof. intros H. unfold cmd_close. by rewrite run_app, H. Qed.

(** What the builder holds after an operation extends what it held. *)
Lemma node_prefix l b : b `prefix_of` node l b.
Proof.
  unfold node. destruct l as [l|]; [|done].
  case_bool_decide; [done|]. by apply prefix_app_r.
Qed.
