(* ===== verification/DateModule.v ===== *)
(** * The date module

    src/src/modules/date.cpp: the constructor, [update], [build] and
    [input] of [date_module].  The fields of the class are the record
    [date_module]; [datetime_stream] is the string the member
    [std::stringstream] holds.  [update] takes the current time and the
    environment of the process, which it reads and writes through
    [getenv] and [setenv], and returns the environment it leaves.  The
    bar's locale is not modelled. *)

From Stdlib Require Import ZArith NArith.
From S2P Require Import Prelude StringUtil ReplaceAll Trace Lifecycle Environ Config Label Builder.

Module date.

Definition TAG_LABEL : string := "<label>".
Definition TAG_DATE : string := "<date>".
Definition DEFAULT_FORMAT : string := "format".
Definition EVENT_TOGGLE : string := "datetoggle".

(** The double quote, which the constructor trims off the settings. *)
Definition quote : ascii := "034"%char.

Record date_module : Type := DateModule {
  m_dateformat : string;
  m_dateformat_alt : string;
  m_timeformat : string;
  m_timeformat_alt : string;
  m_time_timezone : string;
  m_time_timezone_2 : string;
  m_interval : N;                 (* milliseconds *)
  m_formatter : formatter;
  m_label : option label;
  m_date : string;
  m_date_2 : string;
  m_time : string;
  m_time_2 : string;
  m_toggled : bool;
  datetime_stream : string;
}.

Definition set_stream (s : string) (d : date_module) : date_module :=
  DateModule (m_dateformat d) (m_dateformat_alt d) (m_timeformat d) (m_timeformat_alt d)
    (m_time_timezone d) (m_time_timezone_2 d) (m_interval d) (m_formatter d) (m_label d)
    (m_date d) (m_date_2 d) (m_time d) (m_time_2 d) (m_toggled d) s.

Definition set_shown (date date_2 time time_2 : string) (d : date_module) : date_module :=
  DateModule (m_dateformat d) (m_dateformat_alt d) (m_timeformat d) (m_timeformat_alt d)
    (m_time_timezone d) (m_time_timezone_2 d) (m_interval d) (m_formatter d) (m_label d)
    date date_2 time time_2 (m_toggled d) (datetime_stream d).

Definition set_label (l : option label) (d : date_module) : date_module :=
  DateModule (m_dateformat d) (m_dateformat_alt d) (m_timeformat d) (m_timeformat_alt d)
    (m_time_timezone d) (m_time_timezone_2 d) (m_interval d) (m_formatter d) l
    (m_date d) (m_date_2 d) (m_time d) (m_time_2 d) (m_toggled d) (datetime_stream d).

Definition set_toggled (b : bool) (d : date_module) : date_module :=
  DateModule (m_dateformat d) (m_dateformat_alt d) (m_timeformat d) (m_timeformat_alt d)
    (m_time_timezone d) (m_time_timezone_2 d) (m_interval d) (m_formatter d) (m_label d)
    (m_date d) (m_date_2 d) (m_time d) (m_time_2 d) b (datetime_stream d).

(** ** The constructor *)

(** A setting of the module, empty when absent, with the double quotes
    around it trimmed off. *)
Definition setting (c : config) (name key : string) : string :=
  string_util.trim (conf_get c name key "") quote.

(** The format registration: [add], then the migration of the
    deprecated tag <date> to <label>. *)
Definition load_formatter (c : config) (name : string) : formatter :=
  let f := formatter_add c name DEFAULT_FORMAT TAG_LABEL [TAG_LABEL; TAG_DATE] ∅ in
  if formatter_has TAG_DATE f then
    formatter_set DEFAULT_FORMAT
      (string_util.replace_all (formatter_get DEFAULT_FORMAT f) TAG_DATE TAG_LABEL) f
  else f.

Definition ctor (c : config) (name : string) : result date_module :=
  let dateformat := setting c name "date" in
  let dateformat_alt := setting c name "date-alt" in
  let timeformat := setting c name "time" in
  let time_timezone := setting c name "time-TZ" in
  let time_timezone_2 := setting c name "time-2-TZ" in
  let timeformat_alt := setting c name "time-alt" in
  if bool_decide (dateformat = "") && bool_decide (timeformat = "") then
    Err "No date or time format specified"
  else
    let interval := conf_get_duration c name "interval" 1000 in
    let f := load_formatter c name in
    let l := if formatter_has TAG_LABEL f
             then Some (load_optional_label c name "label" "%date%") else None in
    Ok (DateModule dateformat dateformat_alt timeformat timeformat_alt
          time_timezone time_timezone_2 interval f l "" "" "" "" false "").

(** ** update *)

Section rendering.
Context `{!TimeFormat}.

(** Clear the stream, write the time in the given format, read the
    stream; the time zone is the value of TZ at the call. *)
Definition stream_put_time (now : Z) (env : environ) (format : string)
    (d : date_module) : string * date_module :=
  let d := set_stream "" d in
  let d := set_stream (datetime_stream d +:+ put_time (getenv "TZ" env) now format) d in
  (datetime_stream d, d).

(** [m_toggled ? m_dateformat_alt : m_dateformat] *)
Definition date_format (d : date_module) : string :=
  if m_toggled d then m_dateformat_alt d else m_dateformat d.

(** [m_toggled ? m_timeformat_alt : m_timeformat] *)
Definition time_format (d : date_module) : string :=
  if m_toggled d then m_timeformat_alt d else m_timeformat d.

(** The date string and the time string, in the formats the toggle
    selects. *)
Definition render (now : Z) (env : environ) (d : date_module)
    : string * string * date_module :=
  let '(date_string, d) := stream_put_time now env (date_format d) d in
  let '(time_string, d) := stream_put_time now env (time_format d) d in
  (date_string, time_string, d).

(** The strings of the secondary time zone: TZ is set to it first. *)
Definition render_secondary (now : Z) (env : environ) (d : date_module)
    : string * string * date_module * environ :=
  if bool_decide (m_time_timezone_2 d <> "") then
    let env := setenv "TZ" (m_time_timezone_2 d) true env in
    let '(date_string_2, time_string_2, d) := render now env d in
    (date_string_2, time_string_2, d, env)
  else ("", "", d, env).

(** Rebuild the label from its template. *)
Definition refresh_label (d : date_module) : date_module :=
  match m_label d with
  | Some l =>
      let l := reset_tokens l in
      let l := replace_token "%date%" (m_date d) l in
      let l := replace_token "%date-2%" (m_date_2 d) l in
      let l := replace_token "%time%" (m_time d) l in
      let l := replace_token "%time-2%" (m_time_2 d) l in
      set_label (Some l) d
  | None => d
  end.

(** Set TZ back to the value it had, when it had one. *)
Definition restore_tz (timezone_format_original : option string) (env : environ) : environ :=
  match timezone_format_original with
  | Some tz => setenv "TZ" tz true env
  | None => env
  end.

Definition update (now : Z) (env : environ) (d : date_module)
    : bool * date_module * environ :=
  let timezone_format_original := getenv "TZ" env in
  let timezone_format := m_time_timezone d in
  let env := if bool_decide (timezone_format <> "")
             then setenv "TZ" timezone_format true env else env in
  let '(date_string, time_string, d) := render now env d in
  let '(date_string_2, time_string_2, d, env) := render_secondary now env d in
  if bool_decide (m_date d = date_string) && bool_decide (m_time d = time_string) then
    (false, d, env)
  else
    let d := set_shown date_string date_string_2 time_string time_string_2 d in
    let d := refresh_label d in
    let env := restore_tz timezone_format_original env in
    (true, d, env).

End rendering.

(** ** build *)

Definition build (b : builder) (tag : string) (d : date_module) : bool * builder :=
  if bool_decide (tag = TAG_LABEL) then
    if negb (bool_decide (m_dateformat_alt d = ""))
       || negb (bool_decide (m_timeformat_alt d = "")) then
      (true, cmd_close (node (m_label d) (cmd LEFT EVENT_TOGGLE b)))
    else (true, node (m_label d) b)
  else (false, b).

(** ** input *)

(** The state of the process the module runs in: the module, the
    environment, the clock. *)
Record process : Type := Process {
  self : date_module;
  p_env : environ;
  p_now : Z;
}.

Definition toggle (p : process) : process :=
  Process (set_toggled (negb (m_toggled (self p))) (self p)) (p_env p) (p_now p).

Definition input (command : string) : prog (module process) bool :=
  fun m =>
    if bool_decide (command <> EVENT_TOGGLE) then (Ok false, m)
    else
      let m := set_impl (toggle (impl m)) m in
      let m := (wakeup m).2 in
      (Ok true, m).

(** The date module as an implementation a driving strategy can call. *)
#[export] Instance date_impl `{!TimeFormat} : ModuleImpl process :=
  {| impl_update := fun p =>
       let '(changed, d, env) := update (p_now p) (p_env p) (self p) in
       (Ok changed, Process d env (p_now p)) |}.

(** ** What update computes *)

Section update_facts.
Context `{!TimeFormat}.
Implicit Types (d : date_module) (env : environ) (now : Z).

(** The value of TZ under which the primary strings are formatted. *)
Definition primary_tz env d : option string :=
  if bool_decide (m_time_timezone d <> "") then Some (m_time_timezone d)
  else getenv "TZ" env.

(** The environment when both renderings are done. *)
Definition tz_after_render env d : environ :=
  let env := if bool_decide (m_time_timezone d <> "")
             then setenv "TZ" (m_time_timezone d) true env else env in
  if bool_decide (m_time_timezone_2 d <> "")
  then setenv "TZ" (m_time_timezone_2 d) true env else env.

(** A string of the secondary zone, empty when there is none. *)
Definition secondary now d (format : string) : string :=
  if bool_decide (m_time_timezone_2 d <> "")
  then put_time (Some (m_time_timezone_2 d)) now format else "".

(** What the stream holds when both renderings are done. *)
Definition last_stream now env d : string :=
  if bool_decide (m_time_timezone_2 d <> "")
  then put_time (Some (m_time_timezone_2 d)) now (time_format d)
  else put_time (primary_tz env d) now (time_format d).

(** The settings and the toggle, which [update] only reads. *)
Definition same_settings d d' : Prop :=
  m_dateformat d' = m_dateformat d /\ m_dateformat_alt d' = m_dateformat_alt d
  /\ m_timeformat d' = m_timeformat d /\ m_timeformat_alt d' = m_timeformat_alt d
  /\ m_time_timezone d' = m_time_timezone d /\ m_time_timezone_2 d' = m_time_timezone_2 d
  /\ m_toggled d' = m_toggled d /\ m_interval d' = m_interval d
  /\ m_formatter d' = m_formatter d.

Lemma render_spec now env d :
  render now env d =
    (put_time (getenv "TZ" env) now (date_format d),
     put_time (getenv "TZ" env) now (time_format d),
     set_stream (put_time (getenv "TZ" env) now (time_format d)) d).
Proof. done. Qed.

Lemma getenv_primary env d :
  getenv "TZ" (if bool_decide (m_time_timezone d <> "")
               then setenv "TZ" (m_time_timezone d) true env else env)
  = primary_tz env d.
Proof. unfold primary_tz. case_bool_decide; [apply getenv_setenv|done]. Qed.

(** [update] in closed form. *)
Lemma update_spec now env d :
  let D := put_time (primary_tz env d) now (date_format d) in
  let T := put_time (primary_tz env d) now (time_format d) in
  update now env d =
    if bool_decide (m_date d = D) && bool_decide (m_time d = T) then
      (false, set_stream (last_stream now env d) d, tz_after_render env d)
    else
      (true,
       refresh_label (set_shown D (secondary now d (date_format d)) T
                        (secondary now d (time_format d))
                        (set_stream (last_stream now env d) d)),
       restore_tz (getenv "TZ" env) (tz_after_render env d)).
Proof.
  unfold update, render_secondary, last_stream, secondary, tz_after_render.
  rewrite render_spec, getenv_primary. simpl.
  case_bool_decide; simpl; [rewrite getenv_setenv|]; done.
Qed.

Lemma refresh_label_fields d :
  same_settings d (refresh_label d)
  /\ m_date (refresh_label d) = m_date d /\ m_date_2 (refresh_label d) = m_date_2 d
  /\ m_time (refresh_label d) = m_time d /\ m_time_2 (refresh_label d) = m_time_2 d.
Proof. unfold refresh_label, same_settings. by destruct (m_label d). Qed.

Lemma same_settings_refl d : same_settings d d.
Proof. done. Qed.

Lemma same_settings_trans d1 d2 d3 :
  same_settings d1 d2 -> same_settings d2 d3 -> same_settings d1 d3.
Proof. unfold same_settings. intuition congruence. Qed.

Lemma update_same_settings now env d : same_settings d (update now env d).1.2.
Proof.
  rewrite update_spec. simpl. destruct (_ && _); simpl; [done|].
  match goal with |- context [refresh_label ?x] =>
    destruct (refresh_label_fields x) as (Hs & _) end.
  unfold same_settings in *. simpl in *. done.
Qed.

Lemma getenv_tz_after_render env d :
  getenv "TZ" (tz_after_render env d) =
    if bool_decide (m_time_timezone_2 d <> "") then Some (m_time_timezone_2 d)
    else primary_tz env d.
Proof.
  unfold tz_after_render. case_bool_decide; [apply getenv_setenv|apply getenv_primary].
Qed.

Lemma restore_tz_after_render env d v :
  getenv "TZ" env = Some v ->
  restore_tz (Some v) (tz_after_render env d) = env.
Proof.
  intros Hv. unfold restore_tz, tz_after_render.
  repeat case_bool_decide; rewrite ?setenv_setenv; by apply setenv_restore.
Qed.

(** The value of TZ that [update] leaves. *)
Lemma update_getenv_tz now env d :
  getenv "TZ" (update now env d).2 =
    if (update now env d).1.1 && bool_decide (is_Some (getenv "TZ" env))
    then getenv "TZ" env
    else if bool_decide (m_time_timezone_2 d <> "") then Some (m_time_timezone_2 d)
         else primary_tz env d.
Proof.
  rewrite update_spec. simpl. destruct (_ && _); simpl;
    [apply getenv_tz_after_render|].
  destruct (getenv "TZ" env) as [v|] eqn:Hv; simpl;
    [apply getenv_setenv|apply getenv_tz_after_render].
Qed.

Lemma primary_tz_unset env d :
  m_time_timezone d = "" -> primary_tz env d = getenv "TZ" env.
Proof.
  intros Hz. unfold primary_tz.
  by rewrite bool_decide_eq_false_2 by (intros Hne; by apply Hne).
Qed.

Lemma restore_tz_same env : restore_tz (getenv "TZ" env) env = env.
Proof.
  unfold restore_tz. destruct (getenv "TZ" env) eqn:E; [by apply setenv_restore|done].
Qed.

Lemma empty_zone_set : bool_decide (("":string) <> "") = false.
Proof. by apply bool_decide_eq_false_2; intros Hne; apply Hne. Qed.

(** [update] on a module that names no zone: the environment is left
    alone, the strings are those of the zone of the process. *)
Lemma update_zone_free now env d :
  m_time_timezone d = "" -> m_time_timezone_2 d = "" ->
  let D := put_time (getenv "TZ" env) now (date_format d) in
  let T := put_time (getenv "TZ" env) now (time_format d) in
  (update now env d).1.1 = negb (bool_decide (m_date d = D) && bool_decide (m_time d = T))
  /\ m_date (update now env d).1.2 = D /\ m_time (update now env d).1.2 = T
  /\ (update now env d).2 = env.
Proof.
  intros Hz Hz2. cbn zeta. rewrite update_spec. unfold tz_after_render.
  rewrite (primary_tz_unset env d Hz), Hz, Hz2, !empty_zone_set, restore_tz_same.
  destruct (_ && _) eqn:E; cbn [fst snd negb].
  - apply andb_true_iff in E as [Hd%bool_decide_eq_true Ht%bool_decide_eq_true].
    by rewrite <- Hd, <- Ht.
  - match goal with |- context [refresh_label ?x] =>
      destruct (refresh_label_fields x) as (_ & -> & _ & -> & _) end.
    done.
Qed.

End update_facts.

(** The flags of the base that [input] leaves alone. *)
Definition same_flags_but_wakeups (m m' : module process) : Prop :=
  m_enabled m' = m_enabled m /\ m_mainthread m' = m_mainthread m
  /\ m_halted m' = m_halted m /\ m_changed m' = m_changed m.

(** ** Concrete modules *)

(** A clock with a second zone: hours and minutes as the date string,
    the hour as the time string, India as the second zone. *)
Definition demo_conf : config :=
  Config (list_to_map [(("date", "date"), "%H:%M"); (("date", "time"), "%H");
                       (("date", "time-alt"), "%S");
                       (("date", "time-2-TZ"), "Asia/Kolkata");
                       (("date", "label"), "%date% %time% (%time-2%)")]) ∅.

Definition null_date : date_module :=
  DateModule "" "" "" "" "" "" 0 ∅ None "" "" "" "" false "".

Definition demo_date : date_module :=
  Eval vm_compute in match ctor demo_conf "date" with Ok d => d | Err _ => null_date end.

(** 12:34:56 UTC. *)
Definition noon : Z := 45296.

Definition berlin : environ := {[ "TZ" := "Europe/Berlin" ]}.

(** The first update of the clock at noon, and a second one at the same
    second. *)
Definition demo_first : bool * date_module * environ :=
  Eval vm_compute in update noon berlin demo_date.

Definition demo_second : bool * date_module * environ :=
  Eval vm_compute in update noon demo_first.2 demo_first.1.2.

(** A bar with the hour only, and India as the second zone. *)
Definition hours_conf : config :=
  Config (list_to_map [(("date", "time"), "%H"); (("date", "time-2-TZ"), "Asia/Kolkata");
                       (("date", "label"), "%time% (%time-2%)")]) ∅.

Definition hours_date : date_module :=
  Eval vm_compute in match ctor hours_conf "date" with Ok d => d | Err _ => null_date end.

(** A configuration with the deprecated tag in its format. *)
Definition legacy_conf : config :=
  Config (list_to_map [(("date", "time"), "%H:%M"); (("date", "format"), "[<date>]")]) ∅.

(** ** Properties of the date module *)

Section date_properties.
Context `{!TimeFormat}.
Implicit Types (d : date_module) (env : environ) (now : Z).

(** C4. After [update()] the date and the time the module shows are
    the current time in the format the toggle selects, in the zone
    time-TZ names, or else in the zone of the process; the toggle and
    the settings are as before. *)
Theorem update_shows_current now env d :
  let d' := (update now env d).1.2 in
  m_date d' = put_time (primary_tz env d) now (date_format d)
  /\ m_time d' = put_time (primary_tz env d) now (time_format d)
  /\ same_settings d d'.
Proof.
  intros d'. split; [|split; [|apply update_same_settings]]; subst d';
    rewrite update_spec; simpl;
    destruct (bool_decide (m_date d = _)) eqn:E1;
    destruct (bool_decide (m_time d = _)) eqn:E2; simpl;
    try (by apply bool_decide_eq_true in E1);
    try (by apply bool_decide_eq_true in E2);
    match goal with |- context [refresh_label ?x] =>
      destruct (refresh_label_fields x) as (_ & Hd & _ & Ht & _) end;
    rewrite ?Hd, ?Ht; done.
Qed.

(** C6. [update()] returns false exactly when the date and the time
    shown are already the current ones, in both directions; and when it
    returns false nothing the module shows has changed: the four
    strings and the label are untouched, only the scratch stream was
    written. *)
Theorem update_unchanged now env d :
  let D := put_time (primary_tz env d) now (date_format d) in
  let T := put_time (primary_tz env d) now (time_format d) in
  ((update now env d).1.1 = false <-> m_date d = D /\ m_time d = T)
  /\ ((update now env d).1.1 = false ->
      (update now env d).1.2 = set_stream (datetime_stream (update now env d).1.2) d).
Proof.
  cbv zeta. rewrite update_spec. cbv zeta.
  destruct (bool_decide (m_date d = _)) eqn:E1; destruct (bool_decide (m_time d = _)) eqn:E2;
    cbn [andb fst snd];
    try apply bool_decide_eq_true in E1; try apply bool_decide_eq_true in E2;
    try apply bool_decide_eq_false in E1; try apply bool_decide_eq_false in E2;
    (split; [split; [try done; by intros|by intros []]|try done]).
Qed.

(** C21. When [update()] returns true the module shows the strings of
    both zones and the label is rebuilt from its template with the four
    tokens replaced by them. *)
Theorem update_changed now env d d' env' :
  update now env d = (true, d', env') ->
  m_date_2 d' = secondary now d (date_format d)
  /\ m_time_2 d' = secondary now d (time_format d)
  /\ m_label d' =
       (fun l => replace_token "%time-2%" (m_time_2 d')
                   (replace_token "%time%" (m_time d')
                      (replace_token "%date-2%" (m_date_2 d')
                         (replace_token "%date%" (m_date d') (reset_tokens l)))))
       <$> m_label d.
Proof.
  rewrite update_spec. simpl. destruct (_ && _); [done|]. intros [= <- <-].
  unfold refresh_label. simpl. destruct (m_label d) eqn:E; simpl; by rewrite ?E.
Qed.

(** C10. A second [update()] at the same time reports no change, when
    the zone of the primary strings does not depend on what the first
    call left in TZ: time-TZ is set, or time-2-TZ is not, or the first
    call changed something and TZ was set before it. *)
Theorem update_idempotent now env d b d1 env1 :
  update now env d = (b, d1, env1) ->
  m_time_timezone d <> "" \/ m_time_timezone_2 d = ""
    \/ (b = true /\ is_Some (getenv "TZ" env)) ->
  (update now env1 d1).1.1 = false.
Proof.
  intros Hu Hstable.
  destruct (update_shows_current now env d) as (HD & HT & Hs).
  rewrite Hu in HD, HT, Hs. simpl in *.
  assert (Htz : primary_tz env1 d1 = primary_tz env d).
  { destruct Hs as (_ & _ & _ & _ & Hz1 & _). unfold primary_tz at 1. rewrite Hz1.
    case_bool_decide as Hz; [by unfold primary_tz; rewrite bool_decide_eq_true_2|].
    pose proof (update_getenv_tz now env d) as Hg.
    rewrite Hu in Hg. simpl in Hg. rewrite Hg, (primary_tz_unset _ _ Hz).
    destruct Hstable as [?|[Hz2|[-> Hsome]]]; [done|..].
    - rewrite (bool_decide_eq_false_2 (_ <> _)) by (intros Hne; by apply Hne).
      by destruct (_ && _).
    - by rewrite bool_decide_eq_true_2. }
  assert (Hf : date_format d1 = date_format d /\ time_format d1 = time_format d).
  { unfold date_format, time_format.
    by destruct Hs as (-> & -> & -> & -> & _ & _ & -> & _). }
  destruct Hf as [Hfd Hft]. rewrite update_spec. simpl.
  by rewrite Htz, Hfd, Hft, HD, HT, !bool_decide_eq_true_2.
Qed.

(** C20. When [update()] returns true and TZ was set, the environment
    it leaves is the one it found. *)
Theorem update_restores_tz now env d d' env' :
  update now env d = (true, d', env') ->
  is_Some (getenv "TZ" env) ->
  env' = env.
Proof.
  rewrite update_spec. simpl. destruct (_ && _); [done|].
  intros [= <- <-] [v Hv]. rewrite Hv. by apply restore_tz_after_render.
Qed.

(** C12. TZ is not restored when [update()] returns false, nor when TZ
    was not set: with a second zone configured, the process is left in
    that zone. *)
Theorem update_leaks_tz now env d b d' env' :
  update now env d = (b, d', env') ->
  m_time_timezone_2 d <> "" ->
  b = false \/ getenv "TZ" env = None ->
  getenv "TZ" env' = Some (m_time_timezone_2 d).
Proof.
  intros Hu Hz2 Hcase. pose proof (update_getenv_tz now env d) as Hg.
  rewrite Hu in Hg. simpl in Hg. rewrite Hg, (bool_decide_eq_true_2 (_ <> _)) by done.
  destruct Hcase as [->|Hnone]; [done|].
  rewrite Hnone, (bool_decide_eq_false_2 (is_Some _)) by (by intros [? ?]).
  by rewrite andb_false_r.
Qed.

End date_properties.

(** ** The constructor, build and input *)

(** The invariant of a constructed module: one of the two formats is
    given, and no setting begins or ends with a double quote. *)
Definition trimmed (s : string) : Prop := string_util.trim s quote = s.

Definition well_formed (d : date_module) : Prop :=
  (m_dateformat d <> "" \/ m_timeformat d <> "")
  /\ Forall trimmed [m_dateformat d; m_dateformat_alt d; m_timeformat d;
                     m_timeformat_alt d; m_time_timezone d; m_time_timezone_2 d].

(** What the module shows. *)
Definition content (d : date_module) : (string * string * string * string) * option label :=
  (m_date d, m_date_2 d, m_time d, m_time_2 d, m_label d).

Lemma setting_trimmed c name key : trimmed (setting c name key).
Proof. apply string_util.trim_idem. Qed.

Lemma setting_empty_iff c name key :
  setting c name key = "" <-> string_util.all_needle (conf_get c name key "") quote.
Proof. apply string_util.trim_empty_iff. Qed.

(** C31. The constructor throws exactly when neither a date format nor
    a time format is given, a format of nothing but double quotes
    counting as not given; the message is the one of the source, and no
    other exception is raised by the constructor itself (the lookups of
    the configuration, the formatter and the label are total here). *)
Theorem ctor_throws_iff c name :
  (ctor c name = Err "No date or time format specified"
   <-> string_util.all_needle (conf_get c name "date" "") quote
       /\ string_util.all_needle (conf_get c name "time" "") quote)
  /\ (is_ok (ctor c name) = false -> ctor c name = Err "No date or time format specified").
Proof.
  unfold ctor. rewrite <- !setting_empty_iff.
  destruct (bool_decide (setting c name "date" = "")) eqn:E1;
    destruct (bool_decide (setting c name "time" = "")) eqn:E2; simpl;
    try apply bool_decide_eq_true in E1; try apply bool_decide_eq_true in E2;
    try apply bool_decide_eq_false in E1; try apply bool_decide_eq_false in E2;
    split; try done; split; try done; by intros [? ?].
Qed.

Section date_invariant.
Context `{!TimeFormat}.

(** [update()] keeps a well-formed module well formed. *)
Theorem update_well_formed now env d :
  well_formed d -> well_formed (update now env d).1.2.
Proof.
  destruct (update_same_settings now env d)
    as (H1 & H2 & H3 & H4 & H5 & H6 & _).
  unfold well_formed. by rewrite H1, H2, H3, H4, H5, H6.
Qed.

(** What the constructor registers: the one format of the module, its
    value the configured one with the deprecated tag rewritten. *)
Lemma load_formatter_spec c name :
  load_formatter c name
  = {[ DEFAULT_FORMAT :=
         ModuleFormat
           (string_util.replace_all (conf_get c name DEFAULT_FORMAT TAG_LABEL) TAG_DATE TAG_LABEL)
           [TAG_LABEL; TAG_DATE] ]}.
Proof.
  unfold load_formatter, formatter_add. rewrite insert_empty, formatter_has_singleton.
  cbn [value]. destruct (string_util.contains _ TAG_DATE) eqn:Hc.
  - unfold formatter_set, formatter_get. rewrite lookup_singleton_eq. cbn [fmap option_fmap option_map default value].
    by rewrite alter_singleton.
  - by rewrite string_util.replace_all_absent.
Qed.

(** What the constructor leaves in the fields. *)
Lemma ctor_fields c name d :
  ctor c name = Ok d ->
  well_formed d /\ content d = ("", "", "", "", m_label d) /\ m_toggled d = false
  /\ m_interval d = conf_get_duration c name "interval" 1000
  /\ (is_Some (m_label d) <-> formatter_has TAG_LABEL (m_formatter d) = true).
Proof.
  unfold ctor. destruct (_ && _) eqn:E; [done|]. intros [= <-].
  apply andb_false_iff in E. rewrite !bool_decide_eq_false in E.
  split; [split; [done|]|]; simpl.
  - repeat constructor; apply setting_trimmed.
  - repeat split; destruct (formatter_has TAG_LABEL _); by try intros [? ?].
Qed.

(** C32. A constructed module is well formed, shows nothing yet, is not
    toggled, reads its interval from the configuration with one second
    as the default, has a label exactly when its format mentions the
    label tag, and stays well formed under [update()]. *)
Theorem ctor_well_formed c name d :
  ctor c name = Ok d ->
  well_formed d /\ content d = ("", "", "", "", m_label d) /\ m_toggled d = false
  /\ m_interval d = conf_get_duration c name "interval" 1000
  /\ (is_Some (m_label d) <-> formatter_has TAG_LABEL (m_formatter d) = true)
  /\ forall now env, well_formed (update now env d).1.2.
Proof.
  intros (Hwf & Hcont & Ht & Hi & Hl)%ctor_fields.
  exact (conj Hwf (conj Hcont (conj Ht (conj Hi (conj Hl
           (fun now env => update_well_formed now env d Hwf)))))).
Qed.

(** C33. The constructor migrates the deprecated tag: the format it
    registers is the configured one (the label tag when none is
    configured) with every <date> rewritten to <label>, as the
    reference substitution computes it; no <date> is left in it; and
    the module has a label exactly when the configured format mentions
    <label> or <date>. *)
Theorem ctor_migrates_tag c name d :
  ctor c name = Ok d ->
  let configured := conf_get c name DEFAULT_FORMAT TAG_LABEL in
  formatter_get DEFAULT_FORMAT (m_formatter d)
  = replace_all_ref.replace_ref 0 TAG_DATE TAG_LABEL configured
  /\ formatter_has TAG_DATE (m_formatter d) = false
  /\ (is_Some (m_label d)
      <-> string_util.contains configured TAG_LABEL || string_util.contains configured TAG_DATE
          = true).
Proof.
  unfold ctor. destruct (_ && _); [done|]. intros [= <-]. cbv zeta. cbn [m_formatter m_label].
  rewrite load_formatter_spec, !formatter_has_singleton. cbn [value].
  destruct (replace_all_ref.replace_all_tags TAG_DATE TAG_LABEL
              (conf_get c name DEFAULT_FORMAT TAG_LABEL) eq_refl) as [Hd Hl].
  rewrite Hd, Hl. unfold formatter_get. rewrite lookup_singleton_eq.
  cbn [fmap option_fmap option_map default value].
  split; [by apply replace_all_ref.replace_all_ref|]. split; [done|].
  destruct (_ || _); split; by try intros [? ?].
Qed.


End date_invariant.

(** C30. [build()] answers the label tag only; what it appends to the
    builder is well nested, and holds the click command that toggles
    the module exactly when an alternative format is configured. *)
Theorem build_spec b tag d :
  (build b tag d).1 = bool_decide (tag = TAG_LABEL)
  /\ (tag <> TAG_LABEL -> (build b tag d).2 = b)
  /\ (well_nested b -> well_nested (build b tag d).2)
  /\ (Cmd LEFT EVENT_TOGGLE ∈ (build [] tag d).2
      <-> tag = TAG_LABEL /\ (m_dateformat_alt d <> "" \/ m_timeformat_alt d <> "")).
Proof.
  assert (Hnode : forall i b', i ∈ node (m_label d) b' -> (exists t, i = Node t) \/ i ∈ b').
  { intros i b'. unfold node. destruct (m_label d); [case_bool_decide|]; set_solver. }
  unfold build. case_bool_decide as Ht; simpl; [|set_solver].
  destruct (negb _ || negb _) eqn:E; simpl.
  - apply orb_true_iff in E. rewrite !negb_true_iff, !bool_decide_eq_false in E.
    split; [done|]. split; [done|]. split.
    + intros Hb. by apply nest_run_cmd_close, nest_run_node, nest_run_cmd.
    + split; [done|]. intros _. unfold cmd_close. apply elem_of_app. left.
      eapply elem_of_prefix; [|apply node_prefix]. unfold cmd. set_solver.
  - apply orb_false_iff in E. rewrite !negb_false_iff, !bool_decide_eq_true in E.
    split; [done|]. split; [done|]. split; [apply nest_run_node|].
    split; [|intros [_ [?|?]]; by destruct E].
    intros [[t ?]|?]%Hnode; set_solver.
Qed.

Section input_facts.
Implicit Types (m : module process).

(** The toggle command, taken. *)
Lemma input_accepts_toggle m :
  (input EVENT_TOGGLE m).1 = Ok true
  /\ impl (input EVENT_TOGGLE m).2 = toggle (impl m)
  /\ m_wakeups (input EVENT_TOGGLE m).2 = S (m_wakeups m)
  /\ extends m [AWakeup] (input EVENT_TOGGLE m).2
  /\ m_enabled (input EVENT_TOGGLE m).2 = m_enabled m.
Proof. unfold input. by rewrite bool_decide_eq_false_2 by (intros Hne; by apply Hne). Qed.

(** C28. [input()] recognises the toggle command only: an unknown
    command returns false and changes nothing; the toggle command
    returns true, flips the toggle, notifies the worker once, and leaves
    the content, the lock and the enabled flag as they are. *)
Theorem input_spec command m :
  let '(r, m') := input command m in
  (command <> EVENT_TOGGLE -> r = Ok false /\ m' = m)
  /\ (command = EVENT_TOGGLE ->
      r = Ok true
      /\ m_toggled (self (impl m')) = negb (m_toggled (self (impl m)))
      /\ content (self (impl m')) = content (self (impl m))
      /\ m_wakeups m' = S (m_wakeups m)
      /\ extends m [AWakeup] m' /\ same_flags_but_wakeups m m'
      /\ m_contentlock m' = m_contentlock m).
Proof.
  unfold input. case_bool_decide as Hc; simpl; [done|].
  split; [done|]. intros _. by repeat split.
Qed.

(** C29. The click command that [build()] emits is one that [input()]
    accepts, and two clicks bring the module back to the formats it
    showed: the toggle is an involution. *)
Theorem click_round_trip b d btn action p m :
  Cmd btn action ∈ (build b TAG_LABEL d).2 -> Cmd btn action ∉ b ->
  (input action m).1 = Ok true
  /\ impl (input action (input action (set_impl p m)).2).2 = p.
Proof.
  unfold build. rewrite bool_decide_eq_true_2 by done.
  assert (Hnode : forall b', Cmd btn action ∈ node (m_label d) b' -> Cmd btn action ∈ b').
  { intros b'. unfold node. destruct (m_label d); [case_bool_decide|]; set_solver. }
  intros Hin Hb. assert (action = EVENT_TOGGLE) as ->.
  { destruct (_ || _); simpl in Hin; [|by apply Hnode in Hin].
    unfold cmd_close, cmd in Hin. apply elem_of_app in Hin as [Hin|Hin]; [|set_solver].
    apply Hnode in Hin. set_solver. }
  unfold input. rewrite bool_decide_eq_false_2 by (intros Hne; by apply Hne).
  split; [done|]. simpl. destruct p as [[] ? ?]. simpl.
  unfold toggle, set_toggled. simpl. by rewrite negb_involutive.
Qed.

End input_facts.

(** ** Concrete runs *)

Example demo_first_shows :
  demo_first.1.1 = true
  /\ content demo_first.1.2
     = ("13:34", "18:04", "13", "18",
        Some (Label "%date% %time% (%time-2%)" "13:34 13 (18)"))
  /\ demo_first.2 = berlin.
Proof. by vm_compute. Qed.

(** The primary clock drifts to the second zone.  TZ is Berlin.  The
    first update shows 13:34; the second, in the same second, changes
    nothing and leaves TZ at the second zone; the third, a minute
    later, shows 18:05, the time in India, where 13:35 is due. *)
Example primary_drifts_to_second_zone :
  let '(_, d3, _) := update (noon + 60) demo_second.2 demo_second.1.2 in
  m_date demo_first.1.2 = "13:34" /\ demo_second.1.1 = false
  /\ getenv "TZ" demo_second.2 = Some "Asia/Kolkata"
  /\ m_date d3 = "18:05"
  /\ put_time (Some "Europe/Berlin") (noon + 60)%Z "%H:%M" = "13:35".
Proof. by vm_compute. Qed.

(** The second zone goes stale.  With the hour as the only string, the
    hour in India turns at half past: at 12:26 it reads 17, and the
    update at 12:34 reports no change, because the hour in Berlin is
    13 as before, and leaves 17 on the bar where 18 is due. *)
Example second_zone_goes_stale :
  let '(_, d1, env1) := update (noon - 8 * 60) berlin hours_date in
  let '(changed, d2, _) := update noon (setenv "TZ" "Europe/Berlin" true env1) d1 in
  m_time_2 d1 = "17" /\ changed = false /\ m_time_2 d2 = "17"
  /\ put_time (Some "Asia/Kolkata") noon "%H" = "18".
Proof. by vm_compute. Qed.

(** The second update of the clock at the same second: no change. *)
Example update_unchanged_demo :
  demo_second.1.1 = false
  /\ demo_second.1.2 = set_stream (datetime_stream demo_second.1.2) demo_first.1.2.
Proof. by vm_compute. Qed.

Lemma update_changed_witness :
  m_date_2 demo_first.1.2 = secondary noon demo_date (date_format demo_date)
  /\ m_time_2 demo_first.1.2 = secondary noon demo_date (time_format demo_date)
  /\ m_label demo_first.1.2 =
       (fun l => replace_token "%time-2%" (m_time_2 demo_first.1.2)
                   (replace_token "%time%" (m_time demo_first.1.2)
                      (replace_token "%date-2%" (m_date_2 demo_first.1.2)
                         (replace_token "%date%" (m_date demo_first.1.2)
                            (reset_tokens l)))))
       <$> m_label demo_date.
Proof.
  apply (update_changed noon berlin demo_date demo_first.1.2 demo_first.2).
  by vm_compute.
Defined.

Lemma update_idempotent_witness :
  (update noon demo_first.2 demo_first.1.2).1.1 = false.
Proof.
  apply (update_idempotent noon berlin demo_date true demo_first.1.2 demo_first.2);
    [by vm_compute|right; right; split; [reflexivity|by eexists]].
Defined.

Lemma update_restores_tz_witness : demo_first.2 = berlin.
Proof.
  apply (update_restores_tz noon berlin demo_date demo_first.1.2 demo_first.2);
    [by vm_compute|by eexists].
Defined.

Lemma update_leaks_tz_witness :
  getenv "TZ" demo_second.2 = Some (m_time_timezone_2 demo_first.1.2).
Proof.
  apply (update_leaks_tz noon demo_first.2 demo_first.1.2 false demo_second.1.2
           demo_second.2); [by vm_compute|discriminate|by left].
Defined.

Lemma ctor_well_formed_witness :
  well_formed demo_date
  /\ content demo_date = ("", "", "", "", m_label demo_date)
  /\ m_toggled demo_date = false
  /\ m_interval demo_date = conf_get_duration demo_conf "date" "interval" 1000
  /\ (is_Some (m_label demo_date)
      <-> formatter_has TAG_LABEL (m_formatter demo_date) = true)
  /\ forall now env, well_formed (update now env demo_date).1.2.
Proof. apply (ctor_well_formed demo_conf "date" demo_date). by vm_compute. Defined.

Lemma ctor_migrates_tag_witness :
  exists d, ctor legacy_conf "date" = Ok d
    /\ formatter_get DEFAULT_FORMAT (m_formatter d)
       = replace_all_ref.replace_ref 0 TAG_DATE TAG_LABEL "[<date>]"
    /\ formatter_has TAG_DATE (m_formatter d) = false
    /\ (is_Some (m_label d)
        <-> string_util.contains "[<date>]" TAG_LABEL || string_util.contains "[<date>]" TAG_DATE
            = true).
Proof.
  eexists. split; [by vm_compute|].
  exact (ctor_migrates_tag legacy_conf "date" _ eq_refl).
Defined.

(** The format of the legacy configuration, migrated. *)
Example legacy_format_migrated :
  (fun d => formatter_get DEFAULT_FORMAT (m_formatter d)) <$> match ctor legacy_conf "date" with
                                                              | Ok d => Some d
                                                              | Err _ => None
                                                              end
  = Some "[<label>]".
Proof. by vm_compute. Qed.

Lemma update_well_formed_witness :
  well_formed (update noon berlin demo_date).1.2.
Proof.
  apply (update_well_formed noon berlin demo_date).
  split; [left; discriminate|repeat constructor].
Defined.

Lemma click_round_trip_witness :
  (input "datetoggle" (new_module (Process demo_date berlin noon))).1 = Ok true
  /\ impl (input "datetoggle"
             (input "datetoggle"
                (set_impl (Process demo_date berlin noon)
                   (new_module (Process demo_date berlin noon)))).2).2
     = Process demo_date berlin noon.
Proof.
  apply (click_round_trip [] demo_date LEFT "datetoggle");
    [by apply (bool_decide_unpack _)|apply not_elem_of_nil].
Defined.

End date.
