(* ===== verification/TimerModule.v ===== *)
(** * timer_module: the timer-driven worker, and the date module under it

    The date module is a [timer_module<date_module>] (line 11 of
    src/src/modules/date.cpp).  The timer strategy is part of polybar
    but outside the inspected sources; it is modelled from its
    contract: a warm-up evaluation, then, while the module is running,
    a wait for the next tick and an evaluation.  An evaluation takes the
    content lock, calls [update()], releases the lock and broadcasts
    when the content changed.  A wait lasts the whole interval unless a
    wakeup is pending, which it consumes at once.  The worker is then
    compared with a pure
    reference, [after_passes] and [changes], and the date module under
    it with the strings of the clock at the ticks. *)

From Stdlib Require Import ZArith NArith.
From S2P Require Import Prelude Trace Lifecycle Environ Config Label Builder DateModule.
Import date.

Module timer_module.

(** What an implementation provides to the timer-driven strategy:
    [update()], and what a wait of the worker is to it. *)
Class TimerImpl (S : Type) : Type := {
  timer_module_impl :: ModuleImpl S;
  impl_sleep : N -> S -> S;          (* so many milliseconds pass *)
}.

Section timer.
Context {St : Type} `{!TimerImpl St}.
Implicit Types (m : module St) (sched : list bool) (interval : N).

(** Under the content lock, [update()]; after the release, a broadcast
    when the content changed. *)
Definition evaluate : prog (module St) unit :=
  (changed <- lock_guard call_update ;; if changed then broadcast else ret tt)%pb.

(** The wait for the next tick: pending wakeups end it at once and are
    consumed together; with none the whole interval passes. *)
Definition sleep interval : prog (module St) unit :=
  modify (fun m =>
    log (AIdle (Ok tt))
      match m_wakeups m with
      | O => set_impl (impl_sleep interval (impl m)) m
      | S _ => set_wakeups 0 m
      end).

(** The loop, on a schedule of stop requests as in
    [EventModule.event_module.loop]. *)
Fixpoint timer_loop interval sched m : option (result unit * module St) :=
  match sched with
  | [] => None
  | stop_requested :: sched =>
      let m := if stop_requested then stop m else m in
      if m_enabled m then
        match (sleep interval ;; evaluate)%pb m with
        | (Ok _, m) => timer_loop interval sched m
        | (Err e, m) => Some (Err e, m)
        end
      else Some (Ok tt, m)
  end.

(** The worker: the warm-up evaluation, the loop, and the halt when
    something threw. *)
Definition timer_runner interval sched m : option (module St) :=
  match evaluate m with
  | (Ok _, m) =>
      match timer_loop interval sched m with
      | Some (Ok _, m) => Some m
      | Some (Err e, m) => Some (halt e m).2
      | None => None
      end
  | (Err e, m) => Some (halt e m).2
  end.

(** ** The reference: the passes of the loop as a function of the
    state of the implementation *)

Definition is_change (r : result bool) : bool :=
  match r with Ok true => true | _ => false end.

(** The actions of an evaluation whose [update()] returned [r]. *)
Definition evaluation (r : result bool) : trace :=
  [ALock; AUpdate r; AUnlock] ++ if is_change r then [ABroadcast] else [].

(** One pass on the state of the implementation: the wait, then
    [update()]. *)
Definition pass interval : prog St bool := fun s => impl_update (impl_sleep interval s).

(** The state after [n] passes, and the number of them that report a
    change. *)
Fixpoint after_passes interval (n : nat) (s : St) : St :=
  match n with
  | O => s
  | S n => after_passes interval n (pass interval s).2
  end.

Fixpoint changes interval (n : nat) (s : St) : nat :=
  match n with
  | O => 0
  | S n => (if is_change (pass interval s).1 then 1 else 0)
           + changes interval n (pass interval s).2
  end.

End timer.

(** The date module under the timer: a wait moves the clock of the
    process, which counts seconds. *)
#[export] Instance date_timer `{!TimeFormat} : TimerImpl process :=
  {| timer_module_impl := date_impl;
     impl_sleep := fun interval p =>
       Process (self p) (p_env p) (p_now p + Z.of_N interval / 1000) |}.

(** The number of elements of a list that differ from the one before,
    the first being compared with [prev]. *)
Fixpoint count_changes {A} `{!EqDecision A} (prev : A) (l : list A) : nat :=
  match l with
  | [] => 0
  | x :: l => (if bool_decide (x = prev) then 0 else 1) + count_changes x l
  end.

Section date_timer.
Context `{!TimeFormat}.
Implicit Types (d : date_module) (env : environ) (p : process) (m : module process).

(** The date and the time a module shows. *)
Definition strings_shown d : string * string := (m_date d, m_time d).

(** The date and the time at [t], for a module that names no zone. *)
Definition strings_at env d (t : Z) : string * string :=
  (put_time (getenv "TZ" env) t (date_format d), put_time (getenv "TZ" env) t (time_format d)).

(** The times of the [n] ticks after [t], [seconds] apart, and the
    times of the evaluations: the start and the ticks. *)
Fixpoint tick_times (t seconds : Z) (n : nat) : list Z :=
  match n with
  | O => []
  | S n => (t + seconds)%Z :: tick_times (t + seconds) seconds n
  end.

Definition ticks (t0 seconds : Z) (n : nat) : list Z := t0 :: tick_times t0 seconds n.

(** The module names no time zone. *)
Definition no_zone d : Prop := m_time_timezone d = "" /\ m_time_timezone_2 d = "".

(** The seconds between two ticks of the module. *)
Definition period d : Z := Z.of_N (m_interval d) / 1000.

End date_timer.

(** ** Concrete clocks *)

(** A clock with seconds, one with minutes, and one that shows the
    minutes and, clicked, the seconds; all on the default interval of
    one second. *)
Definition seconds_conf : config :=
  Config (list_to_map [(("date", "time"), "%H:%M:%S")]) ∅.

Definition minutes_conf : config :=
  Config (list_to_map [(("date", "time"), "%H:%M")]) ∅.

Definition toggle_conf : config :=
  Config (list_to_map [(("date", "time"), "%H:%M"); (("date", "time-alt"), "%H:%M:%S")]) ∅.

Definition seconds_date : date_module :=
  Eval vm_compute in match ctor seconds_conf "date" with Ok d => d | Err _ => null_date end.

Definition minutes_date : date_module :=
  Eval vm_compute in match ctor minutes_conf "date" with Ok d => d | Err _ => null_date end.

Definition click_clock : date_module :=
  Eval vm_compute in match ctor toggle_conf "date" with Ok d => d | Err _ => null_date end.

(** A module of the bar that was started, at noon in Berlin. *)
Definition started_clock (d : date_module) : module process :=
  set_mainthread true (new_module (Process d berlin noon)).

(** Five ticks, then the stop request. *)
Definition five_ticks : list bool := replicate 5 false ++ [true].

(** ** The worker against the reference *)

Section timer_facts.
Context {St : Type} `{!TimerImpl St}.
Implicit Types (m : module St) (sched : list bool) (interval : N).

Lemma evaluate_spec m :
  let r := (impl_update (impl m)).1 in
  (evaluate m).1 = result_map (fun _ => tt) r
  /\ extends m (evaluation r) (evaluate m).2
  /\ same_flags m (evaluate m).2
  /\ impl (evaluate m).2 = (impl_update (impl m)).2
  /\ m_contentlock (evaluate m).2 = false.
Proof.
  unfold evaluate, evaluation, lock_guard, finally, bind, ret, broadcast, modify, call_update, call.
  cbn [mutex_lock impl log set_contentlock].
  destruct (impl_update (impl m)) as [[[]|e] s]; simpl; repeat split; try done; trace_solve.
Qed.

Lemma evaluation_counts r :
  count is_update (evaluation r) = 1 /\ count is_idle (evaluation r) = 0
  /\ count is_broadcast (evaluation r) = if is_change r then 1 else 0.
Proof. by destruct r as [[]|]. Qed.

(** One pass of the loop with no wakeup pending: the wait of a whole
    interval and the evaluation. *)
Lemma pass_spec interval m :
  m_wakeups m = 0 ->
  let r := (pass interval (impl m)).1 in
  let m' := ((sleep interval ;; evaluate)%pb m).2 in
  ((sleep interval ;; evaluate)%pb m).1 = result_map (fun _ => tt) r
  /\ extends m (AIdle (Ok tt) :: evaluation r) m'
  /\ same_flags m m'
  /\ impl m' = (pass interval (impl m)).2.
Proof.
  intros Hw. cbv zeta. unfold bind, sleep, modify, pass. rewrite Hw. cbv beta iota.
  set (m1 := log _ _). destruct (evaluate_spec m1) as (Hr & Hx & Hf & Hi & _).
  subst m1. cbn [impl log set_impl] in *.
  destruct (evaluate _) as [r m']. cbn [fst snd] in *.
  repeat split; [done|trace_solve|flags_solve..|done].
Qed.

(** One pass of the loop with a wakeup pending: no time passes, the
    wakeups are consumed, and the evaluation is that of the state as
    it is. *)
Lemma woken_pass_spec interval m :
  m_wakeups m <> 0 ->
  let r := (impl_update (impl m)).1 in
  let m' := ((sleep interval ;; evaluate)%pb m).2 in
  ((sleep interval ;; evaluate)%pb m).1 = result_map (fun _ => tt) r
  /\ extends m (AIdle (Ok tt) :: evaluation r) m'
  /\ m_enabled m' = m_enabled m /\ m_halted m' = m_halted m /\ m_wakeups m' = 0
  /\ impl m' = (impl_update (impl m)).2.
Proof.
  intros Hw. cbv zeta. unfold bind, sleep, modify. destruct (m_wakeups m); [done|].
  cbv beta iota. set (m1 := log _ _). destruct (evaluate_spec m1) as (Hr & Hx & Hf & Hi & _).
  subst m1. cbn [impl log set_wakeups] in *.
  destruct (evaluate _) as [r m']. cbn [fst snd] in *.
  repeat split; [done|trace_solve|flags_solve..|done].
Qed.

(** The loop of a worker whose [update()] does not throw, stopped at
    the test after [n] passes. *)
Lemma timer_loop_spec n interval m :
  never_throws (impl_update (S := St)) -> m_enabled m = true -> m_wakeups m = 0 ->
  exists m' tr, timer_loop interval (replicate n false ++ [true]) m = Some (Ok tt, m')
    /\ extends m (tr ++ [AStop]) m'
    /\ count is_update tr = n /\ count is_idle tr = n
    /\ count is_broadcast tr = changes interval n (impl m)
    /\ impl m' = after_passes interval n (impl m)
    /\ m_halted m' = m_halted m /\ m_enabled m' = false.
Proof.
  intros Ht. revert m. induction n as [|n IH]; intros m Hen Hw;
    cbn [replicate app timer_loop after_passes changes].
  - unfold stop. rewrite Hen. cbn [set_enabled log m_enabled].
    eexists _, []. split; [done|]. by repeat split.
  - rewrite Hen. destruct (pass_spec interval m Hw) as (Hr & Hx & Hf & Hi).
    specialize (Ht (impl_sleep interval (impl m))). unfold pass in *.
    destruct (impl_update _) as [[c|e] s1]; [|done].
    destruct ((sleep interval ;; evaluate)%pb m) as [r2 m2]. cbn [fst snd result_map] in *.
    subst r2.
    destruct (IH m2) as (m' & tr & Hl & Xl & Hu & Hd & Hb & Hs & Hh & He); [flags_solve..|].
    destruct (evaluation_counts (Ok c)) as (Eu & Ed & Eb).
    exists m', (AIdle (Ok tt) :: evaluation (Ok c) ++ tr). split; [done|].
    split; [trace_solve|]. rewrite !count_cons, !count_app, Eu, Ed, Eb, Hu, Hd, Hb, Hs, Hi.
    repeat split; try done; flags_solve.
Qed.

(** The worker: the warm-up evaluation, then the loop. *)
Lemma timer_runner_spec n interval m :
  never_throws (impl_update (S := St)) -> m_enabled m = true -> m_wakeups m = 0 ->
  let first := impl_update (impl m) in
  exists m' tr, timer_runner interval (replicate n false ++ [true]) m = Some m'
    /\ extends m (tr ++ [AStop]) m'
    /\ count is_update tr = S n /\ count is_idle tr = n
    /\ count is_broadcast tr
       = (if is_change first.1 then 1 else 0) + changes interval n first.2
    /\ impl m' = after_passes interval n first.2
    /\ m_halted m' = m_halted m /\ m_enabled m' = false.
Proof.
  intros Ht Hen Hw. cbv zeta. unfold timer_runner.
  destruct (evaluate_spec m) as (Hr & Hx & Hf & Hi & _). pose proof (Ht (impl m)) as Hok.
  destruct (impl_update (impl m)) as [[c|e] s1]; [|done].
  destruct (evaluate m) as [r1 m1]. cbn [fst snd result_map] in *. subst r1.
  destruct (timer_loop_spec n interval m1 Ht) as (m' & tr & -> & Xl & Hu & Hd & Hb & Hs & Hh & He);
    [flags_solve..|].
  destruct (evaluation_counts (Ok c)) as (Eu & Ed & Eb).
  exists m', (evaluation (Ok c) ++ tr). split; [done|]. split; [trace_solve|].
  rewrite !count_app, Eu, Ed, Eb, Hu, Hd, Hb, Hs, Hi. repeat split; try done; flags_solve.
Qed.

End timer_facts.

(** ** The date module under the timer *)

(** Unfold the calls of the strategy into the date module. *)
Ltac date_unfold :=
  cbv beta iota delta
    [impl_update impl_sleep timer_module_impl date_timer date_impl self p_env p_now].

Section date_facts.
Context `{!TimeFormat}.
Implicit Types (d : date_module) (env : environ) (p : process) (m : module process).

Lemma date_update_total : never_throws (impl_update (S := process)).
Proof.
  intros [d env t]. date_unfold. by destruct (update t env d) as [[c d'] env'].
Qed.

(** A pass of the date module, in terms of [update]. *)
Lemma date_pass interval d env t :
  let u := update (t + Z.of_N interval / 1000) env d in
  pass interval (Process d env t) = (Ok u.1.1, Process u.1.2 u.2 (t + Z.of_N interval / 1000)).
Proof.
  cbv zeta. unfold pass. date_unfold.
  by destruct (update _ env d) as [[c d'] env'].
Qed.

Lemma date_first d env t :
  let u := update t env d in
  impl_update (Process d env t) = (Ok u.1.1, Process u.1.2 u.2 t).
Proof.
  cbv zeta. date_unfold.
  by destruct (update _ env d) as [[c d'] env'].
Qed.

(** The clock after [n] passes. *)
Lemma after_passes_now interval n p :
  p_now (after_passes interval n p) = (p_now p + Z.of_nat n * (Z.of_N interval / 1000))%Z.
Proof.
  revert p. induction n as [|n IH]; intros [d env t]; cbn [after_passes p_now]; [lia|].
  rewrite date_pass. cbn [fst snd]. rewrite IH. cbn [p_now]. lia.
Qed.

Lemma strings_at_same_settings env d d' t :
  same_settings d d' -> strings_at env d' t = strings_at env d t.
Proof.
  intros (H1 & H2 & H3 & H4 & _ & _ & H7 & _). unfold strings_at, date_format, time_format.
  by rewrite H1, H2, H3, H4, H7.
Qed.

Lemma no_zone_same_settings d d' : same_settings d d' -> no_zone d -> no_zone d'.
Proof. intros (_ & _ & _ & _ & H5 & H6 & _) [Hz Hz2]. split; congruence. Qed.

(** [update] of a module that names no zone: the strings of the
    process zone at the time of the call, a change when they differ
    from the ones shown. *)
Lemma date_update_no_zone d env t :
  no_zone d ->
  let u := update t env d in
  u.1.1 = negb (bool_decide (strings_at env d t = strings_shown d))
  /\ strings_shown u.1.2 = strings_at env d t /\ u.2 = env
  /\ same_settings d u.1.2.
Proof.
  intros [Hz Hz2]. cbv zeta. destruct (update_zone_free t env d Hz Hz2) as (Hc & Hd & Ht & He).
  pose proof (update_same_settings t env d) as Hs.
  destruct (update t env d) as [[c d'] env']. cbn [fst snd] in *.
  unfold strings_shown, strings_at. rewrite Hd, Ht. split; [|done]. subst c.
  repeat case_bool_decide; cbn [andb negb]; try done; exfalso; congruence.
Qed.

(** [n] passes of a module that names no zone: the environment is
    left alone, the module shows the strings of the last tick, and the
    passes that report a change are those whose strings differ from the
    ones of the tick before. *)
Lemma date_passes interval n d env t :
  no_zone d ->
  let s := (Z.of_N interval / 1000)%Z in
  exists d', after_passes interval n (Process d env t) = Process d' env (t + Z.of_nat n * s)
    /\ same_settings d d'
    /\ strings_shown d' = match n with
                        | O => strings_shown d
                        | S _ => strings_at env d (t + Z.of_nat n * s)
                        end
    /\ changes interval n (Process d env t)
       = count_changes (strings_shown d) (map (strings_at env d) (tick_times t s n)).
Proof.
  intros Hz. cbv zeta. revert d t Hz.
  induction n as [|n IH]; intros d t Hz; cbn [after_passes changes tick_times map count_changes].
  - exists d. rewrite Z.add_0_r. split; [done|]. split; [apply same_settings_refl|done].
  - rewrite date_pass. cbn [fst snd].
    destruct (date_update_no_zone d env (t + Z.of_N interval / 1000) Hz) as (-> & Hsh & -> & Hs).
    destruct (IH _ (t + Z.of_N interval / 1000)%Z (no_zone_same_settings _ _ Hs Hz))
      as (d' & -> & Hs' & Hsh' & ->).
    rewrite Hsh, (map_ext _ _ (fun x => strings_at_same_settings env d _ x Hs)). exists d'.
    replace (t + Z.of_N interval / 1000 + Z.of_nat n * (Z.of_N interval / 1000))%Z
      with (t + Z.of_nat (S n) * (Z.of_N interval / 1000))%Z in * by lia.
    split; [done|]. split; [by eapply same_settings_trans|]. split; [|by case_bool_decide].
    rewrite Hsh'. destruct n; [|by apply strings_at_same_settings].
    rewrite Hsh. f_equal. lia.
Qed.

End date_facts.

(** ** Properties of the date module under the timer *)

Section timer_properties.
Context `{!TimeFormat}.
Implicit Types (d : date_module) (env : environ) (m : module process).

(** C34. A date module that names no zone, under the timer with its
    own interval and no wakeup, stopped at the test after [n] waits:
    the worker returns; it called [update()] once for the warm-up and
    once after every wait; the broadcasts are as many as the
    evaluations whose strings differ from the ones shown before (the
    warm-up is compared with the strings of the module as
    constructed); the environment is left alone, the clock stands [n]
    intervals after the start and the module shows the strings of the
    last tick. *)
Theorem date_timer_broadcasts n m d env t0 :
  impl m = Process d env t0 -> no_zone d -> m_enabled m = true -> m_wakeups m = 0 ->
  exists m' d' tr, timer_runner (m_interval d) (replicate n false ++ [true]) m = Some m'
    /\ extends m (tr ++ [AStop]) m'
    /\ count is_update tr = S n /\ count is_idle tr = n
    /\ count is_broadcast tr
       = count_changes (strings_shown d) (map (strings_at env d) (ticks t0 (period d) n))
    /\ impl m' = Process d' env (t0 + Z.of_nat n * period d)
    /\ strings_shown d' = strings_at env d (t0 + Z.of_nat n * period d)
    /\ m_halted m' = m_halted m.
Proof.
  intros Hi Hz Hen Hw.
  destruct (timer_runner_spec n (m_interval d) m date_update_total Hen Hw)
    as (m' & tr & Hr & Hx & Hu & Hidle & Hb & Hs & Hh & _).
  rewrite Hi, date_first in Hb, Hs. cbn [fst snd] in Hb, Hs.
  destruct (date_update_no_zone d env t0 Hz) as (Hc & Hsh & He & Hss).
  rewrite Hc, He in Hb. rewrite He in Hs.
  destruct (date_passes (m_interval d) n _ env t0 (no_zone_same_settings _ _ Hss Hz))
    as (d' & Ha & _ & Hsh' & Hch).
  fold (period d) in Ha, Hsh', Hch. rewrite Hch, Hsh in Hb. rewrite Ha in Hs.
  exists m', d', tr. repeat split; [done..| |done| |done].
  - rewrite Hb. unfold ticks. cbn [map count_changes].
    rewrite (map_ext _ _ (fun x => strings_at_same_settings env d _ x Hss)). by case_bool_decide.
  - rewrite Hsh'. destruct n; [by rewrite Hsh, Z.add_0_r|by apply strings_at_same_settings].
Qed.

(** C35. A click is shown at once: after [input()] took the toggle
    command of a module that names no zone, the next wait of the timer
    ends without the clock moving, and the evaluation after it shows
    the strings of the other pair of formats at that very time; it
    broadcasts exactly when they differ from the ones shown, and the
    wakeup is consumed. *)
Theorem click_wakes_timer interval m d env t :
  impl m = Process d env t -> no_zone d ->
  let clicked := set_toggled (negb (m_toggled d)) d in
  let changed := negb (bool_decide (strings_at env clicked t = strings_shown d)) in
  let m' := ((sleep interval ;; evaluate)%pb (input EVENT_TOGGLE m).2).2 in
  exists d', impl m' = Process d' env t
    /\ strings_shown d' = strings_at env clicked t
    /\ m_toggled d' = negb (m_toggled d)
    /\ extends m (AWakeup :: AIdle (Ok tt) :: evaluation (Ok changed)) m'
    /\ m_wakeups m' = 0 /\ m_enabled m' = m_enabled m.
Proof.
  intros Hi Hz. cbv zeta.
  destruct (input_accepts_toggle m) as (_ & Hi' & Hw & Hx & Hen).
  destruct (input EVENT_TOGGLE m) as [r m1]. cbn [fst snd] in *.
  destruct (woken_pass_spec interval m1) as (_ & Hx2 & Hen2 & _ & Hw2 & Hi2); [by rewrite Hw|].
  destruct ((sleep interval ;; evaluate)%pb m1) as [r2 m2]. cbn [fst snd] in *.
  rewrite Hi', Hi in Hx2, Hi2. unfold toggle in Hx2, Hi2. cbn [self p_env p_now] in Hx2, Hi2.
  rewrite date_first in Hx2, Hi2. cbn [fst snd] in Hx2, Hi2.
  destruct (date_update_no_zone (set_toggled (negb (m_toggled d)) d) env t Hz)
    as (Hc & Hsh & He & Hss).
  rewrite He in Hi2. rewrite Hc in Hx2. eexists. split; [exact Hi2|]. split; [done|].
  split; [by destruct Hss as (_ & _ & _ & _ & _ & _ & -> & _)|].
  split; [exact (extends_trans _ _ _ [AWakeup] _ Hx Hx2)|]. split; [done|congruence].
Qed.

End timer_properties.

(** ** The clocks of the examples *)

(** The clock with seconds broadcasts at the start and at every tick;
    the clock with minutes at the start and when the minute turns,
    four seconds after noon. *)
Example seconds_clock_broadcasts :
  (fun m => (count is_update (m_trace m), count is_broadcast (m_trace m),
             strings_shown (self (impl m))))
    <$> timer_runner 1000 five_ticks (started_clock seconds_date)
  = Some (6, 6, ("", "13:35:01")).
Proof. vm_compute. reflexivity. Qed.

Example minutes_clock_broadcasts :
  (fun m => (count is_update (m_trace m), count is_broadcast (m_trace m),
             strings_shown (self (impl m))))
    <$> timer_runner 1000 five_ticks (started_clock minutes_date)
  = Some (6, 2, ("", "13:35")).
Proof. vm_compute. reflexivity. Qed.

(** A click on the clock that shows the minutes and, clicked, the
    seconds: the seconds are there before the next tick. *)
Example click_shows_seconds :
  let m := ((sleep 1000 ;; evaluate)%pb (input EVENT_TOGGLE (evaluate (started_clock click_clock)).2).2).2 in
  (strings_shown (self (impl m)), p_now (impl m), count is_broadcast (m_trace m))
  = (("", "13:34:56"), noon, 2).
Proof. vm_compute. reflexivity. Qed.

Lemma date_timer_broadcasts_witness :
  exists m' d' tr, timer_runner 1000 five_ticks (started_clock minutes_date) = Some m'
    /\ extends (started_clock minutes_date) (tr ++ [AStop]) m'
    /\ count is_update tr = 6 /\ count is_idle tr = 5
    /\ count is_broadcast tr = 2
    /\ impl m' = Process d' berlin (noon + 5)
    /\ strings_shown d' = ("", "13:35")
    /\ m_halted m' = None.
Proof.
  exact (date_timer_broadcasts 5 (started_clock minutes_date) minutes_date berlin noon
           eq_refl (conj eq_refl eq_refl) eq_refl eq_refl).
Defined.

Lemma click_wakes_timer_witness :
  exists d', impl ((sleep 1000 ;; evaluate)%pb (input EVENT_TOGGLE (started_clock click_clock)).2).2
             = Process d' berlin noon
    /\ strings_shown d' = ("", "13:34:56")
    /\ m_toggled d' = true
    /\ extends (started_clock click_clock)
         [AWakeup; AIdle (Ok tt); ALock; AUpdate (Ok true); AUnlock; ABroadcast]
         ((sleep 1000 ;; evaluate)%pb (input EVENT_TOGGLE (started_clock click_clock)).2).2
    /\ m_wakeups ((sleep 1000 ;; evaluate)%pb (input EVENT_TOGGLE (started_clock click_clock)).2).2 = 0
    /\ m_enabled ((sleep 1000 ;; evaluate)%pb (input EVENT_TOGGLE (started_clock click_clock)).2).2
       = true.
Proof.
  exact (click_wakes_timer 1000 (started_clock click_clock) click_clock berlin noon
           eq_refl (conj eq_refl eq_refl)).
Defined.

End timer_module.
