(* ===== verification/MemoryUtil.v ===== *)
(** * memory_util: buffers from malloc behind a shared pointer

    src/include/utils/memory.hpp: [make_malloc_ptr] and [countof].  The
    heap of [malloc] and [free] is a finite map from the addresses of
    the live blocks to their sizes, with a number of bytes left; [malloc]
    returns the null pointer when the request is larger.  A
    [std::shared_ptr] is a handle to a control block that holds the
    pointer, the use count and the deleter; copies of a shared pointer
    are the same handle, which is how they alias.  Undefined behaviour
    (freeing an address that is not live) is an error value.

    [countof] is [sizeof(p) / sizeof(p[0])] on a description of the C
    type of its argument. *)

From Stdlib Require Import NArith.
From S2P Require Import Prelude.

Module memory_util.

(** ** The heap *)

(** A pointer is null ([None]) or an address. *)
Definition pointer : Type := option positive.

Record heap : Type := Heap {
  h_live : gmap positive N;       (* live blocks and their sizes *)
  h_avail : N;                    (* bytes left *)
}.

Definition malloc (size : N) (h : heap) : pointer * heap :=
  if (size <=? h_avail h)%N then
    let a := fresh (dom (h_live h)) in
    (Some a, Heap (<[a := size]> (h_live h)) (h_avail h - size))
  else (None, h).

(** [free(nullptr)] does nothing; freeing an address that is not live
    is undefined. *)
Definition free (p : pointer) (h : heap) : result heap :=
  match p with
  | None => Ok h
  | Some a =>
      match h_live h !! a with
      | Some size => Ok (Heap (delete a (h_live h)) (h_avail h + size))
      | None => Err "free(): invalid pointer"
      end
  end.

(** ** Shared pointers *)

Definition deleter : Type := pointer -> heap -> result heap.

Record control_block : Type := ControlBlock {
  c_ptr : pointer;
  c_use_count : nat;
  c_deleter : deleter;
}.

Record memory : Type := Memory {
  m_heap : heap;
  m_blocks : gmap positive control_block;
}.

(** An empty shared pointer, or the handle of its control block. *)
Definition shared_ptr : Type := option positive.

(** [shared_ptr<T>(p, d)]: a new control block that owns [p], also when
    [p] is null. *)
Definition shared_ptr_new (p : pointer) (d : deleter) : prog memory shared_ptr :=
  fun m =>
    let k := fresh (dom (m_blocks m)) in
    (Ok (Some k), Memory (m_heap m) (<[k := ControlBlock p 1 d]> (m_blocks m))).

Definition shared_ptr_get (sp : shared_ptr) (m : memory) : pointer :=
  k ← sp; c ← m_blocks m !! k; c_ptr c.

Definition use_count (sp : shared_ptr) (m : memory) : nat :=
  default 0 (k ← sp; c_use_count <$> m_blocks m !! k).

(** The copy constructor. *)
Definition shared_ptr_copy (sp : shared_ptr) : prog memory shared_ptr :=
  fun m =>
    match sp with
    | None => (Ok None, m)
    | Some k =>
        match m_blocks m !! k with
        | Some c =>
            (Ok sp, Memory (m_heap m)
                      (<[k := ControlBlock (c_ptr c) (S (c_use_count c)) (c_deleter c)]>
                         (m_blocks m)))
        | None => (Err "dangling shared_ptr", m)
        end
    end.

(** The destructor: the last owner runs the deleter on the pointer. *)
Definition shared_ptr_reset (sp : shared_ptr) : prog memory unit :=
  fun m =>
    match sp with
    | None => (Ok tt, m)
    | Some k =>
        match m_blocks m !! k with
        | Some c =>
            match c_use_count c with
            | S (S n) =>
                (Ok tt, Memory (m_heap m)
                          (<[k := ControlBlock (c_ptr c) (S n) (c_deleter c)]> (m_blocks m)))
            | _ =>
                match c_deleter c (c_ptr c) (m_heap m) with
                | Ok h => (Ok tt, Memory h (delete k (m_blocks m)))
                | Err e => (Err e, Memory (m_heap m) (delete k (m_blocks m)))
                end
            end
        | None => (Err "dangling shared_ptr", m)
        end
    end.

(** [make_malloc_ptr<T, Deleter>(size, deleter)] *)
Definition make_malloc_ptr (size : N) (d : deleter) : prog memory shared_ptr :=
  fun m =>
    let '(p, h) := malloc size (m_heap m) in
    shared_ptr_new p d (Memory h (m_blocks m)).

(** [malloc_ptr_t<T>] is [shared_ptr<T>]. *)
Definition malloc_ptr_t : Type := shared_ptr.

(** ** countof *)

Inductive ctype : Type :=
| TChar
| TShort
| TInt
| TLong
| TPointer (t : ctype)
| TArray (t : ctype) (n : N).

Fixpoint sizeof (t : ctype) : N :=
  match t with
  | TChar => 1
  | TShort => 2
  | TInt => 4
  | TLong => 8
  | TPointer _ => 8
  | TArray t n => n * sizeof t
  end.

(** The type of [p[0]], when the expression is well typed. *)
Definition element_type (t : ctype) : option ctype :=
  match t with
  | TPointer e | TArray e _ => Some e
  | _ => None
  end.

(** [sizeof(p) / sizeof(p[0])]: [None] when the instantiation does not
    compile or divides by zero. *)
Definition countof (t : ctype) : option N :=
  e ← element_type t;
  if (sizeof e =? 0)%N then None else Some (sizeof t / sizeof e)%N.

(** No dimension of the type is zero. *)
Fixpoint well_sized (t : ctype) : bool :=
  match t with
  | TArray e n => negb (n =? 0)%N && well_sized e
  | TPointer _ | TChar | TShort | TInt | TLong => true
  end.

(** ** The invariant of a memory *)

(** [a] is the pointer of the control block [k]. *)
Definition owns (m : memory) (k a : positive) : Prop :=
  exists c, m_blocks m !! k = Some c /\ c_ptr c = Some a.

(** Every control block is in use and frees with [free]; the live blocks
    of the heap are the ones some control block owns; no block has two
    owners. *)
Record memory_wf (m : memory) : Prop := {
  wf_blocks : forall k c, m_blocks m !! k = Some c ->
    0 < c_use_count c /\ c_deleter c = free;
  wf_live : forall a, is_Some (h_live (m_heap m) !! a) <-> exists k, owns m k a;
  wf_unique : forall k1 k2 a, owns m k1 a -> owns m k2 a -> k1 = k2;
}.

Definition empty_memory (avail : N) : memory := Memory (Heap ∅ avail) ∅.

(** [n] times the same statement. *)
Fixpoint times {St : Type} (n : nat) (c : prog St unit) : prog St unit :=
  match n with
  | O => ret tt
  | S n => (c ;; times n c)%pb
  end.

(** [m] with the control block [c] at [k]. *)
Definition with_block (k : positive) (c : control_block) (m : memory) : memory :=
  Memory (m_heap m) (<[k := c]> (m_blocks m)).

(** ** Programs that hold shared pointers

    A client of [make_malloc_ptr]: the shared pointer variables in
    scope, each the handle of its control block, and the statements that
    create, copy and destroy them. *)

Record program : Type := Program { p_mem : memory; p_vars : list positive }.

Inductive statement : Type :=
| SMake (size : N)           (* a new variable from make_malloc_ptr *)
| SCopy (i : nat)            (* a new variable, copy of the i-th *)
| SDrop (i : nat).           (* the i-th variable leaves its scope *)

Definition exec (s : statement) (pr : program) : result program :=
  match s with
  | SMake size =>
      match make_malloc_ptr size free (p_mem pr) with
      | (Ok (Some k), m) => Ok (Program m (k :: p_vars pr))
      | (Ok None, m) => Ok (Program m (p_vars pr))
      | (Err e, _) => Err e
      end
  | SCopy i =>
      match p_vars pr !! i with
      | Some k =>
          match shared_ptr_copy (Some k) (p_mem pr) with
          | (Ok _, m) => Ok (Program m (k :: p_vars pr))
          | (Err e, _) => Err e
          end
      | None => Ok pr
      end
  | SDrop i =>
      match p_vars pr !! i with
      | Some k =>
          match shared_ptr_reset (Some k) (p_mem pr) with
          | (Ok _, m) => Ok (Program m (delete i (p_vars pr)))
          | (Err e, _) => Err e
          end
      | None => Ok pr
      end
  end.

Fixpoint exec_all (ss : list statement) (pr : program) : result program :=
  match ss with
  | [] => Ok pr
  | s :: ss => match exec s pr with Ok pr' => exec_all ss pr' | Err e => Err e end
  end.

Definition counted (m : memory) (vars : list positive) : Prop :=
  forall k, use_count (Some k) m = count_occ Pos.eq_dec vars k.

Definition program_wf (pr : program) : Prop :=
  memory_wf (p_mem pr) /\ counted (p_mem pr) (p_vars pr).

Definition empty_program (avail : N) : program := Program (empty_memory avail) [].

(** The bytes of the heap: those left and those of the live blocks. *)
Definition heap_total (h : heap) : N :=
  (h_avail h + map_fold (fun _ size acc => size + acc) 0 (h_live h))%N.

(** ** Facts on the heap *)

Section facts.
Implicit Types (h : heap) (m : memory) (k a : positive) (sp : shared_ptr) (p : pointer).

Lemma fresh_lookup {A} (mp : gmap positive A) : mp !! fresh (dom mp) = None.
Proof. apply not_elem_of_dom, is_fresh. Qed.

Lemma malloc_ok size h :
  (size <= h_avail h)%N ->
  malloc size h = (Some (fresh (dom (h_live h))),
                   Heap (<[fresh (dom (h_live h)) := size]> (h_live h)) (h_avail h - size)).
Proof. intros Hle. unfold malloc. by rewrite (proj2 (N.leb_le _ _) Hle). Qed.

Lemma malloc_null size h : (h_avail h < size)%N -> malloc size h = (None, h).
Proof. intros Hlt. unfold malloc. by rewrite (proj2 (N.leb_gt _ _) Hlt). Qed.

Lemma free_live a size h :
  h_live h !! a = Some size ->
  free (Some a) h = Ok (Heap (delete a (h_live h)) (h_avail h + size)).
Proof. intros Ha. unfold free. by rewrite Ha. Qed.

(** A block that is freed right after its allocation leaves the heap as
    it was, whether the allocation succeeded or not. *)
Lemma free_malloc size h : free (malloc size h).1 (malloc size h).2 = Ok h.
Proof.
  destruct h as [live avail]. unfold malloc. simpl.
  destruct (N.leb_spec size avail) as [Hle|Hlt]; simpl; [|done].
  rewrite lookup_insert_eq, delete_insert_id by apply fresh_lookup.
  do 2 f_equal. lia.
Qed.

(** ** Facts on shared pointers *)

Lemma copy_with_block k p n d m :
  shared_ptr_copy (Some k) (with_block k (ControlBlock p n d) m)
  = (Ok (Some k), with_block k (ControlBlock p (S n) d) m).
Proof.
  unfold shared_ptr_copy, with_block. cbn [m_blocks m_heap].
  rewrite lookup_insert_eq. cbn [c_ptr c_use_count c_deleter].
  by rewrite insert_insert_eq.
Qed.

Lemma reset_shared k p n d m :
  shared_ptr_reset (Some k) (with_block k (ControlBlock p (S (S n)) d) m)
  = (Ok tt, with_block k (ControlBlock p (S n) d) m).
Proof.
  unfold shared_ptr_reset, with_block. cbn [m_blocks m_heap].
  rewrite lookup_insert_eq. cbn [c_ptr c_use_count c_deleter].
  by rewrite insert_insert_eq.
Qed.

Lemma reset_last k p d m h :
  m_blocks m !! k = None -> d p (m_heap m) = Ok h ->
  shared_ptr_reset (Some k) (with_block k (ControlBlock p 1 d) m)
  = (Ok tt, Memory h (m_blocks m)).
Proof.
  intros Hk Hd. unfold shared_ptr_reset, with_block. cbn [m_blocks m_heap].
  rewrite lookup_insert_eq. cbn [c_ptr c_use_count c_deleter].
  by rewrite Hd, delete_insert_id.
Qed.

Lemma times_copy k p n d m j :
  times j (shared_ptr_copy (Some k) ;; ret tt)%pb (with_block k (ControlBlock p n d) m)
  = (Ok tt, with_block k (ControlBlock p (j + n) d) m).
Proof.
  revert n. induction j as [|j IH]; intros n; [done|].
  cbn [times]. unfold bind at 1 2. rewrite copy_with_block. cbn [ret].
  rewrite IH. do 3 f_equal. lia.
Qed.

Lemma times_reset k p n d m j :
  times j (shared_ptr_reset (Some k)) (with_block k (ControlBlock p (j + S n) d) m)
  = (Ok tt, with_block k (ControlBlock p (S n) d) m).
Proof.
  induction j as [|j IH]; [done|].
  cbn [times Nat.add]. unfold bind at 1.
  rewrite Nat.add_succ_r, reset_shared, <- Nat.add_succ_r. apply IH.
Qed.

Lemma make_malloc_ptr_unfold size d m :
  make_malloc_ptr size d m
  = (Ok (Some (fresh (dom (m_blocks m)))),
     with_block (fresh (dom (m_blocks m)))
       (ControlBlock (malloc size (m_heap m)).1 1 d)
       (Memory (malloc size (m_heap m)).2 (m_blocks m))).
Proof. unfold make_malloc_ptr. by destruct (malloc size (m_heap m)). Qed.

(** ** Ownership and the invariant *)

Lemma owns_with_block k c m k' a :
  owns (with_block k c m) k' a
  <-> (k' = k /\ c_ptr c = Some a) \/ (k' <> k /\ owns m k' a).
Proof.
  unfold owns, with_block. cbn [m_blocks]. destruct (decide (k' = k)) as [->|Hne].
  - rewrite lookup_insert_eq. naive_solver.
  - rewrite lookup_insert_ne by done. naive_solver.
Qed.

Lemma owns_delete h k m k' a :
  owns (Memory h (delete k (m_blocks m))) k' a <-> k' <> k /\ owns m k' a.
Proof.
  unfold owns. cbn [m_blocks]. destruct (decide (k' = k)) as [->|Hne].
  - rewrite lookup_delete_eq. naive_solver.
  - rewrite lookup_delete_ne by done. naive_solver.
Qed.

(** Changing the use count of a block changes no ownership. *)
Lemma owns_recount k c n m k' a :
  m_blocks m !! k = Some c ->
  owns (with_block k (ControlBlock (c_ptr c) n (c_deleter c)) m) k' a <-> owns m k' a.
Proof.
  intros Hk. rewrite owns_with_block. unfold owns. cbn [c_ptr].
  destruct (decide (k' = k)) as [->|Hne]; naive_solver.
Qed.

Lemma wf_recount k c n m :
  memory_wf m -> m_blocks m !! k = Some c -> 0 < n ->
  memory_wf (with_block k (ControlBlock (c_ptr c) n (c_deleter c)) m).
Proof.
  intros [Hb Hl Hu] Hk Hn. split.
  - intros k' c'. unfold with_block. cbn [m_blocks].
    intros [[<- <-]|[_ Hc']]%lookup_insert_Some; [|by eauto].
    split; [done|]. apply (Hb k c Hk).
  - intros a. rewrite Hl. by setoid_rewrite (owns_recount k c n m _ a Hk).
  - intros k1 k2 a. rewrite !(owns_recount k c n m _ a Hk). apply Hu.
Qed.

(** Ownership does not depend on the heap. *)
Lemma owns_heap h m k a : owns (Memory h (m_blocks m)) k a <-> owns m k a.
Proof. done. Qed.

Lemma owns_ne k k' a m : m_blocks m !! k = None -> owns m k' a -> k' <> k.
Proof. intros Hk (c & Hc & _) ->. congruence. Qed.

(** A new control block that owns the null pointer. *)
Lemma wf_new_null k m :
  memory_wf m -> m_blocks m !! k = None ->
  memory_wf (with_block k (ControlBlock None 1 free) m).
Proof.
  intros [Hb Hl Hu] Hk. split.
  - intros k' c'. unfold with_block. cbn [m_blocks].
    intros [[<- <-]|[_ Hc']]%lookup_insert_Some; [split; [cbn; lia|done]|by eauto].
  - intros a. rewrite Hl. setoid_rewrite owns_with_block. split.
    + intros [k' Hk']. exists k'. right. eauto using owns_ne.
    + intros [k' [[_ [=]]|[_ Hk']]]. by exists k'.
  - intros k1 k2 a. rewrite !owns_with_block.
    intros [[_ [=]]|[_ H1]] [[_ [=]]|[_ H2]]. by apply (Hu k1 k2 a).
Qed.

(** A new control block that owns a block allocated for it. *)
Lemma wf_new_block k a size avail m :
  memory_wf m -> m_blocks m !! k = None -> h_live (m_heap m) !! a = None ->
  memory_wf (with_block k (ControlBlock (Some a) 1 free)
               (Memory (Heap (<[a := size]> (h_live (m_heap m))) avail) (m_blocks m))).
Proof.
  intros [Hb Hl Hu] Hk Ha.
  assert (Hfree : forall k', ~ owns m k' a).
  { intros k' Hown. assert (is_Some (h_live (m_heap m) !! a)) as [? ?] by (apply Hl; eauto).
    congruence. }
  split.
  - intros k' c'. unfold with_block. cbn [m_blocks].
    intros [[<- <-]|[_ Hc']]%lookup_insert_Some; [split; [cbn; lia|done]|by eauto].
  - intros a'. setoid_rewrite owns_with_block. setoid_rewrite owns_heap.
    unfold with_block. cbn [m_heap h_live c_ptr]. rewrite lookup_insert_is_Some, Hl.
    split.
    + intros [<-|[Hne [k' Hk']]]; [exists k; by left|].
      exists k'. right. eauto using owns_ne.
    + intros [k' [[-> [= <-]]|[Hne Hk']]]; [by left|].
      right. split; [|by exists k']. intros <-. by apply (Hfree k').
  - intros k1 k2 a'. rewrite !owns_with_block, !owns_heap. cbn [c_ptr].
    intros [[-> ?]|[Hn1 H1]] [[-> ?]|[Hn2 H2]]; simplify_eq; try done.
    + by destruct (Hfree k2).
    + by destruct (Hfree k1).
    + by apply (Hu k1 k2 a').
Qed.

Lemma owns_inj m k a a' : owns m k a -> owns m k a' -> a = a'.
Proof. intros (c & Hc & Ha) (c' & Hc' & Ha'). congruence. Qed.

(** The block a control block owns is live, so freeing it is defined. *)
Lemma free_owned m k c :
  memory_wf m -> m_blocks m !! k = Some c ->
  exists h, free (c_ptr c) (m_heap m) = Ok h.
Proof.
  intros [_ Hl _] Hk. destruct (c_ptr c) as [a|] eqn:Hp; [|by eexists].
  destruct (proj2 (Hl a)) as [size Ha]; [exists k, c; done|].
  eexists. by apply free_live.
Qed.

(** The memory when the last owner of a block is gone. *)
Lemma wf_drop m k c h :
  memory_wf m -> m_blocks m !! k = Some c -> free (c_ptr c) (m_heap m) = Ok h ->
  memory_wf (Memory h (delete k (m_blocks m))).
Proof.
  intros [Hb Hl Hu] Hk Hfree. split.
  - intros k' c'. cbn [m_blocks]. intros [_ Hc']%lookup_delete_Some. by eauto.
  - intros a'. setoid_rewrite owns_delete. cbn [m_heap].
    unfold free in Hfree. destruct (c_ptr c) as [a|] eqn:Hp.
    + destruct (h_live (m_heap m) !! a) as [size|] eqn:Ha; [|done].
      injection Hfree as <-. cbn [h_live]. rewrite lookup_delete_is_Some, Hl.
      assert (Hka : owns m k a) by (by exists c).
      split.
      * intros [Hne [k' Hk']]. exists k'. split; [|done].
        intros ->. by destruct Hne; apply (owns_inj m k).
      * intros [k' [Hne Hk']]. split; [|by exists k'].
        intros <-. by destruct Hne; apply (Hu k' k a).
    + injection Hfree as <-. rewrite Hl. split.
      * intros [k' Hk']. exists k'. split; [|done].
        intros ->. destruct Hk' as (c' & Hc' & Hp'). congruence.
      * intros [k' [_ Hk']]. by exists k'.
  - intros k1 k2 a. rewrite !owns_delete. intros [_ H1] [_ H2]. by apply (Hu k1 k2 a).
Qed.

Lemma use_count_with_block k c m k' :
  use_count (Some k') (with_block k c m)
  = if decide (k' = k) then c_use_count c else use_count (Some k') m.
Proof.
  unfold use_count, with_block. cbn [mbind option_bind m_blocks].
  case_decide as Hk; [subst; by rewrite lookup_insert_eq|by rewrite lookup_insert_ne].
Qed.

Lemma use_count_delete h k m k' :
  use_count (Some k') (Memory h (delete k (m_blocks m)))
  = if decide (k' = k) then 0 else use_count (Some k') m.
Proof.
  unfold use_count. cbn [mbind option_bind m_blocks].
  case_decide as Hk; [subst; by rewrite lookup_delete_eq|by rewrite lookup_delete_ne].
Qed.

Lemma use_count_lookup k c m : m_blocks m !! k = Some c -> use_count (Some k) m = c_use_count c.
Proof. intros Hk. unfold use_count. cbn [mbind option_bind]. by rewrite Hk. Qed.

Lemma use_count_None k m : m_blocks m !! k = None -> use_count (Some k) m = 0.
Proof. intros Hk. unfold use_count. cbn [mbind option_bind]. by rewrite Hk. Qed.

Lemma count_occ_delete (vars : list positive) i k k' :
  vars !! i = Some k ->
  count_occ Pos.eq_dec vars k'
  = (if decide (k' = k) then 1 else 0) + count_occ Pos.eq_dec (delete i vars) k'.
Proof.
  revert i. induction vars as [|v vars IH]; intros [|i] Hi; simplify_eq/=.
  - destruct (Pos.eq_dec k k'), (decide (k' = k)); simpl; congruence.
  - rewrite (IH i Hi). destruct (Pos.eq_dec v k'); lia.
Qed.

Lemma count_occ_cons_decide (vars : list positive) k k' :
  count_occ Pos.eq_dec (k :: vars) k'
  = (if decide (k' = k) then 1 else 0) + count_occ Pos.eq_dec vars k'.
Proof. simpl. destruct (Pos.eq_dec k k'), (decide (k' = k)); simpl; congruence. Qed.

(** A variable of the program holds a control block that is in use. *)
Lemma held_block pr i k :
  program_wf pr -> p_vars pr !! i = Some k ->
  exists c, m_blocks (p_mem pr) !! k = Some c
    /\ c_use_count c = S (count_occ Pos.eq_dec (delete i (p_vars pr)) k).
Proof.
  intros [_ Hc] Hi. specialize (Hc k). rewrite (count_occ_delete _ i k k Hi) in Hc.
  rewrite decide_True in Hc by done.
  destruct (m_blocks (p_mem pr) !! k) as [c|] eqn:Hk.
  - exists c. by rewrite (use_count_lookup k c) in Hc.
  - by rewrite use_count_None in Hc.
Qed.

Lemma copy_lookup k c m :
  m_blocks m !! k = Some c ->
  shared_ptr_copy (Some k) m
  = (Ok (Some k), with_block k (ControlBlock (c_ptr c) (S (c_use_count c)) (c_deleter c)) m).
Proof. intros Hk. unfold shared_ptr_copy. by rewrite Hk. Qed.

Lemma reset_lookup_shared k c n m :
  m_blocks m !! k = Some c -> c_use_count c = S (S n) ->
  shared_ptr_reset (Some k) m
  = (Ok tt, with_block k (ControlBlock (c_ptr c) (S n) (c_deleter c)) m).
Proof. intros Hk Hn. unfold shared_ptr_reset. by rewrite Hk, Hn. Qed.

Lemma reset_lookup_last k c m h :
  m_blocks m !! k = Some c -> c_use_count c = 1 ->
  c_deleter c (c_ptr c) (m_heap m) = Ok h ->
  shared_ptr_reset (Some k) m = (Ok tt, Memory h (delete k (m_blocks m))).
Proof. intros Hk Hn Hd. unfold shared_ptr_reset. by rewrite Hk, Hn, Hd. Qed.

Lemma make_malloc_ptr_wf size m :
  memory_wf m -> memory_wf (make_malloc_ptr size free m).2.
Proof.
  intros Hwf. rewrite make_malloc_ptr_unfold. cbn [snd]. unfold malloc.
  destruct (size <=? h_avail (m_heap m))%N; cbn [fst snd].
  - apply wf_new_block; [done|apply fresh_lookup..].
  - apply (wf_new_null _ (Memory (m_heap m) (m_blocks m))); [by destruct m|apply fresh_lookup].
Qed.

Lemma exec_make_wf size pr :
  program_wf pr -> exists pr', exec (SMake size) pr = Ok pr' /\ program_wf pr'.
Proof.
  intros [Hwf Hc]. pose proof (make_malloc_ptr_wf size _ Hwf) as Hwf'.
  unfold exec. rewrite make_malloc_ptr_unfold in Hwf' |- *.
  eexists. split; [done|]. split; [done|]. cbn [p_mem p_vars].
  intros k. rewrite use_count_with_block, count_occ_cons_decide, <- Hc.
  case_decide as Hk; [|done]. subst. by rewrite use_count_None by apply fresh_lookup.
Qed.

Lemma exec_copy_wf i pr :
  program_wf pr -> exists pr', exec (SCopy i) pr = Ok pr' /\ program_wf pr'.
Proof.
  intros Hpr. unfold exec. destruct (p_vars pr !! i) as [k|] eqn:Hi; [|by eexists].
  destruct (held_block pr i k Hpr Hi) as (c & Hk & Hn). destruct Hpr as [Hwf Hc].
  rewrite (copy_lookup k c) by done. eexists. split; [done|]. split; cbn [p_mem p_vars].
  - apply wf_recount; [done..|lia].
  - intros k'. rewrite use_count_with_block, count_occ_cons_decide, <- Hc.
    case_decide as Hk'; [|done]. subst. by rewrite (use_count_lookup k c).
Qed.

Lemma exec_drop_wf i pr :
  program_wf pr -> exists pr', exec (SDrop i) pr = Ok pr' /\ program_wf pr'.
Proof.
  intros Hpr. unfold exec. destruct (p_vars pr !! i) as [k|] eqn:Hi; [|by eexists].
  destruct (held_block pr i k Hpr Hi) as (c & Hk & Hn). destruct Hpr as [Hwf Hc].
  assert (Hcount : forall k' n, n = (if decide (k' = k) then count_occ Pos.eq_dec (delete i (p_vars pr)) k
                      else use_count (Some k') (p_mem pr)) ->
                     n = count_occ Pos.eq_dec (delete i (p_vars pr)) k').
  { intros k' n ->. case_decide as Hk'; [by subst|].
    by rewrite Hc, (count_occ_delete _ i k k' Hi), decide_False. }
  destruct (count_occ Pos.eq_dec (delete i (p_vars pr)) k) as [|n] eqn:Hrest.
  - destruct (free_owned _ k c Hwf Hk) as [h Hfree].
    rewrite (reset_lookup_last k c _ h) by (by rewrite ?(proj2 (wf_blocks _ Hwf k c Hk))).
    eexists. split; [done|]. split; cbn [p_mem p_vars]; [by eapply wf_drop|].
    intros k'. apply Hcount, use_count_delete.
  - rewrite (reset_lookup_shared k c n) by done.
    eexists. split; [done|]. split; cbn [p_mem p_vars]; [apply wf_recount; [done..|lia]|].
    intros k'. apply Hcount, use_count_with_block.
Qed.

Lemma exec_step_wf s pr :
  program_wf pr -> exists pr', exec s pr = Ok pr' /\ program_wf pr'.
Proof. destruct s; [apply exec_make_wf|apply exec_copy_wf|apply exec_drop_wf]. Qed.

Lemma empty_program_wf avail : program_wf (empty_program avail).
Proof.
  assert (Hown : forall k a, ~ owns (empty_memory avail) k a).
  { intros k a (c & Hc & _). cbn in Hc. by rewrite lookup_empty in Hc. }
  split; [split|].
  - intros k c. cbn. by rewrite lookup_empty.
  - intros a. cbn. rewrite lookup_empty. split; [by intros [? ?]|].
    intros [k Hk]. by destruct (Hown k a).
  - intros k1 k2 a Hk. by destruct (Hown k1 a).
  - intros k. by apply use_count_None, lookup_empty.
Qed.

(** When no variable is left, no control block and no buffer is. *)
Lemma no_vars_no_blocks pr :
  program_wf pr -> p_vars pr = [] ->
  m_blocks (p_mem pr) = ∅ /\ h_live (m_heap (p_mem pr)) = ∅.
Proof.
  intros [Hwf Hc] Hvars. rewrite Hvars in Hc.
  assert (Hb : m_blocks (p_mem pr) = ∅).
  { apply map_empty. intros k. destruct (m_blocks (p_mem pr) !! k) as [c|] eqn:Hk; [|done].
    pose proof (proj1 (wf_blocks _ Hwf k c Hk)). specialize (Hc k).
    rewrite (use_count_lookup k c _ Hk) in Hc. simpl in Hc. lia. }
  split; [done|]. apply map_empty. intros a. apply eq_None_not_Some.
  intros (k & c & Hk & _)%(wf_live _ Hwf). by rewrite Hb, lookup_empty in Hk.
Qed.

Lemma malloc_total size h : heap_total (malloc size h).2 = heap_total h.
Proof.
  unfold malloc, heap_total. destruct (N.leb_spec size (h_avail h)) as [Hle|Hlt]; [|done].
  cbn [snd h_live h_avail]. rewrite map_fold_insert_L; [lia|intros; lia|apply fresh_lookup].
Qed.

Lemma free_total p h h' : free p h = Ok h' -> heap_total h' = heap_total h.
Proof.
  unfold free, heap_total. destruct p as [a|]; [|by intros [= <-]].
  destruct (h_live h !! a) as [size|] eqn:Ha; [|done]. intros [= <-]. cbn [h_live h_avail].
  rewrite (map_fold_delete_L _ _ a size (h_live h)); [lia|intros; lia|done].
Qed.

Lemma exec_total s pr pr' :
  program_wf pr -> exec s pr = Ok pr' ->
  heap_total (m_heap (p_mem pr')) = heap_total (m_heap (p_mem pr)).
Proof.
  intros Hpr. destruct s as [size|i|i]; unfold exec.
  - rewrite make_malloc_ptr_unfold. intros [= <-]. apply malloc_total.
  - destruct (p_vars pr !! i) as [k|] eqn:Hi; [|by intros [= <-]].
    destruct (held_block pr i k Hpr Hi) as (c & Hk & Hn).
    rewrite (copy_lookup k c) by done. by intros [= <-].
  - destruct (p_vars pr !! i) as [k|] eqn:Hi; [|by intros [= <-]].
    destruct (held_block pr i k Hpr Hi) as (c & Hk & Hn). destruct Hpr as [Hwf Hc].
    destruct (count_occ Pos.eq_dec (delete i (p_vars pr)) k) as [|n].
    + destruct (free_owned _ k c Hwf Hk) as [h Hfree].
      rewrite (reset_lookup_last k c _ h) by (by rewrite ?(proj2 (wf_blocks _ Hwf k c Hk))).
      intros [= <-]. by apply (free_total (c_ptr c)).
    + rewrite (reset_lookup_shared k c n) by done. by intros [= <-].
Qed.

(** A program runs to its end, keeps the invariant and the bytes of the
    heap. *)
Lemma exec_all_ok ss pr :
  program_wf pr ->
  exists pr', exec_all ss pr = Ok pr' /\ program_wf pr'
    /\ heap_total (m_heap (p_mem pr')) = heap_total (m_heap (p_mem pr)).
Proof.
  revert pr. induction ss as [|s ss IH]; intros pr Hpr; [by eexists|].
  destruct (exec_step_wf s pr Hpr) as (pr1 & Hs & Hpr1). cbn [exec_all]. rewrite Hs.
  destruct (IH pr1 Hpr1) as (pr' & Hss & Hpr' & Htotal).
  exists pr'. rewrite Htotal. eauto using exec_total.
Qed.

Lemma sizeof_pos t : well_sized t = true -> (0 < sizeof t)%N.
Proof.
  induction t as [| | | | |t IH n]; simpl; try lia.
  intros [Hn Ht]%andb_true_iff. apply negb_true_iff, N.eqb_neq in Hn.
  specialize (IH Ht). lia.
Qed.

(** ** Properties *)

(** make_malloc_ptr always returns a shared pointer with a control
    block of its own and use count one.  When the heap has [size] bytes
    left the pointer it holds is a block of [size] bytes that was not
    live before; otherwise it holds the null pointer and the heap is
    unchanged. *)
Theorem make_malloc_ptr_spec size d m :
  exists k, m_blocks m !! k = None
    /\ (make_malloc_ptr size d m).1 = Ok (Some k)
    /\ let m' := (make_malloc_ptr size d m).2 in
       use_count (Some k) m' = 1
       /\ (forall k', k' <> k -> m_blocks m' !! k' = m_blocks m !! k')
       /\ if (size <=? h_avail (m_heap m))%N then
            exists a, shared_ptr_get (Some k) m' = Some a
              /\ h_live (m_heap m) !! a = None
              /\ h_live (m_heap m') = <[a := size]> (h_live (m_heap m))
              /\ h_avail (m_heap m') = (h_avail (m_heap m) - size)%N
          else shared_ptr_get (Some k) m' = None /\ m_heap m' = m_heap m.
Proof.
  exists (fresh (dom (m_blocks m))). rewrite make_malloc_ptr_unfold.
  split; [apply fresh_lookup|]. split; [done|]. cbn zeta.
  unfold use_count, shared_ptr_get, with_block. cbn [snd m_blocks m_heap mbind option_bind].
  rewrite lookup_insert_eq. split; [done|].
  split; [intros k' Hk'; by apply lookup_insert_ne|].
  unfold malloc. destruct (size <=? h_avail (m_heap m))%N; [|done].
  eexists. split; [done|]. split; [apply fresh_lookup|done].
Qed.

(** C37. A buffer made by make_malloc_ptr with the deleter free, shared
    by [n] further copies, is given back to the heap when the last copy
    is destroyed: the memory is the one before the allocation, and no
    step fails. *)
Theorem malloc_ptr_round_trip size n m :
  (sp <- make_malloc_ptr size free ;;
   times n (shared_ptr_copy sp ;; ret tt) ;;
   times n (shared_ptr_reset sp) ;;
   shared_ptr_reset sp)%pb m = (Ok tt, m).
Proof.
  unfold bind at 1. rewrite make_malloc_ptr_unfold.
  unfold bind at 1. rewrite times_copy.
  unfold bind at 1. rewrite times_reset.
  erewrite reset_last; [|apply fresh_lookup|apply free_malloc].
  by destruct m.
Qed.

(** On an array of [n] elements countof is [n], whatever the
    element type, arrays included. *)
Theorem countof_array e n :
  well_sized e = true -> countof (TArray e n) = Some n.
Proof.
  intros He%sizeof_pos. unfold countof. cbn [element_type mbind option_bind sizeof].
  rewrite (proj2 (N.eqb_neq _ _)) by lia. f_equal. apply N.div_mul. lia.
Qed.

(** C36. A statement that creates, copies or destroys a shared pointer
    made by make_malloc_ptr is defined on every well-formed program
    (nothing is freed twice, no freed block is owned), and leaves a
    well-formed program with the same bytes in the heap. *)
Theorem exec_preserves_invariant s pr :
  program_wf pr ->
  exists pr', exec s pr = Ok pr' /\ program_wf pr'
    /\ heap_total (m_heap (p_mem pr')) = heap_total (m_heap (p_mem pr)).
Proof.
  intros Hpr. destruct (exec_step_wf s pr Hpr) as (pr' & Hs & Hpr').
  exists pr'. eauto using exec_total.
Qed.

(** C26. A program that starts with an empty heap and manages its
    buffers through make_malloc_ptr only runs without undefined
    behaviour, and when its last shared pointer is gone the heap is
    empty again with every byte available. *)
Theorem programs_leak_nothing ss avail :
  exists pr', exec_all ss (empty_program avail) = Ok pr'
    /\ (p_vars pr' = [] -> pr' = empty_program avail).
Proof.
  destruct (exec_all_ok ss _ (empty_program_wf avail)) as (pr' & Hss & Hpr' & Htotal).
  exists pr'. split; [done|]. intros Hvars.
  destruct (no_vars_no_blocks pr' Hpr' Hvars) as [Hb Hl].
  destruct pr' as [[[live av] blocks] vars]. unfold heap_total in Htotal.
  cbn in Htotal, Hb, Hl, Hvars. subst. rewrite map_fold_empty in Htotal.
  unfold empty_program, empty_memory. do 3 f_equal. lia.
Qed.

Lemma exec_preserves_invariant_witness :
  exists pr', exec (SMake 8) (empty_program 16) = Ok pr' /\ program_wf pr'
    /\ heap_total (m_heap (p_mem pr')) = heap_total (m_heap (p_mem (empty_program 16))).
Proof. exact (exec_preserves_invariant (SMake 8) (empty_program 16) (empty_program_wf 16)). Defined.

Example demo_program :
  exec_all [SMake 8; SCopy 0; SDrop 0; SMake 100; SDrop 1; SDrop 0] (empty_program 16)
  = Ok (empty_program 16).
Proof. vm_compute. reflexivity. Qed.

(** The request for 100 bytes fails: the second variable holds the null
    pointer, the first the only live block. *)
Example demo_program_null :
  result_map (fun pr => (p_vars pr, (fun k => shared_ptr_get (Some k) (p_mem pr)) <$> p_vars pr))
    (exec_all [SMake 8; SCopy 0; SDrop 0; SMake 100] (empty_program 16))
  = Ok ([2; 1]%positive, [None; Some 1%positive]).
Proof. vm_compute. reflexivity. Qed.

Lemma countof_array_witness : countof (TArray (TArray TInt 3) 5) = Some 5%N.
Proof. exact (countof_array (TArray TInt 3) 5 eq_refl). Defined.

(** On a pointer the division is that of the size of a pointer. *)
Example countof_of_pointer : countof (TPointer TInt) = Some 2%N.
Proof. by vm_compute. Qed.

End facts.

End memory_util.
