(* ===== verification/MemoryTyped.v ===== *)
(** * memory_util at the width of size_t, and typed buffers

    src/include/utils/memory.hpp once more, with what [MemoryUtil]
    leaves out: the template parameter [T] of [make_malloc_ptr], its
    default arguments [sizeof(T)] and [free], and the width of
    [size_t].  Sizes are still numbers in [N]; [to_size_t] is the
    conversion of an argument to the 64-bit parameter, and [complete]
    tells the types a compiler accepts, whose size fits.  A typed
    pointer [fits] when it is null or its block holds an object of its
    type: this is what a caller that dereferences it relies on. *)

From Stdlib Require Import NArith.
From S2P Require Import Prelude MemoryUtil.
Import memory_util.

Module memory_typed.

Local Open Scope N_scope.

(** The largest value of [size_t] on the 64-bit targets of the bar. *)
Definition SIZE_MAX : N := 2 ^ 64 - 1.

(** The conversion of a number to [size_t]. *)
Definition to_size_t (n : N) : N := n mod 2 ^ 64.

(** The types that exist: the size of every array in them fits
    [size_t]. *)
Fixpoint complete (t : ctype) : bool :=
  match t with
  | TArray e n => complete e && (n * sizeof e <=? SIZE_MAX)
  | TPointer _ | TChar | TShort | TInt | TLong => true
  end.

(** [shared_ptr<T>], which [malloc_ptr_t<T>] names: the handle and the
    type it is declared with. *)
Record typed_ptr : Type := TypedPtr {
  tp_type : ctype;
  tp_ptr : shared_ptr;
}.

(** [make_malloc_ptr<T>(size, deleter)] with its default arguments:
    an argument left out is [None]. *)
Definition make_malloc_ptr_t (T : ctype) (size : option N) (d : option deleter)
    : prog memory typed_ptr :=
  (sp <- make_malloc_ptr (to_size_t (default (sizeof T) size)) (default free d) ;;
   ret (TypedPtr T sp))%pb.

(** [countof] as the machine computes it. *)
Definition countof_size_t (t : ctype) : option N :=
  e ← element_type t;
  if to_size_t (sizeof e) =? 0 then None
  else Some (to_size_t (sizeof t) / to_size_t (sizeof e)).

(** The pointer is null, or its block is live and holds an object of
    the type of the pointer. *)
Definition fits (m : memory) (p : typed_ptr) : bool :=
  match shared_ptr_get (tp_ptr p) m with
  | Some a =>
      match h_live (m_heap m) !! a with
      | Some size => sizeof (tp_type p) <=? size
      | None => false
      end
  | None => true
  end.

(** A type too large to exist: 2^61 elements of eight bytes. *)
Definition huge : ctype := TArray TLong (2 ^ 61).

(** ** Sizes *)

Lemma to_size_t_small n : n <= SIZE_MAX -> to_size_t n = n.
Proof. unfold to_size_t, SIZE_MAX. intros Hn. apply N.mod_small. lia. Qed.

Lemma to_size_t_range n : to_size_t n <= SIZE_MAX.
Proof.
  unfold to_size_t, SIZE_MAX. pose proof (N.mod_upper_bound n (2 ^ 64)). lia.
Qed.

Lemma complete_sizeof t : complete t = true -> sizeof t <= SIZE_MAX.
Proof.
  destruct t; cbn [complete sizeof]; try (intros _; unfold SIZE_MAX; lia).
  intros [_ Hn%N.leb_le]%andb_true_iff. done.
Qed.

Lemma complete_array e n : complete (TArray e n) = true -> complete e = true.
Proof. cbn [complete]. by intros [? _]%andb_true_iff. Qed.

(** On sizes that fit, the machine computes [countof] as the numbers
    do. *)
Lemma countof_size_t_agrees t :
  sizeof t <= SIZE_MAX -> (forall e, element_type t = Some e -> sizeof e <= SIZE_MAX) ->
  countof_size_t t = countof t.
Proof.
  intros Ht He. unfold countof_size_t, countof. destruct (element_type t) as [e|]; [|done].
  cbn [mbind option_bind]. by rewrite (to_size_t_small (sizeof t)), (to_size_t_small (sizeof e)) by auto.
Qed.

(** The count of a type with elements of a size that is not zero. *)
Lemma countof_elements t e :
  element_type t = Some e -> 0 < sizeof e ->
  countof t = Some (sizeof t / sizeof e)
  /\ sizeof t / sizeof e * sizeof e <= sizeof t
  /\ sizeof t / sizeof e <= sizeof t.
Proof.
  intros He Hpos. unfold countof. rewrite He. cbn [mbind option_bind].
  rewrite (proj2 (N.eqb_neq _ _)) by lia. split; [done|].
  pose proof (N.Div0.mul_div_le (sizeof t) (sizeof e)). split; [lia|].
  apply N.Div0.div_le_upper_bound. nia.
Qed.

(** ** make_malloc_ptr with a type *)

Section typed.
Implicit Types (m : memory) (T : ctype) (d : option deleter) (size : option N).

Lemma make_malloc_ptr_t_unfold T size d m :
  make_malloc_ptr_t T size d m
  = (result_map (TypedPtr T) (make_malloc_ptr (to_size_t (default (sizeof T) size)) (default free d) m).1,
     (make_malloc_ptr (to_size_t (default (sizeof T) size)) (default free d) m).2).
Proof.
  unfold make_malloc_ptr_t, bind, ret. rewrite make_malloc_ptr_unfold. done.
Qed.

(** What [fits] says of a pointer whose handle was just made. *)
Lemma fits_fresh T requested dl m :
  let r := make_malloc_ptr requested dl m in
  forall sp, r.1 = Ok sp ->
  fits r.2 (TypedPtr T sp) = (sizeof T <=? requested) || (h_avail (m_heap m) <? requested).
Proof.
  cbv zeta. rewrite make_malloc_ptr_unfold. cbn [fst snd]. intros sp [= <-].
  unfold fits, shared_ptr_get, with_block, malloc. cbn [tp_ptr tp_type mbind option_bind m_blocks m_heap].
  rewrite lookup_insert_eq. cbn [mbind option_bind c_ptr].
  destruct (requested <=? h_avail (m_heap m)) eqn:Hfit; cbn [fst snd h_live].
  - rewrite lookup_insert_eq. apply N.leb_le in Hfit.
    rewrite (proj2 (N.ltb_ge _ _)) by done. by rewrite orb_false_r.
  - apply N.leb_gt in Hfit. rewrite (proj2 (N.ltb_lt _ _)) by done. by rewrite orb_true_r.
Qed.

End typed.

(** ** Properties *)

(** C38. The machine computes countof without overflow: on a type that
    exists, with elements that exist and have a size, the division at
    the width of size_t is the one of the numbers; its result fits
    size_t, never counts more storage than the type has, and on an
    array of [k] elements it is [k]. *)
Theorem countof_size_t_exact t e :
  complete t = true -> element_type t = Some e -> complete e = true -> well_sized e = true ->
  countof_size_t t = countof t
  /\ exists n, countof t = Some n /\ n <= SIZE_MAX /\ n * sizeof e <= sizeof t
       /\ forall k, t = TArray e k -> n = k.
Proof.
  intros Ht He Hce Hpos%sizeof_pos. apply complete_sizeof in Ht, Hce.
  split; [apply countof_size_t_agrees; [done|by intros ? [= <-]%(eq_trans (eq_sym He))]|].
  destruct (countof_elements t e He Hpos) as (Hc & Hmul & Hle).
  exists (sizeof t / sizeof e). split; [done|]. split; [lia|]. split; [done|].
  intros k ->. cbn [sizeof]. apply N.div_mul. lia.
Qed.

(** C27. make_malloc_ptr is as well typed as its size argument: for a
    type that exists it returns a shared pointer of that type with use
    count one; the pointer fits (it is null, or its block holds an
    object of the type) exactly when the size asked for, converted to
    size_t, is at least the size of the type or the heap could not
    serve it.  With the default size it always fits; nothing relates
    an explicit size to the type. *)
Theorem make_malloc_ptr_t_spec T size d m :
  complete T = true ->
  let requested := to_size_t (default (sizeof T) size) in
  exists sp, (make_malloc_ptr_t T size d m).1 = Ok (TypedPtr T sp)
    /\ let m' := (make_malloc_ptr_t T size d m).2 in
       use_count sp m' = 1%nat
       /\ (shared_ptr_get sp m' = None <-> h_avail (m_heap m) < requested)
       /\ (fits m' (TypedPtr T sp) = true
           <-> sizeof T <= requested \/ h_avail (m_heap m) < requested)
       /\ (size = None -> fits m' (TypedPtr T sp) = true).
Proof.
  intros HT%complete_sizeof. cbv zeta. rewrite make_malloc_ptr_t_unfold. cbn [fst snd].
  set (requested := to_size_t _).
  destruct (make_malloc_ptr_spec requested (default free d) m) as (k & _ & Hr & Hu & _ & Hget).
  pose proof (fits_fresh T requested (default free d) m (Some k) Hr) as Hfits.
  rewrite Hr. cbn [result_map]. exists (Some k). split; [done|]. split; [done|].
  rewrite Hfits, orb_true_iff, N.leb_le, N.ltb_lt. split; [|split; [done|]].
  - destruct (N.leb_spec requested (h_avail (m_heap m))) as [Hle|Hlt].
    + destruct Hget as (a & -> & _). split; [done|lia].
    + destruct Hget as [-> _]. done.
  - intros ->. left. subst requested. cbn [default]. by rewrite to_size_t_small.
Qed.

(** ** Examples *)

(** A type that does not exist is where the machine and the numbers
    part: its size wraps to zero. *)
Example huge_wraps :
  complete huge = false /\ countof huge = Some (2 ^ 61) /\ countof_size_t huge = Some 0.
Proof. by vm_compute. Qed.

Lemma countof_size_t_exact_witness :
  countof_size_t (TArray (TArray TInt 3) 5) = countof (TArray (TArray TInt 3) 5)
  /\ exists n, countof (TArray (TArray TInt 3) 5) = Some n /\ n <= SIZE_MAX
       /\ n * sizeof (TArray TInt 3) <= sizeof (TArray (TArray TInt 3) 5)
       /\ forall k, TArray (TArray TInt 3) 5 = TArray (TArray TInt 3) k -> n = k.
Proof.
  exact (countof_size_t_exact (TArray (TArray TInt 3) 5) (TArray TInt 3)
           eq_refl eq_refl eq_refl eq_refl).
Defined.

(** A buffer of two bytes behind a pointer to long: the pointer does
    not fit; with the default size it does. *)
Example short_buffer_does_not_fit :
  let r := make_malloc_ptr_t TLong (Some 2) None (empty_memory 16) in
  (exists sp, r.1 = Ok (TypedPtr TLong sp) /\ fits r.2 (TypedPtr TLong sp) = false)
  /\ let r := make_malloc_ptr_t TLong None None (empty_memory 16) in
     exists sp, r.1 = Ok (TypedPtr TLong sp) /\ fits r.2 (TypedPtr TLong sp) = true.
Proof. split; eexists; by vm_compute. Qed.

(** A size that wrapped: 2^64 + 2 bytes asked for, two allocated. *)
Example wrapped_size_does_not_fit :
  let r := make_malloc_ptr_t TLong (Some (2 ^ 64 + 2)) None (empty_memory 16) in
  exists sp, r.1 = Ok (TypedPtr TLong sp) /\ fits r.2 (TypedPtr TLong sp) = false
    /\ h_avail (m_heap r.2) = 14.
Proof. eexists; by vm_compute. Qed.

Lemma make_malloc_ptr_t_spec_witness :
  exists sp, (make_malloc_ptr_t TLong (Some 2) None (empty_memory 16)).1 = Ok (TypedPtr TLong sp)
    /\ let m' := (make_malloc_ptr_t TLong (Some 2) None (empty_memory 16)).2 in
       use_count sp m' = 1%nat
       /\ (shared_ptr_get sp m' = None <-> 16 < to_size_t 2)
       /\ (fits m' (TypedPtr TLong sp) = true <-> 8 <= to_size_t 2 \/ 16 < to_size_t 2)
       /\ (Some 2 = None -> fits m' (TypedPtr TLong sp) = true).
Proof. exact (make_malloc_ptr_t_spec TLong (Some 2) None (empty_memory 16) eq_refl). Defined.

End memory_typed.
