(* ===== verification/DateSteps.v ===== *)
(** * The statements of date_module::update, and their interleavings

    [DateModule.date.update] is the whole call as one function.  Here
    the call is a program counter and a frame of local variables, and
    [update_step] executes one statement of src/src/modules/date.cpp;
    the program counters are named after the lines.  Several date
    modules live in one process: each has its own object and its own
    worker, all share the environment and the clock.  An event is one
    statement of one worker, or a call of [input] from the thread that
    dispatches clicks, which takes no lock (line 130).  A schedule is a
    list of events.

    Granularity: one statement of the source is one step, and a call
    of the C library inside it is atomic.  The buffer that [localtime]
    returns, which all threads share, is not modelled: formatting is
    the pure [put_time] of the value of TZ, the time and the format.
    Finer interleavings of the real program only add behaviours to the
    races shown here; the independence results hold of this model. *)

From Stdlib Require Import ZArith.
From S2P Require Import Prelude StringUtil Trace Lifecycle Environ Config Label Builder DateModule.
Import date.

Module date_steps.

(** The statement a call of [update] is about to execute. *)
Inductive pc : Type :=
| L44          (* auto time = std::time(nullptr) *)
| L47          (* timezone_format_original = getenv TZ *)
| L49          (* timezone_format = m_time_timezone, and the second *)
| L51          (* if (timezone_format != empty) setenv TZ *)
| L55          (* date_format = m_toggled ? ... *)
| L57          (* date_string = the stream after put_time *)
| L61          (* time_format = m_toggled ? ... *)
| L63          (* time_string = the stream after put_time *)
| L69          (* if (timezone_format_2 != empty) setenv TZ *)
| L71          (* date_format = m_toggled ? ... *)
| L73          (* date_string_2 = the stream after put_time *)
| L77          (* time_format = m_toggled ? ... *)
| L79          (* time_string_2 = the stream after put_time *)
| L84          (* if (m_date == date_string && m_time == time_string) return false *)
| L88          (* m_date = date_string, and the three others *)
| L93          (* if (m_label) the tokens are replaced *)
| L102         (* if (timezone_format_original) setenv TZ *)
| Ret (changed : bool).

#[export] Instance pc_eq_dec : EqDecision pc.
Proof. solve_decision. Defined.

(** The local variables of a call. *)
Record frame : Type := Frame {
  time : Z;
  timezone_format_original : option string;
  timezone_format : string;
  timezone_format_2 : string;
  date_format : string;
  date_string : string;
  time_format : string;
  time_string : string;
  date_string_2 : string;
  time_string_2 : string;
}.

Definition empty_frame : frame := Frame 0 None "" "" "" "" "" "" "" "".

Definition set_time (t : Z) (f : frame) : frame :=
  Frame t (timezone_format_original f) (timezone_format f) (timezone_format_2 f)
    (date_format f) (date_string f) (time_format f) (time_string f)
    (date_string_2 f) (time_string_2 f).

Definition set_timezone_format_original (tz : option string) (f : frame) : frame :=
  Frame (time f) tz (timezone_format f) (timezone_format_2 f)
    (date_format f) (date_string f) (time_format f) (time_string f)
    (date_string_2 f) (time_string_2 f).

Definition set_timezone_formats (tz tz2 : string) (f : frame) : frame :=
  Frame (time f) (timezone_format_original f) tz tz2
    (date_format f) (date_string f) (time_format f) (time_string f)
    (date_string_2 f) (time_string_2 f).

Definition set_date_format (s : string) (f : frame) : frame :=
  Frame (time f) (timezone_format_original f) (timezone_format f) (timezone_format_2 f)
    s (date_string f) (time_format f) (time_string f)
    (date_string_2 f) (time_string_2 f).

Definition set_date_string (s : string) (f : frame) : frame :=
  Frame (time f) (timezone_format_original f) (timezone_format f) (timezone_format_2 f)
    (date_format f) s (time_format f) (time_string f)
    (date_string_2 f) (time_string_2 f).

Definition set_time_format (s : string) (f : frame) : frame :=
  Frame (time f) (timezone_format_original f) (timezone_format f) (timezone_format_2 f)
    (date_format f) (date_string f) s (time_string f)
    (date_string_2 f) (time_string_2 f).

Definition set_time_string (s : string) (f : frame) : frame :=
  Frame (time f) (timezone_format_original f) (timezone_format f) (timezone_format_2 f)
    (date_format f) (date_string f) (time_format f) s
    (date_string_2 f) (time_string_2 f).

Definition set_date_string_2 (s : string) (f : frame) : frame :=
  Frame (time f) (timezone_format_original f) (timezone_format f) (timezone_format_2 f)
    (date_format f) (date_string f) (time_format f) (time_string f)
    s (time_string_2 f).

Definition set_time_string_2 (s : string) (f : frame) : frame :=
  Frame (time f) (timezone_format_original f) (timezone_format f) (timezone_format_2 f)
    (date_format f) (date_string f) (time_format f) (time_string f)
    (date_string_2 f) s.

(** A call of [update] in progress. *)
Record call : Type := Call {
  at_pc : pc;
  locals : frame;
}.

Definition begin_call : call := Call L44 empty_frame.

(** A call has at most this many statements. *)
Definition update_length : nat := 17.

Section steps.
Context `{!TimeFormat}.
Implicit Types (d : date_module) (env : environ) (now : Z) (f : frame) (c : call).

(** One statement of [update]: the call, the object and the environment
    after it.  [now] is what the clock shows. *)
Definition update_step (now : Z) (c : call) (d : date_module) (env : environ)
    : call * date_module * environ :=
  let f := locals c in
  match at_pc c with
  | L44 => (Call L47 (set_time now f), d, env)
  | L47 => (Call L49 (set_timezone_format_original (getenv "TZ" env) f), d, env)
  | L49 => (Call L51 (set_timezone_formats (m_time_timezone d) (m_time_timezone_2 d) f), d, env)
  | L51 =>
      (Call L55 f, d,
       if bool_decide (timezone_format f <> "")
       then setenv "TZ" (timezone_format f) true env else env)
  | L55 => (Call L57 (set_date_format (date.date_format d) f), d, env)
  | L57 =>
      let '(s, d) := stream_put_time (time f) env (date_format f) d in
      (Call L61 (set_date_string s f), d, env)
  | L61 => (Call L63 (set_time_format (date.time_format d) f), d, env)
  | L63 =>
      let '(s, d) := stream_put_time (time f) env (time_format f) d in
      (Call L69 (set_time_string s f), d, env)
  | L69 =>
      if bool_decide (timezone_format_2 f <> "")
      then (Call L71 f, d, setenv "TZ" (timezone_format_2 f) true env)
      else (Call L84 f, d, env)
  | L71 => (Call L73 (set_date_format (date.date_format d) f), d, env)
  | L73 =>
      let '(s, d) := stream_put_time (time f) env (date_format f) d in
      (Call L77 (set_date_string_2 s f), d, env)
  | L77 => (Call L79 (set_time_format (date.time_format d) f), d, env)
  | L79 =>
      let '(s, d) := stream_put_time (time f) env (time_format f) d in
      (Call L84 (set_time_string_2 s f), d, env)
  | L84 =>
      if bool_decide (m_date d = date_string f) && bool_decide (m_time d = time_string f)
      then (Call (Ret false) f, d, env)
      else (Call L88 f, d, env)
  | L88 =>
      (Call L93 f,
       set_shown (date_string f) (date_string_2 f) (time_string f) (time_string_2 f) d, env)
  | L93 => (Call L102 f, refresh_label d, env)
  | L102 => (Call (Ret true) f, d, restore_tz (timezone_format_original f) env)
  | Ret _ => (c, d, env)
  end.

(** [n] statements in a row, with no other thread in between. *)
Fixpoint update_steps (n : nat) (now : Z) (c : call) (d : date_module) (env : environ)
    : call * date_module * environ :=
  match n with
  | O => (c, d, env)
  | S n => let '(c, d, env) := update_step now c d env in update_steps n now c d env
  end.

(** The frame when lines 44 to 53 are done. *)
Definition prologue_frame now env d : frame :=
  set_timezone_formats (m_time_timezone d) (m_time_timezone_2 d)
    (set_timezone_format_original (getenv "TZ" env) (set_time now empty_frame)).

(** The frame when lines 69 to 82 are done, in a second zone [tz]. *)
Definition secondary_frame (tz : option string) f d : frame :=
  set_time_string_2 (put_time tz (time f) (date.time_format d))
    (set_time_format (date.time_format d)
       (set_date_string_2 (put_time tz (time f) (date.date_format d))
          (set_date_format (date.date_format d) f))).

(** The effect of [input] on the object (lines 127 to 130). *)
Definition input_toggle (cmd : string) (d : date_module) : date_module :=
  if bool_decide (cmd <> EVENT_TOGGLE) then d else set_toggled (negb (m_toggled d)) d.

(** ** A process with several date modules *)

(** A date module and the call of [update] its worker is in. *)
Record worker : Type := Worker {
  w_module : date_module;
  w_call : option call;
}.

(** The process: the environment and the clock, which all threads
    share, and the modules by their number. *)
Record system : Type := System {
  s_env : environ;
  s_now : Z;
  s_workers : gmap nat worker;
}.

Inductive event : Type :=
| ECall (i : nat)                  (* the worker of module i calls update *)
| EUpdate (i : nat)                (* it executes the next statement of the call *)
| EInput (i : nat) (cmd : string)  (* another thread calls input on module i *)
| ETick (dt : Z).                  (* the clock advances *)

(** The worker is not inside a call. *)
Definition returned (c : option call) : bool :=
  match c with
  | Some (Call (Ret _) _) | None => true
  | _ => false
  end.

(** One event.  An event that cannot happen (a module that does not
    exist, a call inside a call, a statement outside a call) leaves the
    system as it is. *)
Definition step (e : event) (s : system) : system :=
  match e with
  | ECall i =>
      match s_workers s !! i with
      | Some w =>
          if returned (w_call w)
          then System (s_env s) (s_now s)
                 (<[i := Worker (w_module w) (Some begin_call)]> (s_workers s))
          else s
      | None => s
      end
  | EUpdate i =>
      match s_workers s !! i with
      | Some (Worker d (Some c)) =>
          let '(c', d', env') := update_step (s_now s) c d (s_env s) in
          System env' (s_now s) (<[i := Worker d' (Some c')]> (s_workers s))
      | _ => s
      end
  | EInput i cmd =>
      match s_workers s !! i with
      | Some w =>
          System (s_env s) (s_now s)
            (<[i := Worker (input_toggle cmd (w_module w)) (w_call w)]> (s_workers s))
      | None => s
      end
  | ETick dt => System (s_env s) (s_now s + dt) (s_workers s)
  end.

(** A schedule, first event first. *)
Fixpoint run_events (es : list event) (s : system) : system :=
  match es with
  | [] => s
  | e :: es => run_events es (step e s)
  end.

(** What a call that computed the strings [D] and [T] leaves of a
    module that showed [d]. *)
Definition outcome (D T : string) (d d' : date_module) (c' : call) : Prop :=
  at_pc c' = Ret (negb (bool_decide (m_date d = D) && bool_decide (m_time d = T)))
  /\ (at_pc c' = Ret true -> m_date d' = D /\ m_time d' = T)
  /\ (at_pc c' = Ret false -> m_date d' = m_date d /\ m_time d' = m_time d).

(** One whole call of the worker [i] with nothing in between. *)
Definition call_schedule (i : nat) : list event :=
  ECall i :: replicate update_length (EUpdate i).

(** A click arrives when the worker [i] is between line 57 and line 61. *)
Definition torn_schedule (i : nat) : list event :=
  ECall i :: replicate 6 (EUpdate i) ++ EInput i EVENT_TOGGLE :: replicate 11 (EUpdate i).

(** The worker [j] runs lines 44 to 53 when the worker [i] has just done so. *)
Definition race_schedule (i j : nat) : list event :=
  ECall i :: replicate 4 (EUpdate i) ++ ECall j :: replicate 4 (EUpdate j)
  ++ replicate 13 (EUpdate i).

(** The position of a statement in the body of [update]. *)
Definition pc_index (p : pc) : nat :=
  match p with
  | L44 => 0 | L47 => 1 | L49 => 2 | L51 => 3 | L55 => 4 | L57 => 5 | L61 => 6
  | L63 => 7 | L69 => 8 | L71 => 9 | L73 => 10 | L77 => 11 | L79 => 12 | L84 => 13
  | L88 => 14 | L93 => 15 | L102 => 16 | Ret _ => 17
  end.

(** The copies a call holds of TZ and of the zone settings, once it has
    made them, when no module names a zone: TZ as it is, no zone. *)
Definition frame_ok (env : environ) (c : call) : Prop :=
  (1 < pc_index (at_pc c) -> timezone_format_original (locals c) = getenv "TZ" env)
  /\ (2 < pc_index (at_pc c) ->
      timezone_format (locals c) = "" /\ timezone_format_2 (locals c) = "").

(** No module names a time zone, and the calls in progress agree. *)
Definition zone_free (s : system) : Prop :=
  forall j d oc, s_workers s !! j = Some (Worker d oc) ->
    m_time_timezone d = "" /\ m_time_timezone_2 d = ""
    /\ forall c, oc = Some c -> frame_ok (s_env s) c.

(** The events that the worker [i] can tell from no event. *)
Definition concerns (i : nat) (e : event) : bool :=
  match e with
  | ECall j | EUpdate j | EInput j _ => bool_decide (j = i)
  | ETick _ => true
  end.

(** Two systems that the worker [i] cannot tell apart. *)
Definition same_view (i : nat) (s1 s2 : system) : Prop :=
  s_env s1 = s_env s2 /\ s_now s1 = s_now s2 /\ s_workers s1 !! i = s_workers s2 !! i.

End steps.

(** ** Concrete processes *)

(** A clock with the hour as the date and the minute as the time, and
    a longer alternative for each. *)
Definition click_conf : config :=
  Config (list_to_map [(("date", "date"), "%H"); (("date", "date-alt"), "%H:%M");
                       (("date", "time"), "%M"); (("date", "time-alt"), "%M:%S")]) ∅.

Definition click_date : date_module :=
  Eval vm_compute in match ctor click_conf "date" with Ok d => d | Err _ => null_date end.

(** A clock of the zone [tz]. *)
Definition zone_conf (tz : string) : config :=
  Config (list_to_map [(("date", "time"), "%H:%M"); (("date", "time-TZ"), tz)]) ∅.

Definition tokyo_date : date_module :=
  Eval vm_compute in
    match ctor (zone_conf "Asia/Tokyo") "date" with Ok d => d | Err _ => null_date end.

Definition new_york_date : date_module :=
  Eval vm_compute in
    match ctor (zone_conf "America/New_York") "date" with Ok d => d | Err _ => null_date end.

(** Two processes at 12:34:56 UTC with TZ set to Berlin. *)
Definition click_system : system :=
  System berlin noon {[ 0 := Worker click_date None; 1 := Worker click_date None ]}.

Definition zone_system : system :=
  System berlin noon {[ 0 := Worker tokyo_date None; 1 := Worker new_york_date None ]}.

(** The date and the time the module [i] shows. *)
Definition shown (i : nat) (s : system) : option (string * string) :=
  w ← s_workers s !! i; Some (m_date (w_module w), m_time (w_module w)).

(** Read the local variables of a frame given by its assignments. *)
Ltac frame_simpl :=
  cbn [time timezone_format_original timezone_format timezone_format_2 date_format
       date_string time_format time_string date_string_2 time_string_2
       set_time set_timezone_format_original set_timezone_formats set_date_format
       set_date_string set_time_format set_time_string set_date_string_2
       set_time_string_2 prologue_frame secondary_frame empty_frame
       m_date m_time set_stream fst snd at_pc locals] in *.

(** Find a worker in a map given by its updates. *)
Ltac lookup_solve :=
  cbn [s_workers];
  repeat first [rewrite lookup_insert_eq | rewrite lookup_insert_ne by done];
  first [reflexivity | eassumption].

(** ** The statements of one call *)

Section facts.
Context `{!TimeFormat}.
Implicit Types (d : date_module) (env : environ) (now : Z) (f : frame) (c : call).

Lemma update_steps_add n m now c d env :
  update_steps (n + m) now c d env
  = let '(c', d', env') := update_steps n now c d env in update_steps m now c' d' env'.
Proof.
  revert c d env. induction n as [|n IH]; intros c d env; [reflexivity|].
  cbn [Nat.add update_steps]. destruct (update_step now c d env) as [[c1 d1] env1]. apply IH.
Qed.

Lemma update_steps_ret n now b f d env :
  update_steps n now (Call (Ret b) f) d env = (Call (Ret b) f, d, env).
Proof. induction n as [|n IH]; [done|]. cbn [update_steps update_step at_pc]. apply IH. Qed.

Lemma steps_prologue now d env :
  update_steps 4 now begin_call d env
  = (Call L55 (prologue_frame now env d), d,
     if bool_decide (m_time_timezone d <> "")
     then setenv "TZ" (m_time_timezone d) true env else env).
Proof. reflexivity. Qed.

(** Lines 55 to 65. *)
Lemma steps_render now f d env :
  update_steps 4 now (Call L55 f) d env
  = (Call L69
       (set_time_string (put_time (getenv "TZ" env) (time f) (date.time_format d))
          (set_time_format (date.time_format d)
             (set_date_string (put_time (getenv "TZ" env) (time f) (date.date_format d))
                (set_date_format (date.date_format d) f)))),
     set_stream (put_time (getenv "TZ" env) (time f) (date.time_format d)) d, env).
Proof. reflexivity. Qed.

Lemma steps_secondary now f d env :
  timezone_format_2 f <> "" ->
  update_steps 5 now (Call L69 f) d env
  = (Call L84 (secondary_frame (Some (timezone_format_2 f)) f d),
     set_stream (put_time (Some (timezone_format_2 f)) (time f) (date.time_format d)) d,
     setenv "TZ" (timezone_format_2 f) true env).
Proof.
  intros Hz. cbn [update_steps update_step at_pc locals].
  rewrite bool_decide_eq_true_2 by done.
  cbn [update_steps update_step at_pc locals stream_put_time].
  unfold stream_put_time. rewrite !getenv_setenv. reflexivity.
Qed.

Lemma steps_no_secondary now f d env :
  timezone_format_2 f = "" ->
  update_steps 1 now (Call L69 f) d env = (Call L84 f, d, env).
Proof.
  intros Hz. cbn [update_steps update_step at_pc locals].
  by rewrite bool_decide_eq_false_2 by (by intros ?).
Qed.

(** Lines 84 to 107. *)
Lemma steps_epilogue now f d env :
  update_steps 4 now (Call L84 f) d env
  = if bool_decide (m_date d = date_string f) && bool_decide (m_time d = time_string f)
    then (Call (Ret false) f, d, env)
    else (Call (Ret true) f,
          refresh_label
            (set_shown (date_string f) (date_string_2 f) (time_string f) (time_string_2 f) d),
          restore_tz (timezone_format_original f) env).
Proof.
  cbn [update_steps update_step at_pc locals].
  destruct (_ && _); reflexivity.
Qed.

Lemma update_steps_refine now env d :
  let r := update_steps update_length now begin_call d env in
  at_pc r.1.1 = Ret (update now env d).1.1
  /\ r.1.2 = (update now env d).1.2
  /\ r.2 = (update now env d).2.
Proof.
  cbn zeta. unfold update_length. rewrite update_spec.
  unfold last_stream, secondary, tz_after_render.
  change 17 with (4 + 13). rewrite update_steps_add, steps_prologue. cbv beta iota.
  change 13 with (4 + 9). rewrite update_steps_add, steps_render. cbv beta iota.
  rewrite getenv_primary.
  destruct (decide (m_time_timezone_2 d = "")) as [Hz|Hz].
  - change 9 with (1 + 8). rewrite update_steps_add, steps_no_secondary by done. cbv beta iota.
    change 8 with (4 + 4). rewrite update_steps_add, steps_epilogue.
    rewrite (bool_decide_eq_false_2 (m_time_timezone_2 d <> "")) by (by intros ?).
    frame_simpl. destruct (_ && _); frame_simpl; [by rewrite update_steps_ret|].
    by rewrite update_steps_ret.
  - change 9 with (5 + 4). rewrite update_steps_add, steps_secondary by done. cbv beta iota.
    rewrite steps_epilogue.
    rewrite (bool_decide_eq_true_2 (m_time_timezone_2 d <> "")) by done.
    frame_simpl. destruct (_ && _); frame_simpl; done.
Qed.

Lemma run_events_cons e es s : run_events (e :: es) s = run_events es (step e s).
Proof. reflexivity. Qed.

Lemma run_events_app es1 es2 s : run_events (es1 ++ es2) s = run_events es2 (run_events es1 s).
Proof. revert s. induction es1 as [|e es1 IH]; intros s; [done|]. apply IH. Qed.

(** [n] statements of the worker [i] with nothing in between are
    [update_steps n]. *)
Lemma run_updates n i s d c :
  s_workers s !! i = Some (Worker d (Some c)) ->
  run_events (replicate n (EUpdate i)) s
  = let '(c', d', env') := update_steps n (s_now s) c d (s_env s) in
    System env' (s_now s) (<[i := Worker d' (Some c')]> (s_workers s)).
Proof.
  revert s d c. induction n as [|n IH]; intros s d c Hi.
  - cbn [replicate run_events update_steps]. destruct s as [env now ws]. cbn in *.
    by rewrite insert_id.
  - cbn [replicate run_events update_steps step]. rewrite Hi.
    destruct (update_step (s_now s) c d (s_env s)) as [[c1 d1] env1].
    erewrite IH by apply lookup_insert_eq. cbn [s_now s_env s_workers].
    destruct (update_steps n _ _ _ _) as [[c2 d2] env2]. by rewrite insert_insert_eq.
Qed.

(** Lines 55 to 59, and lines 61 to 65. *)
Lemma steps_date now f d env :
  update_steps 2 now (Call L55 f) d env
  = (Call L61 (set_date_string (put_time (getenv "TZ" env) (time f) (date.date_format d))
                 (set_date_format (date.date_format d) f)),
     set_stream (put_time (getenv "TZ" env) (time f) (date.date_format d)) d, env).
Proof. reflexivity. Qed.

Lemma steps_time now f d env :
  update_steps 2 now (Call L61 f) d env
  = (Call L69 (set_time_string (put_time (getenv "TZ" env) (time f) (date.time_format d))
                 (set_time_format (date.time_format d) f)),
     set_stream (put_time (getenv "TZ" env) (time f) (date.time_format d)) d, env).
Proof. reflexivity. Qed.

(** From line 69 to the end, without a second zone. *)
Lemma steps_finish n now f d env :
  timezone_format_2 f = "" ->
  let r := update_steps (5 + n) now (Call L69 f) d env in
  outcome (date_string f) (time_string f) d r.1.2 r.1.1.
Proof.
  intros Hz. cbn zeta. change (5 + n) with (1 + (4 + n)).
  rewrite update_steps_add, steps_no_secondary by done. cbv beta iota.
  rewrite update_steps_add, steps_epilogue. unfold outcome.
  destruct (_ && _); rewrite update_steps_ret; cbn [fst snd at_pc negb];
    (split; [done|]); split; intros Hret; try done.
  match goal with |- context [refresh_label ?x] =>
    destruct (refresh_label_fields x) as (_ & Hd & _ & Ht & _) end.
  by rewrite Hd, Ht.
Qed.

Lemma step_call i s d prev :
  s_workers s !! i = Some (Worker d prev) -> returned prev = true ->
  step (ECall i) s
  = System (s_env s) (s_now s) (<[i := Worker d (Some begin_call)]> (s_workers s)).
Proof. intros Hi Hr. cbn [step]. by rewrite Hi; cbn [w_call w_module]; rewrite Hr. Qed.

Lemma step_input i cmd s d prev :
  s_workers s !! i = Some (Worker d prev) ->
  step (EInput i cmd) s
  = System (s_env s) (s_now s) (<[i := Worker (input_toggle cmd d) prev]> (s_workers s)).
Proof. intros Hi. cbn [step]. by rewrite Hi. Qed.

(** C7. The statements refine the call: a worker that runs a whole call
    of [update] with no event of another thread in between leaves its
    module, the environment and the result that
    [DateModule.date.update] computes. *)
Theorem update_alone i s d prev :
  s_workers s !! i = Some (Worker d prev) -> returned prev = true ->
  let s' := run_events (call_schedule i) s in
  let r := update (s_now s) (s_env s) d in
  s_env s' = r.2 /\ s_now s' = s_now s
  /\ exists f, s_workers s' = <[i := Worker r.1.2 (Some (Call (Ret r.1.1) f))]> (s_workers s).
Proof.
  intros Hi Hr. cbn zeta. unfold call_schedule.
  rewrite run_events_cons, (step_call i s d prev Hi Hr).
  rewrite (run_updates update_length i _ d begin_call) by apply lookup_insert_eq.
  cbn [s_now s_env s_workers].
  destruct (update_steps_refine (s_now s) (s_env s) d) as (Hpc & Hd & Henv).
  destruct (update_steps update_length _ _ _ _) as [[[pc' f'] d'] env'].
  cbn [fst snd at_pc] in Hpc, Hd, Henv. subst. cbn [s_env s_now s_workers].
  rewrite insert_insert_eq. eauto.
Qed.

(** No statement of [update] writes a setting or the toggle. *)
Lemma update_step_same_settings now c d env :
  same_settings d (update_step now c d env).1.2.
Proof.
  unfold update_step. destruct (at_pc c); try done.
  - by case_bool_decide.
  - by destruct (_ && _).
  - apply refresh_label_fields.
Qed.

Lemma update_steps_same_settings n now c d env :
  same_settings d (update_steps n now c d env).1.2.
Proof.
  revert c d env. induction n as [|n IH]; intros c d env; [done|].
  cbn [update_steps]. pose proof (update_step_same_settings now c d env) as Hs.
  destruct (update_step now c d env) as [[c1 d1] env1].
  eapply same_settings_trans; [apply Hs|apply IH].
Qed.

(** [input_toggle] is what [DateModule.date.input] does to the object. *)
Lemma input_toggle_input cmd (m : module process) :
  self (impl (date.input cmd m).2) = input_toggle cmd (self (impl m)).
Proof. unfold date.input, input_toggle. by case_bool_decide. Qed.

Lemma input_toggle_event d :
  input_toggle EVENT_TOGGLE d = set_toggled (negb (m_toggled d)) d.
Proof. done. Qed.

Lemma outcome_same_shown D T d1 d2 d' c' :
  m_date d1 = m_date d2 -> m_time d1 = m_time d2 ->
  outcome D T d1 d' c' -> outcome D T d2 d' c'.
Proof. unfold outcome. by intros -> ->. Qed.

(** C17. [input] is not atomic with respect to [update]: a click that
    arrives between line 57 and line 61 makes one call format the date
    with the toggle as it was and the time with the toggle flipped, and
    the module shows the pair. *)
Theorem torn_toggle i s d prev :
  s_workers s !! i = Some (Worker d prev) -> returned prev = true ->
  m_time_timezone_2 d = "" ->
  exists d' c', s_workers (run_events (torn_schedule i) s) !! i = Some (Worker d' (Some c'))
    /\ outcome (put_time (primary_tz (s_env s) d) (s_now s) (date.date_format d))
         (put_time (primary_tz (s_env s) d) (s_now s)
            (date.time_format (set_toggled (negb (m_toggled d)) d)))
         d d' c'
    /\ m_toggled d' = negb (m_toggled d).
Proof.
  intros Hi Hr Hz. unfold torn_schedule.
  rewrite run_events_cons, (step_call i s d prev Hi Hr), run_events_app.
  rewrite (run_updates 6 i _ d begin_call) by apply lookup_insert_eq.
  cbn [s_now s_env s_workers].
  change 6 with (4 + 2). rewrite update_steps_add, steps_prologue. cbv beta iota.
  rewrite steps_date, getenv_primary, run_events_cons.
  erewrite step_input by apply lookup_insert_eq. rewrite input_toggle_event.
  erewrite (run_updates 11 i) by apply lookup_insert_eq. cbn [s_now s_env s_workers].
  change 11 with (2 + (5 + 4)). rewrite update_steps_add, steps_time. cbv beta iota.
  rewrite getenv_primary.
  match goal with |- context [update_steps (5 + 4) ?now (Call L69 ?f) ?d0 ?env] =>
    pose proof (update_steps_same_settings (5 + 4) now (Call L69 f) d0 env) as Hs;
    pose proof (steps_finish 4 now f d0 env Hz) as Hout;
    destruct (update_steps (5 + 4) now (Call L69 f) d0 env) as [[c' d'] env'] end.
  exists d', c'. cbn [s_workers]. rewrite lookup_insert_eq. split; [done|].
  cbn zeta in Hout. frame_simpl. unfold date.time_format in *.
  cbn [m_toggled m_timeformat m_timeformat_alt set_toggled set_stream fst snd] in *.
  split; [by eapply outcome_same_shown; [..|apply Hout]|].
  by destruct Hs as (_ & _ & _ & _ & _ & _ & -> & _).
Qed.

(** C16. Two date modules race on TZ: when the worker [j] sets its zone
    after the worker [i] has set its own and before [i] formats, the
    module [i] shows the time of the zone of [j]. *)
Theorem tz_race i j s di dj pi pj :
  i <> j ->
  s_workers s !! i = Some (Worker di pi) -> returned pi = true ->
  s_workers s !! j = Some (Worker dj pj) -> returned pj = true ->
  m_time_timezone dj <> "" -> m_time_timezone_2 di = "" ->
  exists d' c', s_workers (run_events (race_schedule i j) s) !! i = Some (Worker d' (Some c'))
    /\ outcome (put_time (Some (m_time_timezone dj)) (s_now s) (date.date_format di))
         (put_time (Some (m_time_timezone dj)) (s_now s) (date.time_format di))
         di d' c'.
Proof.
  intros Hij Hi Hri Hj Hrj Hzj Hz2. unfold race_schedule.
  rewrite run_events_cons, (step_call i s di pi Hi Hri), run_events_app.
  rewrite (run_updates 4 i _ di begin_call) by lookup_solve.
  cbn [s_now s_env s_workers]. rewrite steps_prologue, run_events_cons.
  rewrite (step_call j _ dj pj) by (done || lookup_solve).
  rewrite run_events_app, (run_updates 4 j _ dj begin_call) by lookup_solve.
  cbn [s_now s_env s_workers]. rewrite steps_prologue.
  rewrite (bool_decide_eq_true_2 (m_time_timezone dj <> "")) by done.
  erewrite (run_updates 13 i) by lookup_solve. cbn [s_now s_env s_workers].
  change 13 with (4 + (5 + 4)). rewrite update_steps_add, steps_render. cbv beta iota.
  rewrite getenv_setenv.
  match goal with |- context [update_steps (5 + 4) ?now (Call L69 ?f) ?d0 ?env] =>
    pose proof (steps_finish 4 now f d0 env Hz2) as Hout;
    destruct (update_steps (5 + 4) now (Call L69 f) d0 env) as [[c' d'] env'] end.
  exists d', c'. split; [lookup_solve|].
  cbn zeta in Hout. frame_simpl. by eapply outcome_same_shown; [..|apply Hout].
Qed.

Lemma update_step_quiet now c d env :
  m_time_timezone d = "" -> m_time_timezone_2 d = "" -> frame_ok env c ->
  (update_step now c d env).2 = env /\ frame_ok env (update_step now c d env).1.1.
Proof.
  intros Hz Hz2 [Horig Hcopy]. destruct c as [p f]. unfold frame_ok in *.
  destruct p; cbn [update_step at_pc locals pc_index fst snd stream_put_time] in *;
    try (destruct Hcopy as [Hf Hf2]; [lia|]);
    try (specialize (Horig ltac:(lia)));
    rewrite ?Hf, ?Hf2, ?Horig; try destruct (_ && _); frame_simpl;
    (split; [first [done|apply restore_tz_same]|]);
    split; intros Hlt; first [done | lia | by split].
Qed.

Lemma zone_free_insert s now i d oc :
  zone_free s -> m_time_timezone d = "" -> m_time_timezone_2 d = "" ->
  (forall c, oc = Some c -> frame_ok (s_env s) c) ->
  zone_free (System (s_env s) now (<[i := Worker d oc]> (s_workers s))).
Proof.
  intros Hs Hz Hz2 Hc j d' oc'. cbn [s_workers s_env].
  intros [[-> [= <- <-]]|[_ Hj]]%lookup_insert_Some; [done|by apply (Hs j)].
Qed.

Lemma input_toggle_same_settings cmd d :
  m_time_timezone (input_toggle cmd d) = m_time_timezone d
  /\ m_time_timezone_2 (input_toggle cmd d) = m_time_timezone_2 d.
Proof. unfold input_toggle. by case_bool_decide. Qed.

(** In a zone-free system no event writes the environment, and the
    system stays zone free. *)
Lemma step_quiet e s :
  zone_free s -> s_env (step e s) = s_env s /\ zone_free (step e s).
Proof.
  intros Hs. destruct s as [env now ws]. destruct e as [i|i|i cmd|dt]; cbn [step s_workers s_env s_now].
  - destruct (ws !! i) as [[d oc]|] eqn:Hi; [|done]. cbn [w_call w_module].
    destruct (returned oc); [|done]. split; [done|].
    destruct (Hs i d oc Hi) as (Hz & Hz2 & _).
    apply (zone_free_insert (System env now ws)); [done..|].
    intros c [= <-]. split; cbn; lia.
  - destruct (ws !! i) as [[d [c|]]|] eqn:Hi; [|done..].
    destruct (Hs i d (Some c) Hi) as (Hz & Hz2 & Hc).
    destruct (update_step_quiet now c d env Hz Hz2 (Hc c eq_refl)) as [Henv Hc'].
    pose proof (update_step_same_settings now c d env) as Hsame.
    destruct (update_step now c d env) as [[c' d'] env']. cbn [fst snd] in *. subst env'.
    split; [done|]. destruct Hsame as (_ & _ & _ & _ & Ht & Ht2 & _).
    apply (zone_free_insert (System env now ws)); [done|congruence..|by intros ? [= <-]].
  - destruct (ws !! i) as [[d oc]|] eqn:Hi; [|done]. split; [done|].
    destruct (Hs i d oc Hi) as (Hz & Hz2 & Hc). cbn [w_call w_module].
    destruct (input_toggle_same_settings cmd d) as [Ht Ht2].
    apply (zone_free_insert (System env now ws)); [done|congruence..|done].
  - done.
Qed.

Lemma same_view_refl i s : same_view i s s.
Proof. done. Qed.

(** An event that does not concern the worker [i] leaves its view of a
    zone-free system as it is. *)
Lemma step_other i e s :
  zone_free s -> concerns i e = false -> same_view i (step e s) s.
Proof.
  intros Hs He. destruct (step_quiet e s Hs) as [Henv _]. split; [done|].
  destruct e as [j|j|j cmd|dt]; cbn [concerns] in He; try done;
    apply bool_decide_eq_false in He; cbn [step].
  - destruct (s_workers s !! j) as [w|]; [|done]. destruct (returned _); [|done].
    split; [done|]. by apply lookup_insert_ne.
  - destruct (s_workers s !! j) as [[d [c|]]|]; [|done..].
    destruct (update_step _ _ _ _) as [[c' d'] env']. split; [done|]. by apply lookup_insert_ne.
  - destruct (s_workers s !! j) as [w|]; [|done]. split; [done|]. by apply lookup_insert_ne.
Qed.

(** An event of the worker [i] does the same in two systems of the same
    view. *)
Lemma step_local i e s1 s2 :
  same_view i s1 s2 -> concerns i e = true -> same_view i (step e s1) (step e s2).
Proof.
  destruct s1 as [env now ws1], s2 as [env2 now2 ws2]. unfold same_view.
  cbn [s_env s_now s_workers]. intros (<- & <- & Hi) He.
  destruct e as [j|j|j cmd|dt]; cbn [concerns] in He;
    try (apply bool_decide_eq_true in He as ->);
    cbn [step s_env s_now s_workers]; rewrite <- ?Hi; [..|done].
  all: destruct (ws1 !! i) as [[d oc]|] eqn:E; cbn [s_env s_now s_workers];
    [|by rewrite ?E].
  - cbn [w_call w_module]. destruct (returned _); cbn [s_env s_now s_workers];
      [|by rewrite ?E].
    by rewrite !lookup_insert_eq.
  - destruct oc as [c|]; cbn [s_env s_now s_workers]; [|by rewrite ?E].
    destruct (update_step _ _ _ _) as [[c' d'] env'].
    cbn [s_env s_now s_workers]. by rewrite !lookup_insert_eq.
  - cbn [s_env s_now s_workers]. by rewrite !lookup_insert_eq.
Qed.

Lemma run_zone_free es s : zone_free s -> zone_free (run_events es s).
Proof.
  revert s. induction es as [|e es IH]; intros s Hs; [done|].
  rewrite run_events_cons. apply IH, step_quiet, Hs.
Qed.

Lemma run_same_view i es s1 s2 :
  zone_free s1 -> same_view i s1 s2 ->
  same_view i (run_events es s1) (run_events (filter (fun e => concerns i e = true) es) s2).
Proof.
  revert s1 s2. induction es as [|e es IH]; intros s1 s2 Hs Hv; [done|].
  rewrite run_events_cons, filter_cons. destruct (concerns i e) eqn:He.
  - rewrite decide_True by done. rewrite run_events_cons.
    apply IH; [by apply step_quiet|by apply step_local].
  - rewrite decide_False by done. apply IH; [by apply step_quiet|].
    destruct (step_other i e s1 Hs He) as (? & ? & ?). destruct Hv as (? & ? & ?).
    unfold same_view. split_and!; congruence.
Qed.

(** C18. In this model, where a statement is atomic, the environment
    is the only channel between date modules: when
    no module names a time zone, under every schedule each worker ends
    as it does when the events of the other workers are left out, and
    the environment is never written. *)
Theorem zone_free_independent i es s :
  zone_free s ->
  s_workers (run_events es s) !! i = s_workers (run_events (filter (fun e => concerns i e = true) es) s) !! i
  /\ s_env (run_events es s) = s_env s.
Proof.
  intros Hs. split; [apply (run_same_view i es s s Hs (same_view_refl i s))|].
  clear i. revert s Hs. induction es as [|e es IH]; intros s Hs; [done|].
  rewrite run_events_cons. destruct (step_quiet e s Hs) as [Henv Hs']. by rewrite IH.
Qed.

End facts.

(** ** The schedules on concrete processes *)

Lemma click_system_zone_free : zone_free click_system.
Proof.
  intros j d oc Hj. cbn [click_system s_workers] in Hj.
  apply lookup_insert_Some in Hj as [[_ [= <- <-]]|[_ Hj]];
    [|apply lookup_singleton_Some in Hj as [_ [= <- <-]]];
    (split; [done|split; [done|by intros ? [=]]]).
Qed.

Lemma update_alone_witness :
  let s' := run_events (call_schedule 0) click_system in
  let r := update noon berlin click_date in
  s_env s' = r.2 /\ s_now s' = noon
  /\ exists f, s_workers s'
              = <[0 := Worker r.1.2 (Some (Call (Ret r.1.1) f))]> (s_workers click_system).
Proof. exact (update_alone 0 click_system click_date None eq_refl eq_refl). Defined.

Lemma torn_toggle_witness :
  exists d' c', s_workers (run_events (torn_schedule 0) click_system) !! 0 = Some (Worker d' (Some c'))
    /\ outcome (put_time (primary_tz berlin click_date) noon (date.date_format click_date))
         (put_time (primary_tz berlin click_date) noon
            (date.time_format (set_toggled (negb (m_toggled click_date)) click_date)))
         click_date d' c'
    /\ m_toggled d' = negb (m_toggled click_date).
Proof. exact (torn_toggle 0 click_system click_date None eq_refl eq_refl eq_refl). Defined.

Lemma tz_race_witness :
  exists d' c', s_workers (run_events (race_schedule 0 1) zone_system) !! 0 = Some (Worker d' (Some c'))
    /\ outcome (put_time (Some (m_time_timezone new_york_date)) noon (date.date_format tokyo_date))
         (put_time (Some (m_time_timezone new_york_date)) noon (date.time_format tokyo_date))
         tokyo_date d' c'.
Proof.
  exact (tz_race 0 1 zone_system tokyo_date new_york_date None None
           ltac:(done) eq_refl eq_refl eq_refl eq_refl ltac:(done) eq_refl).
Defined.

Lemma zone_free_independent_witness :
  s_workers (run_events (call_schedule 1 ++ torn_schedule 0) click_system) !! 0
  = s_workers (run_events (filter (fun e => concerns 0 e = true) (call_schedule 1 ++ torn_schedule 0))
                 click_system) !! 0
  /\ s_env (run_events (call_schedule 1 ++ torn_schedule 0) click_system) = s_env click_system.
Proof.
  exact (zone_free_independent 0 (call_schedule 1 ++ torn_schedule 0) click_system
           click_system_zone_free).
Defined.

(** Alone, the clock shows hour and minute, and after a click the long
    forms of both; a click in the middle of a call makes it show the
    hour with minute and second. *)
Example click_alone :
  shown 0 (run_events (call_schedule 0) click_system) = Some ("13", "34")
  /\ shown 0 (run_events (call_schedule 0 ++ EInput 0 EVENT_TOGGLE :: call_schedule 0) click_system)
     = Some ("13:34", "34:56").
Proof. by vm_compute. Qed.

Example click_torn :
  shown 0 (run_events (torn_schedule 0) click_system) = Some ("13", "34:56").
Proof. by vm_compute. Qed.

(** Alone, the clock of Tokyo shows 21:34; in the race it shows the
    time of New York. *)
Example zone_alone : shown 0 (run_events (call_schedule 0) zone_system) = Some ("", "21:34").
Proof. by vm_compute. Qed.

Example zone_race : shown 0 (run_events (race_schedule 0 1) zone_system) = Some ("", "07:34").
Proof. by vm_compute. Qed.

(** When the second worker then finishes its call it shows the time of
    Berlin, and it sets TZ back to what it read, the zone of the first:
    the process is left in the zone of Tokyo. *)
Example zone_race_corrupts_tz :
  let s := run_events (race_schedule 0 1 ++ replicate 13 (EUpdate 1)) zone_system in
  shown 1 s = Some ("", "13:34")
  /\ getenv "TZ" (s_env zone_system) = Some "Europe/Berlin"
  /\ getenv "TZ" (s_env s) = Some "Asia/Tokyo".
Proof. by vm_compute. Qed.

End date_steps.
