(* ===== verification/DateSerial.v ===== *)
(** * Schedules of date modules up to reordering

    [DateSteps] runs the statements of [date_module::update] and the
    calls of [input] of several modules under a schedule.  This file
    compares schedules: two schedules are equivalent when every worker
    meets the same events in the same order, the ticks of the clock
    included.  For a process in which no module names a time zone,
    equivalent schedules end in the same state, so every interleaving
    is as good as running the calls one after the other; with zones
    the examples of the end show two equivalent schedules that differ.
    The granularity is that of [DateSteps]: statements are atomic and
    the shared buffer of [localtime] is not modelled. *)

From Stdlib Require Import ZArith.
From S2P Require Import Prelude StringUtil Trace Lifecycle Environ Config Label Builder DateModule.
From S2P Require Import DateSteps.
Import date date_steps.

Module date_serial.

#[export] Instance event_eq_dec : EqDecision event.
Proof. solve_decision. Defined.

(** The module an event belongs to; a tick belongs to none. *)
Definition owner (e : event) : option nat :=
  match e with
  | ECall i | EUpdate i | EInput i _ => Some i
  | ETick _ => None
  end.

(** What the worker [i] meets of a schedule: its own events and the
    ticks. *)
Definition project (i : nat) (es : list event) : list event :=
  filter (fun e => concerns i e = true) es.

Definition ticks_of (es : list event) : list event :=
  filter (fun e => owner e = None) es.

Definition workers_of (es : list event) : list nat := omap owner es.

(** Every worker meets the same events in both schedules. *)
Definition equivalent (es1 es2 : list event) : bool :=
  bool_decide (ticks_of es1 = ticks_of es2)
  && forallb (fun i => bool_decide (project i es1 = project i es2)) (workers_of (es1 ++ es2)).

(** The calls of the workers [i] and [j], statement by statement in
    turns, and one call after the other. *)
Definition alternating (i j : nat) : list event :=
  ECall i :: ECall j :: concat (replicate update_length [EUpdate i; EUpdate j]).

Definition sequential (i j : nat) : list event := call_schedule i ++ call_schedule j.

(** ** Projections *)

Lemma concerns_owner i e :
  concerns i e = match owner e with Some j => bool_decide (j = i) | None => true end.
Proof. by destruct e. Qed.

(** A worker that owns no event of a schedule meets its ticks only. *)
Lemma project_stranger i es : i ∉ workers_of es -> project i es = ticks_of es.
Proof.
  unfold project, ticks_of, workers_of. induction es as [|e es IH]; [done|].
  rewrite !filter_cons, concerns_owner. cbn [omap list_omap].
  destruct (owner e) as [j|] eqn:Ho.
  - intros [Hne Hi]%not_elem_of_cons. rewrite bool_decide_eq_false_2 by done.
    rewrite decide_False by done. rewrite decide_False by done. by apply IH.
  - intros Hi. rewrite !decide_True by done. f_equal. by apply IH.
Qed.

(** [equivalent] decides that all the projections agree. *)
Lemma equivalent_project es1 es2 i :
  equivalent es1 es2 = true -> project i es1 = project i es2.
Proof.
  unfold equivalent. intros [Ht Hw]%andb_true_iff. apply bool_decide_eq_true in Ht.
  destruct (decide (i ∈ workers_of (es1 ++ es2))) as [Hi|Hi].
  - rewrite forallb_forall in Hw. apply list_elem_of_In, Hw in Hi.
    by apply bool_decide_eq_true in Hi.
  - unfold workers_of in Hi. rewrite omap_app, not_elem_of_app in Hi.
    destruct Hi as [H1 H2]. by rewrite !project_stranger.
Qed.

Lemma equivalent_refl es : equivalent es es = true.
Proof.
  unfold equivalent. rewrite bool_decide_eq_true_2 by done.
  apply forallb_forall. intros i _. by apply bool_decide_eq_true_2.
Qed.

(** ** Systems that no worker can tell apart are equal *)

Lemma same_view_sym i s1 s2 : same_view i s1 s2 -> same_view i s2 s1.
Proof. unfold same_view. intuition congruence. Qed.

Lemma same_view_trans i s1 s2 s3 : same_view i s1 s2 -> same_view i s2 s3 -> same_view i s1 s3.
Proof. unfold same_view. intuition congruence. Qed.

Lemma same_view_all s1 s2 : (forall i, same_view i s1 s2) -> s1 = s2.
Proof.
  destruct s1 as [env1 now1 ws1], s2 as [env2 now2 ws2]. intros H.
  destruct (H 0) as (He & Hn & _). cbn [s_env s_now] in *. subst. f_equal.
  apply map_eq. intros i. apply (H i).
Qed.

(** ** The equivalence *)

Section serial.
Context `{!TimeFormat}.

(** C19. Schedules in which every worker meets the same events in the
    same order are equivalent on a process in which no module names a
    time zone: they end in the same state, the environment, the clock
    and every module and call included.  Every interleaving of the
    statements of [update()] and of the calls of [input()] of
    different modules is then as good as any other. *)
Theorem schedules_equivalent es1 es2 s :
  zone_free s -> equivalent es1 es2 = true -> run_events es1 s = run_events es2 s.
Proof.
  intros Hs He. apply same_view_all. intros i.
  eapply same_view_trans; [apply (run_same_view i es1 s s Hs (same_view_refl i s))|].
  fold (project i es1). rewrite (equivalent_project es1 es2 i He).
  apply same_view_sym, (run_same_view i es2 s s Hs (same_view_refl i s)).
Qed.

End serial.

(** ** The schedules of two clocks *)

Example alternating_equivalent : equivalent (alternating 0 1) (sequential 0 1) = true.
Proof. by vm_compute. Qed.

Lemma schedules_equivalent_witness :
  run_events (alternating 0 1) click_system = run_events (sequential 0 1) click_system.
Proof.
  exact (schedules_equivalent (alternating 0 1) (sequential 0 1) click_system
           click_system_zone_free eq_refl).
Defined.

(** With zones the same two schedules differ: in turns, the clock of
    Tokyo shows the time of New York; one call after the other, each
    shows its own time. *)
Example zones_not_equivalent :
  let turns := run_events (alternating 0 1) zone_system in
  let serial := run_events (sequential 0 1) zone_system in
  (shown 0 turns, shown 1 turns, getenv "TZ" (s_env turns))
  = (Some ("", "07:34"), Some ("", "07:34"), Some "Europe/Berlin")
  /\ (shown 0 serial, shown 1 serial, getenv "TZ" (s_env serial))
     = (Some ("", "21:34"), Some ("", "07:34"), Some "Europe/Berlin").
Proof. by vm_compute. Qed.

End date_serial.
