(* ===== verification/RunnerSteps.v ===== *)
(** * The statements of event_module::runner, with other threads in between

    [EventModule.event_module.runner] is the worker as one function.
    Here the worker is at a location of
    src/include/modules/meta/event_module.hpp and [work] executes one
    statement; a call of [update()] takes two steps, one to enter and
    one to return, so that other threads can run while the
    implementation writes.  The other threads are the renderer, which
    takes the content lock, reads and releases it, and the owner, which
    asks the module to stop.  Taking a lock that is held blocks: the
    step leaves the state as it is. *)

From S2P Require Import Prelude Trace Lifecycle EventModule.
Import event_module.

Module runner_steps.

(** Where the worker is, by the line of the statement it executes
    next. *)
Inductive location : Type :=
| R22                        (* std::unique_lock guard(m_contentlock) *)
| R23                        (* update() is called *)
| U23                        (* update() is running and returns *)
| R24                        (* broadcast() *)
| R25                        (* guard.unlock() *)
| R32                        (* while (running()) *)
| R28                        (* std::lock_guard guard(m_contentlock) *)
| R29                        (* has_event() *)
| R29u                       (* && update() is called *)
| U29                        (* update() is running and returns *)
| R30 (r : result bool)      (* the scope of check ends: the guard unlocks *)
| R33 (c : bool)             (* if (check()) broadcast() *)
| R36                        (* idle() *)
| Unwind (e : string)        (* the guard of line 22 is destroyed by an exception *)
| R39 (e : string)           (* catch: halt(err.what()) *)
| Done.

#[export] Instance location_eq_dec : EqDecision location.
Proof. solve_decision. Defined.

(** The locations between a lock and its unlock. *)
Definition holds (l : location) : bool :=
  match l with
  | R23 | U23 | R24 | R25 | R29 | R29u | U29 | R30 _ | Unwind _ => true
  | _ => false
  end.

(** The locations inside a call of [update()]. *)
Definition writing (l : location) : bool :=
  match l with U23 | U29 => true | _ => false end.

Inductive move : Type :=
| MWork                      (* the worker executes its next statement *)
| MStop                      (* the owner asks the module to stop *)
| MLock                      (* the renderer takes the content lock *)
| MRead                      (* the renderer reads the content *)
| MUnlock.                   (* the renderer releases the content lock *)

Section steps.
Context {S : Type} `{!EventImpl S}.

(** The module, where its worker is, and the renderer. *)
Record state : Type := State {
  st_module : module S;
  st_at : location;
  st_reader : bool;                  (* the renderer holds the content lock *)
  st_reads : list (location * S);    (* what the renderer read, and where the worker was *)
}.

(** The worker goes to [l] with the module [m]. *)
Definition goto (l : location) (m : module S) (st : state) : state :=
  State m l (st_reader st) (st_reads st).

(** The worker about to run, no other thread active. *)
Definition initial (m : module S) : state := State m R22 false [].

(** One statement of the worker. *)
Definition work (st : state) : state :=
  let m := st_module st in
  match st_at st with
  | R22 => if m_contentlock m then st else goto R23 (mutex_lock m) st
  | R23 => goto U23 m st
  | U23 =>
      match call_update m with
      | (Ok _, m) => goto R24 m st
      | (Err e, m) => goto (Unwind e) m st
      end
  | R24 => goto R25 (broadcast m).2 st
  | R25 => goto R32 (mutex_unlock m) st
  | R32 => if m_enabled m then goto R28 m st else goto Done m st
  | R28 => if m_contentlock m then st else goto R29 (mutex_lock m) st
  | R29 =>
      match call_has_event m with
      | (Ok true, m) => goto R29u m st
      | (Ok false, m) => goto (R30 (Ok false)) m st
      | (Err e, m) => goto (R30 (Err e)) m st
      end
  | R29u => goto U29 m st
  | U29 => let '(r, m) := call_update m in goto (R30 r) m st
  | R30 r =>
      match r with
      | Ok c => goto (R33 c) (mutex_unlock m) st
      | Err e => goto (R39 e) (mutex_unlock m) st
      end
  | R33 c => goto R36 (if c then (broadcast m).2 else m) st
  | R36 =>
      match call_idle m with
      | (Ok _, m) => goto R32 m st
      | (Err e, m) => goto (R39 e) m st
      end
  | Unwind e => goto (R39 e) (mutex_unlock m) st
  | R39 e => goto Done (halt e m).2 st
  | Done => st
  end.

(** One move of any thread. *)
Definition do_move (e : move) (st : state) : state :=
  let m := st_module st in
  match e with
  | MWork => work st
  | MStop => State (stop m) (st_at st) (st_reader st) (st_reads st)
  | MLock =>
      if m_contentlock m || st_reader st then st
      else State (set_contentlock true m) (st_at st) true (st_reads st)
  | MRead =>
      if st_reader st
      then State m (st_at st) true (st_reads st ++ [(st_at st, impl m)])
      else st
  | MUnlock =>
      if st_reader st
      then State (set_contentlock false m) (st_at st) false (st_reads st)
      else st
  end.

(** A schedule, first move first. *)
Fixpoint play (es : list move) (st : state) : state :=
  match es with
  | [] => st
  | e :: es => play es (do_move e st)
  end.

(** The moves of the worker and of the owner. *)
Definition own_move (e : move) : bool :=
  match e with MWork | MStop => true | _ => false end.

(** The lock is held by exactly the thread that is between its lock and
    its unlock, and by one at most. *)
Definition exclusive (st : state) : Prop :=
  m_contentlock (st_module st) = holds (st_at st) || st_reader st
  /\ (holds (st_at st) && st_reader st = false).

(** The trace of the module records the worker's own locks: the lock
    monitor accepts it and ends in whether the worker holds the lock. *)
Definition monitored st : Prop :=
  lock_run false (m_trace (st_module st)) = Some (holds (st_at st)).

(** Every read of the renderer was made with the worker outside its
    guarded regions. *)
Definition reads_ok st : Prop := Forall (fun o => holds o.1 = false) (st_reads st).

(** [n] statements of the worker in a row. *)
Definition works (n : nat) : list move := replicate n MWork.

(** Where the worker is after the loop. *)
Definition after_loop (r : result unit) : location :=
  match r with Ok _ => Done | Err e => R39 e end.

(** Where the worker is after a pass of the loop. *)
Definition after_pass (r : result unit) : location :=
  match r with Ok _ => R32 | Err e => R39 e end.

End steps.

Arguments state S : clear implicits.

(** Split on the outcome of the call the worker is at. *)
Ltac work_cases m :=
  unfold call_update, call_has_event, call_idle;
  repeat match goal with
  | |- context [call ?f ?a m] =>
      let H := fresh "Hlock" in
      let T := fresh "Htrace" in
      pose proof (call_lock f a m) as H; pose proof (call_trace f a m) as T;
      destruct (call f a m) as [[[]|] ?]; cbn [fst snd] in H, T
  end.

(** Execute the statements of a schedule of the worker, reading the
    outcomes of the calls from the equations at hand. *)
Ltac work_run :=
  repeat (cbn [works replicate play do_move work st_module st_at goto snd
               broadcast modify];
          repeat match goal with
                 | H : m_contentlock _ = false |- _ => rewrite H
                 | H : call_update _ = _ |- _ => rewrite H
                 | H : call_has_event _ = _ |- _ => rewrite H
                 | H : call_idle _ = _ |- _ => rewrite H
                 end).

Section facts.
Context {S : Type} `{!EventImpl S}.
Implicit Types (m : module S) (st : state S) (l : location) (es : list move).

Lemma play_cons e es st : play (e :: es) st = play es (do_move e st).
Proof. reflexivity. Qed.

Lemma play_app es1 es2 st :
  play (es1 ++ es2) st = play es2 (play es1 st).
Proof. revert st. induction es1 as [|e es1 IH]; intros st; [done|]. apply IH. Qed.

(** The worker and the lock flag: a statement sets the flag when the
    worker enters a guarded region, clears it when it leaves one, and
    leaves it alone otherwise; a blocked worker does not move. *)
Lemma work_exclusive st : exclusive st -> exclusive (work st).
Proof.
  destruct st as [m l rd reads]. unfold exclusive, work. cbn [st_module st_at st_reader].
  intros [Hl Hx].
  destruct l as [| | | | | | | | | |[c|e]|c| | | |]; cbn [holds orb andb] in *;
    work_cases m; rewrite ?Hl in *;
    try (destruct rd; [try done|]); try (destruct (m_enabled m));
    try (destruct c); cbn [goto st_module st_at st_reader holds orb andb]; try done.
Qed.

(** The worker does not touch the renderer. *)
Lemma work_reader st :
  st_reader (work st) = st_reader st /\ st_reads (work st) = st_reads st.
Proof.
  destruct st as [m l rd reads]. unfold work. cbn [st_module st_at].
  destruct l as [| | | | | | | | | |[c|e]|c| | | |]; work_cases m;
    try (destruct (m_contentlock m)); try (destruct (m_enabled m)); done.
Qed.

Lemma step_exclusive e st : exclusive st -> exclusive (do_move e st).
Proof.
  destruct e; cbn [do_move]; [apply work_exclusive|..]; unfold exclusive;
    destruct st as [m l rd reads]; cbn [st_module st_at st_reader]; intros [Hl Hx].
  - unfold stop. destruct (m_enabled m); simpl; done.
  - rewrite Hl. destruct (holds l) eqn:Hh, rd; simpl; rewrite ?Hh; done.
  - by destruct rd.
  - destruct rd; [|done]. simpl. by destruct (holds l).
Qed.

Lemma run_exclusive es st : exclusive st -> exclusive (play es st).
Proof.
  revert st. induction es as [|e es IH]; intros st Hst; [done|].
  apply IH, step_exclusive, Hst.
Qed.

Lemma work_monitored st : monitored st -> monitored (work st).
Proof.
  destruct st as [m l rd reads]. unfold monitored, work. cbn [st_module st_at].
  intros Hm.
  destruct l as [| | | | | | | | | |[c|e]|c| | | |]; work_cases m;
    try (destruct (m_contentlock m)); try (destruct (m_enabled m)); try (destruct c);
    cbn [goto st_module st_at holds mutex_lock mutex_unlock broadcast modify halt snd
         log set_contentlock set_changed set_halted set_enabled m_trace];
    rewrite ?Htrace; try (erewrite run_snoc by eassumption); done.
Qed.

Lemma step_monitored e st : monitored st -> monitored (do_move e st).
Proof.
  destruct e; cbn [do_move]; [apply work_monitored|..]; unfold monitored;
    destruct st as [m l rd reads]; cbn [st_module st_at st_reader]; intros Hm.
  - unfold stop. destruct (m_enabled m); [|done]. simpl. by erewrite run_snoc by eassumption.
  - by destruct (_ || _).
  - by destruct rd.
  - by destruct rd.
Qed.

Lemma step_reads_ok e st : exclusive st -> reads_ok st -> reads_ok (do_move e st).
Proof.
  intros [_ Hx] Hr. destruct e; cbn [do_move]; unfold reads_ok in *.
  - by rewrite (proj2 (work_reader st)).
  - done.
  - by destruct (_ || _).
  - destruct (st_reader st) eqn:Hrd; [|done]. cbn [st_reads].
    apply Forall_app. split; [done|]. apply Forall_singleton. cbn [fst].
    by rewrite andb_true_r in Hx.
  - by destruct (st_reader st).
Qed.

Lemma play_exclusive es st :
  exclusive st -> reads_ok st -> exclusive (play es st) /\ reads_ok (play es st).
Proof.
  revert st. induction es as [|e es IH]; intros st Hx Hr; [done|].
  apply IH; [by apply step_exclusive|by apply step_reads_ok].
Qed.

Lemma play_monitored es st : monitored st -> monitored (play es st).
Proof.
  revert st. induction es as [|e es IH]; intros st Hm; [done|].
  apply IH, step_monitored, Hm.
Qed.

Lemma works_own n : Forall (fun e => own_move e = true) (works n).
Proof. induction n; by constructor. Qed.

(** The warm-up, lines 22 to 25. *)
Lemma warm_up_steps m rd reads :
  m_contentlock m = false ->
  exists n, play (works n) (State m R22 rd reads)
            = State (warm_up m).2
                (match (warm_up m).1 with Ok _ => R32 | Err e => R39 e end) rd reads.
Proof.
  intros Hl. unfold warm_up, unique_lock_acquire, bind, broadcast, modify.
  destruct (call_update (mutex_lock m)) as [[b|e] m1] eqn:E;
    [exists 5|exists 4]; by work_run.
Qed.

(** One pass of the loop, lines 33 to 36, the check included. *)
Lemma iteration_steps m rd reads :
  m_contentlock m = false ->
  exists n, play (works n) (State m R28 rd reads)
            = State (iteration m).2 (after_pass (iteration m).1) rd reads.
Proof.
  intros Hl. unfold iteration, check, lock_guard, finally, bind, ret, broadcast, modify.
  destruct (call_has_event (mutex_lock m)) as [[[]|e] m1] eqn:E1;
    [destruct (call_update m1) as [[[]|e] m2] eqn:E2|..];
    try (destruct (call_idle _) as [[[]|e] m3] eqn:E3).
  all: first [by exists 7; work_run | by exists 5; work_run | by exists 3; work_run].
Qed.

Lemma own_app es1 es2 :
  Forall (fun e => own_move e = true) es1 -> Forall (fun e => own_move e = true) es2 ->
  Forall (fun e => own_move e = true) (es1 ++ es2).
Proof. intros. by apply Forall_app. Qed.

(** The loop, lines 32 to 37: a stop request of the schedule is an
    move of the owner just before the test of line 32. *)
Lemma loop_steps sched m r m' rd reads :
  loop sched m = Some (r, m') -> m_contentlock m = false ->
  exists es, Forall (fun e => own_move e = true) es
    /\ play es (State m R32 rd reads) = State m' (after_loop r) rd reads.
Proof.
  revert m. induction sched as [|b sched IH]; intros m; [done|]. cbn [loop].
  set (m0 := if b then stop m else m). intros Hloop Hl.
  assert (Hstop : exists es0, Forall (fun e => own_move e = true) es0
            /\ play es0 (State m R32 rd reads) = State m0 R32 rd reads
            /\ m_contentlock m0 = false).
  { subst m0. destruct b; [exists [MStop]|exists []]; (split; [by repeat constructor|]);
      (split; [done|]); [|done]. unfold stop. by destruct (m_enabled m). }
  destruct Hstop as (es0 & Hown0 & Hrun0 & Hl0).
  unfold running, gets in Hloop. destruct (m_enabled m0) eqn:Hen.
  - destruct (iteration_steps m0 rd reads Hl0) as (n & Hn).
    destruct (iteration m0) as [[[]|e] m1] eqn:Ei; cbn [fst snd after_pass] in Hn.
    + pose proof Ei as (ti & _ & _ & _ & Hl1)%iteration_spec.
      destruct (IH m1 Hloop Hl1) as (es1 & Hown1 & Hrun1).
      exists (es0 ++ MWork :: works n ++ es1).
      split; [apply own_app; [done|constructor; [done|apply own_app; [apply works_own|done]]]|].
      rewrite play_app, Hrun0, play_cons. cbn [do_move work st_module st_at].
      rewrite Hen. unfold goto. cbn [st_reader st_reads]. by rewrite play_app, Hn.
    + injection Hloop as <- <-. exists (es0 ++ MWork :: works n).
      split; [apply own_app; [done|constructor; [done|apply works_own]]|].
      rewrite play_app, Hrun0, play_cons. cbn [do_move work st_module st_at].
      rewrite Hen. unfold goto. cbn [st_reader st_reads]. by rewrite Hn.
  - injection Hloop as <- <-. exists (es0 ++ [MWork]).
    split; [apply own_app; [done|by repeat constructor]|].
    rewrite play_app, Hrun0. cbn [play do_move work st_module st_at].
    by rewrite Hen.
Qed.

(** C8. The statements refine the worker: every finished run of
    [runner] on a schedule of stop requests is a schedule of statements
    of the worker and stop requests of the owner that ends in the same
    module, with the worker past its last statement. *)
Theorem runner_steps_refine sched m m' :
  runner sched m = Some m' -> m_contentlock m = false ->
  exists es, Forall (fun e => own_move e = true) es
    /\ play es (initial m) = State m' Done false [].
Proof.
  unfold runner, runner_try, initial. intros Hrun Hl.
  destruct (warm_up_steps m false [] Hl) as (n & Hn).
  pose proof (warm_up_spec m (warm_up m).1 (warm_up m).2) as Hw.
  destruct (warm_up m) as [[g|e] m1] eqn:Ew; cbn [fst snd] in Hn, Hw.
  - destruct (Hw eq_refl) as (_ & Hl1 & Hg).
    destruct (loop sched m1) as [[r m2]|] eqn:El; [|done].
    destruct (loop_steps sched m1 r m2 false [] El Hl1) as (es & Hown & Hes).
    assert (Hg' : unique_lock_release g m2 = m2).
    { destruct (impl_update (impl m)).1; destruct Hg as [[= ->] _]; done. }
    rewrite Hg' in Hrun. destruct r as [[]|e]; injection Hrun as <-.
    + exists (works n ++ es). split; [apply own_app; [apply works_own|done]|].
      by rewrite play_app, Hn.
    + exists (works n ++ es ++ [MWork]).
      split; [apply own_app; [apply works_own|apply own_app; [done|by repeat constructor]]|].
      by rewrite !play_app, Hn, Hes.
  - injection Hrun as <-. exists (works n ++ [MWork]).
    split; [apply own_app; [apply works_own|by repeat constructor]|].
    by rewrite play_app, Hn.
Qed.

(** C2. Mutual exclusion, under every schedule of the worker, the owner
    and the renderer: the content lock is held by exactly the thread
    that is between its lock and its unlock; while [update()] runs the
    renderer does not hold the lock; and every read of the renderer
    was made with the worker outside the regions it guards, so it never
    sees a content that is being written. *)
Theorem mutual_exclusion es m :
  m_contentlock m = false ->
  let st := play es (initial m) in
  exclusive st
  /\ (writing (st_at st) = true -> st_reader st = false /\ m_contentlock (st_module st) = true)
  /\ Forall (fun o => holds o.1 = false) (st_reads st).
Proof.
  intros Hl st.
  destruct (play_exclusive es (initial m)) as [Hx Hr]; [by split|by constructor|].
  split; [done|]. split; [|done]. destruct Hx as [Hlock Hex]. fold st in Hlock, Hex.
  intros Hw. assert (Hh : holds (st_at st) = true) by (by destruct (st_at st)).
  rewrite Hh in Hlock, Hex. by destruct (st_reader st).
Qed.

(** C15. The lock discipline of the worker holds at every moment of
    every schedule, not only at the end of a run: the trace so far is
    accepted by the lock monitor, which ends in whether the worker is
    in a guarded region.  So [update()] and [has_event()] have been
    called with the lock held only, and [idle()] and [halt()] with the
    lock released. *)
Theorem worker_calls_under_lock es m :
  lock_run false (m_trace m) = Some false ->
  let st := play es (initial m) in
  lock_run false (m_trace (st_module st)) = Some (holds (st_at st)).
Proof. intros Ht. by apply (play_monitored es (initial m)). Qed.

End facts.

(** ** The schedules on a concrete module *)

(** The renderer asks for the lock while the warm-up is inside
    [update()], reads, and the worker goes on. *)
Definition demo_moves : list move :=
  [MWork; MWork; MLock; MRead; MWork; MWork; MWork; MLock; MRead; MWork; MWork; MUnlock;
   MWork; MWork].

Lemma runner_steps_refine_witness :
  exists es, Forall (fun e => own_move e = true) es
    /\ play es (initial demo) = State demo_final Done false [].
Proof. exact (runner_steps_refine demo_sched demo demo_final eq_refl eq_refl). Defined.

Lemma mutual_exclusion_witness :
  let st := play demo_moves (initial demo) in
  exclusive st
  /\ (writing (st_at st) = true -> st_reader st = false /\ m_contentlock (st_module st) = true)
  /\ Forall (fun o => holds o.1 = false) (st_reads st).
Proof. exact (mutual_exclusion demo_moves demo eq_refl). Defined.

Lemma worker_calls_under_lock_witness :
  let st := play demo_moves (initial demo) in
  lock_run false (m_trace (st_module st)) = Some (holds (st_at st)).
Proof. exact (worker_calls_under_lock demo_moves demo eq_refl). Defined.

(** The first request of the renderer is refused, the worker being
    inside the warm-up; the second is granted, the renderer reads with
    the worker at the loop test, and the worker then waits at line 28
    until the renderer has released the lock. *)
Example demo_moves_blocked :
  let st := play (take 4 demo_moves) (initial demo) in
  st_at st = U23 /\ st_reader st = false /\ st_reads st = [].
Proof. by vm_compute. Qed.

Example demo_moves_read :
  let st := play (take 11 demo_moves) (initial demo) in
  st_at st = R28 /\ st_reader st = true /\ fst <$> st_reads st = [R32].
Proof. by vm_compute. Qed.

Example demo_moves_resumed :
  st_at (play demo_moves (initial demo)) = R29u.
Proof. by vm_compute. Qed.

End runner_steps.
